(** * OSM extractor: the OSM-to-GeoJSON geometry pipeline

    A shallow embedding of [src/utils.js] (coordinate validation, file
    names), [src/geometryProcessor.js] (classification, tag cleaning,
    boundary clipping, conversion, statistics, sampling, splitting,
    cleaning), of the geometry filter, the export dispatch and the XML
    escaping of [src/exportService.js] and of the upload check of
    [src/fileParser.js], followed by the properties of the specification
    that concern them and by further properties of the code. *)

From Stdlib Require Import QArith ZArith List String Ascii Bool Lia.
From stdpp Require Import base option list gmap strings fin_maps.

Local Open Scope string_scope.
Local Open Scope list_scope.
Local Open Scope nat_scope.

(** ** JavaScript values in number position *)

Module JS.

(** What the code may find where it expects a number: a finite number,
    [NaN] (produced by [Math.min]/[Math.max] on a missing operand) or
    [undefined] (a field that the element does not carry).  Finite IEEE
    doubles are rationals, and the code only compares them and selects
    among them, which is exact. *)
Inductive num :=
| Num (q : Q)
| NaN
| Undefined.

(** [if (x)] *)
Definition truthy (x : num) : bool :=
  match x with
  | Num q => negb (Qeq_bool q 0)
  | NaN | Undefined => false
  end.

(** [a >= b] and [a <= b]: false as soon as one side is not a number. *)
Definition ge (a b : num) : bool :=
  match a, b with
  | Num x, Num y => Qle_bool y x
  | _, _ => false
  end.

Definition le (a b : num) : bool :=
  match a, b with
  | Num x, Num y => Qle_bool x y
  | _, _ => false
  end.

(** [a !== b] *)
Definition strict_ne (a b : num) : bool :=
  match a, b with
  | Num x, Num y => negb (Qeq_bool x y)
  | Undefined, Undefined => false
  | _, _ => true
  end.

Definition Math_min (a b : num) : num :=
  match a, b with
  | Num x, Num y => Num (if Qle_bool x y then x else y)
  | _, _ => NaN
  end.

Definition Math_max (a b : num) : num :=
  match a, b with
  | Num x, Num y => Num (if Qle_bool x y then y else x)
  | _, _ => NaN
  end.

(** A tag value.  The data model has strings; [cleanProperties] also
    guards against [null] and [undefined]. *)
Inductive value :=
| VNull
| VUndefined
| VString (s : string).

(** [if (tags[key])] on the result of a property lookup *)
Definition truthy_prop (o : option value) : bool :=
  match o with
  | Some (VString s) => negb (String.eqb s "")
  | _ => false
  end.

(** [tags.key === 'literal'] *)
Definition is_string (o : option value) (s : string) : bool :=
  match o with
  | Some (VString s') => String.eqb s' s
  | _ => false
  end.

(** [throw] and [return] *)
Inductive Exn :=
| TypeError (message : string)
| Error (message : string).

Definition message (e : Exn) : string :=
  match e with
  | TypeError m | Error m => m
  end.

Inductive Result (A : Type) :=
| Return (a : A)
| Throw (e : Exn).
Arguments Return {A} a.
Arguments Throw {A} e.

(** Sequencing: a [throw] skips the rest of the block. *)
Definition bind {A B} (c : Result A) (k : A -> Result B) : Result B :=
  match c with
  | Return a => k a
  | Throw e => Throw e
  end.

(** [try { body } catch (error) { handler }] *)
Definition try_catch {A} (body : Result A) (handler : Exn -> Result A) : Result A :=
  match body with
  | Return a => Return a
  | Throw e => handler e
  end.

End JS.

(** ** Data model *)

(** A tag bag: a JavaScript object used as a map from tag keys to values.
    Keys are ordinary tag names. *)
Abbreviation Tags := (gmap string JS.value).

(** A position, [[lon, lat]]. *)
Abbreviation Coord := (JS.num * JS.num)%type.

Record Node := {
  node_id : Z;
  lat : JS.num;
  lon : JS.num;
  node_tags : option Tags
}.

Record Way := {
  way_id : Z;
  way_nodes : option (list Z);
  way_tags : option Tags
}.

Record Member := {
  member_type : string;
  ref : Z;
  role : string
}.

Record Relation := {
  relation_id : Z;
  members : option (list Member);
  relation_tags : option Tags
}.

(** [el.type] selects the kind; any other type string is [other_element]. *)
Inductive Element :=
| node (n : Node)
| way (w : Way)
| relation (r : Relation)
| other_element.

Inductive Geometry :=
| Point (coordinates : Coord)
| LineString (coordinates : list Coord)
| Polygon (coordinates : list (list Coord))
| MultiLineString (coordinates : list (list Coord))
| MultiPoint (coordinates : list Coord)
| MultiPolygon (coordinates : list (list (list Coord)))
| OtherGeometry (type : string).

(** [geometry.type] *)
Definition geometry_type (g : Geometry) : string :=
  match g with
  | Point _ => "Point"
  | LineString _ => "LineString"
  | Polygon _ => "Polygon"
  | MultiLineString _ => "MultiLineString"
  | MultiPoint _ => "MultiPoint"
  | MultiPolygon _ => "MultiPolygon"
  | OtherGeometry t => t
  end.

(** [geometry.coordinates.length] *)
Definition coordinates_length (g : Geometry) : nat :=
  match g with
  | Point _ => 2
  | LineString cs => length cs
  | Polygon rs => length rs
  | MultiLineString ls => length ls
  | MultiPoint cs => length cs
  | MultiPolygon ps => length ps
  | OtherGeometry _ => 0
  end.

Record Feature := {
  geometry : Geometry;
  properties : Tags
}.

Record FeatureCollection := {
  features : option (list Feature);
  crs : string
}.

Definition EPSG4326 : string := "EPSG:4326".

(** Leaflet bounds, as read through [getWest] ... [getNorth]. *)
Record LatLngBounds := {
  getWest : Q;
  getEast : Q;
  getSouth : Q;
  getNorth : Q
}.

(** The stored clip polygon: [coordinates] is a list of rings. *)
Record ClipPolygon := {
  clip_coordinates : list (list (Q * Q))
}.

Record ProgressEvent := {
  stage : string;
  message : string;
  progress : Z
}.

(** ** src/utils.js *)

Module Utils.

Definition isValidCoordinate (lat lon : JS.num) : bool :=
  JS.ge lat (JS.Num (-90)) && JS.le lat (JS.Num 90)
  && JS.ge lon (JS.Num (-180)) && JS.le lon (JS.Num 180).

(** The characters outside the class [[^a-zA-Z0-9_-]]. *)
Definition filename_char (c : ascii) : bool :=
  let n := nat_of_ascii c in
  ((97 <=? n) && (n <=? 122))
  || ((65 <=? n) && (n <=? 90))
  || ((48 <=? n) && (n <=? 57))
  || (n =? 95) || (n =? 45).

(** [s.replace(/[^a-zA-Z0-9_-]/g, '_')], character by character. *)
Fixpoint replace_unsafe (s : string) : string :=
  match s with
  | EmptyString => EmptyString
  | String c rest =>
      String (if filename_char c then c else "_"%char) (replace_unsafe rest)
  end.

(** [name.replace(/[^a-zA-Z0-9_-]/g, '_').substring(0, 100)] *)
Definition sanitizeFilename (name : string) : string :=
  String.substring 0 100 (replace_unsafe name).

End Utils.

(** ** src/geometryProcessor.js *)

Module GeometryProcessor.

(** [setClipBoundary]: the value left in [this.clipBoundary]. *)
Definition boundary_polygon (bounds : LatLngBounds) : ClipPolygon :=
  {| clip_coordinates :=
       [[ (getWest bounds, getNorth bounds);
          (getEast bounds, getNorth bounds);
          (getEast bounds, getSouth bounds);
          (getWest bounds, getSouth bounds);
          (getWest bounds, getNorth bounds) ]] |}.

Definition setClipBoundary (bounds : option LatLngBounds) : option ClipPolygon :=
  match bounds with
  | None => None
  | Some bounds => Some (boundary_polygon bounds)
  end.

(** [this.clipBoundary.coordinates[0][i]] *)
Definition bounds_at (cb : ClipPolygon) (i : nat) : Q * Q :=
  nth i (nth 0 (clip_coordinates cb) []) (0, 0)%Q.

Definition minLon (cb : ClipPolygon) : Q := fst (bounds_at cb 3).
Definition maxLon (cb : ClipPolygon) : Q := fst (bounds_at cb 1).
Definition minLat (cb : ClipPolygon) : Q := snd (bounds_at cb 2).
Definition maxLat (cb : ClipPolygon) : Q := snd (bounds_at cb 0).

(** [lon >= minLon && lon <= maxLon && lat >= minLat && lat <= maxLat] *)
Definition within (cb : ClipPolygon) (lon lat : JS.num) : bool :=
  JS.ge lon (JS.Num (minLon cb)) && JS.le lon (JS.Num (maxLon cb))
  && JS.ge lat (JS.Num (minLat cb)) && JS.le lat (JS.Num (maxLat cb)).

Definition isPointInBoundary (clipBoundary : option ClipPolygon)
    (lon lat : JS.num) : bool :=
  match clipBoundary with
  | None => true
  | Some cb => within cb lon lat
  end.

Definition clipPointToBoundary (lon lat : JS.num)
    (minLon maxLon minLat maxLat : Q) : Coord :=
  (JS.Math_max (JS.Num minLon) (JS.Math_min (JS.Num maxLon) lon),
   JS.Math_max (JS.Num minLat) (JS.Math_min (JS.Num maxLat) lat)).

(** The body of the [for] loop of [clipLineString] at index [i]; [clipped]
    is the array built so far.  The index is always in range. *)
Definition clipLineString_body (cb : ClipPolygon) (coords : list Coord)
    (clipped : list Coord) (i : nat) : list Coord :=
  match coords !! i with
  | None => clipped
  | Some (lon, lat) =>
      if within cb lon lat then clipped ++ [(lon, lat)]
      else if (0 <? length clipped) && (i <? length coords - 1) then
        match coords !! (i + 1) with
        | Some (nextLon, nextLat) =>
            if within cb nextLon nextLat
            then clipped ++ [clipPointToBoundary lon lat
                               (minLon cb) (maxLon cb) (minLat cb) (maxLat cb)]
            else clipped
        | None => clipped
        end
      else clipped
  end.

Definition clipLineString (clipBoundary : option ClipPolygon)
    (coords : list Coord) : list Coord :=
  match clipBoundary with
  | None => coords
  | Some cb =>
      fold_left (clipLineString_body cb coords) (seq 0 (length coords)) []
  end.

(** One ring of [clipPolygon]: filter, then close. *)
Definition clipRing (cb : ClipPolygon) (ring : list Coord) : list Coord :=
  let clipped := List.filter (fun c => within cb (fst c) (snd c)) ring in
  if 3 <=? length clipped then
    match head clipped, last clipped with
    | Some first, Some final =>
        if JS.strict_ne (fst first) (fst final)
           || JS.strict_ne (snd first) (snd final)
        then clipped ++ [first]
        else clipped
    | _, _ => clipped
    end
  else clipped.

Definition clipPolygon (clipBoundary : option ClipPolygon)
    (rings : list (list Coord)) : list (list Coord) :=
  match clipBoundary with
  | None => rings
  | Some cb =>
      List.filter (fun ring => 4 <=? length ring) (map (clipRing cb) rings)
  end.

(** [clipFeatureToBoundary]: [None] is the [null] result. *)
Definition clipFeatureToBoundary (clipBoundary : option ClipPolygon)
    (feature : Feature) : option Feature :=
  match clipBoundary with
  | None => Some feature
  | Some cb =>
      match geometry feature with
      | Point (lon, lat) =>
          if negb (isPointInBoundary clipBoundary lon lat) then None
          else Some feature
      | LineString coordinates =>
          let coordinates := clipLineString clipBoundary coordinates in
          if length coordinates <? 2 then None
          else Some {| geometry := LineString coordinates;
                       properties := properties feature |}
      | Polygon coordinates =>
          let coordinates := clipPolygon clipBoundary coordinates in
          if (length coordinates =? 0)
             || (length (nth 0 coordinates []) <? 4) then None
          else Some {| geometry := Polygon coordinates;
                       properties := properties feature |}
      | MultiLineString coordinates =>
          let coordinates :=
            List.filter (fun line => 2 <=? length line)
              (map (clipLineString clipBoundary) coordinates) in
          if length coordinates =? 0 then None
          else Some {| geometry := MultiLineString coordinates;
                       properties := properties feature |}
      | _ => Some feature
      end
  end.

Definition polygonTags : list string :=
  [ "building"; "landuse"; "amenity"; "leisure"; "tourism";
    "aeroway"; "natural"; "place"; "shop"; "office";
    "craft"; "military"; "public_transport" ].

Definition isAreaFeature (tags : option Tags) (isClosed : bool)
    (nodeCount : nat) : bool :=
  if negb isClosed || (nodeCount <? 4) then false
  else match tags with
  | None => false
  | Some tags =>
      if JS.is_string (tags !! "area") "yes" then true
      else if JS.is_string (tags !! "area") "no" then false
      else if existsb (fun tag => JS.truthy_prop (tags !! tag)) polygonTags
      then true
      else if JS.is_string (tags !! "natural") "water"
              || JS.is_string (tags !! "natural") "wood"
              || JS.is_string (tags !! "natural") "scrub"
              || JS.is_string (tags !! "natural") "wetland" then true
      else if JS.is_string (tags !! "waterway") "riverbank"
              || JS.is_string (tags !! "waterway") "dock" then true
      else false
  end.

Definition skipFields : list string :=
  [ "created_by"; "source"; "source:ref"; "attribution" ].

(** [value === null || value === undefined || value === ''] *)
Definition empty_value (v : JS.value) : bool :=
  match v with
  | JS.VNull | JS.VUndefined => true
  | JS.VString s => String.eqb s ""
  end.

(** [skipFields.includes(key)] *)
Definition includes (l : list string) (key : string) : bool :=
  existsb (String.eqb key) l.

(** The body of the loop over [Object.entries(tags)]. *)
Definition cleanProperties_body (key : string) (v : JS.value)
    (cleaned : Tags) : Tags :=
  if empty_value v then cleaned
  else if includes skipFields key then cleaned
  else <[key := v]> cleaned.

(** What one entry contributes to the result of the loop. *)
Definition kept (key : string) (v : JS.value) : option JS.value :=
  if empty_value v || includes skipFields key then None else Some v.

Definition cleanProperties (tags : option Tags) : Tags :=
  match tags with
  | None => ∅
  | Some tags => map_fold cleanProperties_body ∅ tags
  end.

(** *** The converter

    [osmToGeoJSON] reads [this.clipBoundary] and calls the progress sink,
    when one is supplied, as it goes.  The sink is modelled by the list of
    events it receives, in order.  The two percentages of the intermediate
    events are computed in floating point (a division, a product, then
    [Math.floor]); they are left as parameters. *)

Section Converter.

Variable clipBoundary : option ClipPolygon.

(** [Math.floor((processed / totalElements) * 50)] *)
Variable node_pass_progress : forall (processed totalElements : nat), Z.

(** [50 + Math.floor(((processed - Object.keys(nodes).length) / ways.length) * 40)] *)
Variable way_pass_progress : forall (processed nodeKeys waysLength : nat), Z.

(** Whether [onProgress] is supplied. *)
Variable onProgress : bool.

(** The variables the three passes update: [geojson.features],
    [processed], and the calls made to the sink. *)
Record Conv := {
  collected : list Feature;
  processed : nat;
  reported : list ProgressEvent
}.

Definition push (f : Feature) (st : Conv) : Conv :=
  {| collected := collected st ++ [f];
     processed := processed st;
     reported := reported st |}.

Definition tick (st : Conv) : Conv :=
  {| collected := collected st;
     processed := S (processed st);
     reported := reported st |}.

Definition report (e : ProgressEvent) (st : Conv) : Conv :=
  {| collected := collected st;
     processed := processed st;
     reported := reported st ++ [e] |}.

(** [nodes[el.id] = el] over the elements, in order. *)
Definition node_lookup (elements : list Element) : gmap Z Node :=
  fold_left (fun nodes el =>
    match el with
    | node n => <[node_id n := n]> nodes
    | _ => nodes
    end) elements ∅.

Definition ways_of (elements : list Element) : list Way :=
  omap (fun el => match el with way w => Some w | _ => None end) elements.

Definition relations_of (elements : list Element) : list Relation :=
  omap (fun el => match el with relation r => Some r | _ => None end) elements.

(** [el.tags && Object.keys(el.tags).length > 0] *)
Definition has_tags (tags : option Tags) : bool :=
  match tags with
  | None => false
  | Some t => 0 <? size t
  end.

Definition process_node (totalElements : nat) (st : Conv) (el : Element) : Conv :=
  let st :=
    match el with
    | node n =>
        if JS.truthy (lat n) && JS.truthy (lon n) && has_tags (node_tags n) then
          let point := {| geometry := Point (lon n, lat n);
                          properties := cleanProperties (node_tags n) |} in
          if isPointInBoundary clipBoundary (lon n) (lat n)
          then push point st else st
        else st
    | _ => st
    end in
  let st := tick st in
  if onProgress && (processed st mod 100 =? 0) then
    report {| stage := "process";
              message := "Processing geometries...";
              progress := node_pass_progress (processed st) totalElements |} st
  else st.

(** [ids.map(id => nodes[id] ? [nodes[id].lon, nodes[id].lat] : null)
        .filter(c => c !== null)] *)
Definition resolve (nodes : gmap Z Node) (ids : list Z) : list Coord :=
  omap (fun id => match nodes !! id with
                  | Some n => Some (lon n, lat n)
                  | None => None
                  end) ids.

(** [way.nodes[0] === way.nodes[way.nodes.length - 1]] on a non-empty list *)
Definition first_is_last (ids : list Z) : bool :=
  match head ids, last ids with
  | Some a, Some b => Z.eqb a b
  | _, _ => false
  end.

(** [feature && feature.geometry && feature.geometry.coordinates.length > 0] *)
Definition push_clipped (feature : option Feature) (st : Conv) : Conv :=
  match feature with
  | Some f => if 0 <? coordinates_length (geometry f) then push f st else st
  | None => st
  end.

Definition process_way (nodes : gmap Z Node) (waysLength : nat)
    (st : Conv) (w : Way) : Conv :=
  match way_nodes w with
  | None | Some [] => st
  | Some ids =>
      let coords := resolve nodes ids in
      if length coords =? 0 then st
      else
        let isClosed := first_is_last ids in
        let isArea := isAreaFeature (way_tags w) isClosed (length coords) in
        let feature :=
          {| geometry := if isArea then Polygon [coords] else LineString coords;
             properties := cleanProperties (way_tags w) |} in
        let st := push_clipped (clipFeatureToBoundary clipBoundary feature) st in
        let st := tick st in
        if onProgress && (processed st mod 50 =? 0) then
          report {| stage := "process";
                    message := "Processing ways...";
                    progress := way_pass_progress (processed st) (size nodes)
                                  waysLength |} st
        else st
  end.

(** The coordinates contributed by one relation member, if any. *)
Definition member_coords (nodes : gmap Z Node) (ways : list Way)
    (m : Member) : option (list Coord) :=
  if String.eqb (member_type m) "way" && negb (Z.eqb (ref m) 0) then
    match List.find (fun w => Z.eqb (way_id w) (ref m)) ways with
    | Some w =>
        match way_nodes w with
        | Some ids =>
            let coords := resolve nodes ids in
            if 0 <? length coords then Some coords else None
        | None => None
        end
    | None => None
    end
  else None.

Definition process_relation (nodes : gmap Z Node) (ways : list Way)
    (st : Conv) (r : Relation) : Conv :=
  let st :=
    match members r with
    | None | Some [] => st
    | Some ms =>
        let memberCoords := omap (member_coords nodes ways) ms in
        if 0 <? length memberCoords then
          let feature :=
            {| geometry := MultiLineString memberCoords;
               properties := cleanProperties (relation_tags r) |} in
          push_clipped (clipFeatureToBoundary clipBoundary feature) st
        else st
    end in
  tick st.

(** The three passes over a non-empty element array: nodes, ways,
    relations. *)
Definition passes (elements : list Element) (st : Conv) : Conv :=
  let nodes := node_lookup elements in
  let ways := ways_of elements in
  let relations := relations_of elements in
  let totalElements := length elements in
  let st := fold_left (process_node totalElements) elements st in
  let st := fold_left (process_way nodes (length ways)) ways st in
  fold_left (process_relation nodes ways) relations st.

(** The run of [osmToGeoJSON] on a non-empty element array. *)
Definition convert (elements : list Element) : Conv :=
  let st := {| collected := []; processed := 0; reported := [] |} in
  let st :=
    if onProgress
    then report {| stage := "process"; message := "Processing nodes...";
                   progress := 0 |} st
    else st in
  let st := passes elements st in
  if onProgress
  then report {| stage := "complete"; message := "Processing complete";
                 progress := 100 |} st
  else st.

(** [osmToGeoJSON(osmData, onProgress)], on [osmData.elements]: the
    collection returned and the events the sink received. *)
Definition osmToGeoJSON (elements : option (list Element))
    : FeatureCollection * list ProgressEvent :=
  match elements with
  | None | Some [] => ({| features := Some []; crs := EPSG4326 |}, [])
  | Some els =>
      let st := convert els in
      ({| features := Some (collected st); crs := EPSG4326 |}, reported st)
  end.

End Converter.

(** *** Statistics and sampling *)

(** The counters of [getStatistics].  The tag histograms and the bounds
    are accumulated beside them and do not feed back into the counters. *)
Record Statistics := {
  totalFeatures : nat;
  points : nat;
  lines : nat;
  polygons : nat;
  other : nat
}.

Definition count_feature (stats : Statistics) (feature : Feature) : Statistics :=
  let type := geometry_type (geometry feature) in
  if String.eqb type "Point" || String.eqb type "MultiPoint" then
    {| totalFeatures := totalFeatures stats; points := S (points stats);
       lines := lines stats; polygons := polygons stats; other := other stats |}
  else if String.eqb type "LineString" || String.eqb type "MultiLineString" then
    {| totalFeatures := totalFeatures stats; points := points stats;
       lines := S (lines stats); polygons := polygons stats; other := other stats |}
  else if String.eqb type "Polygon" || String.eqb type "MultiPolygon" then
    {| totalFeatures := totalFeatures stats; points := points stats;
       lines := lines stats; polygons := S (polygons stats); other := other stats |}
  else
    {| totalFeatures := totalFeatures stats; points := points stats;
       lines := lines stats; polygons := polygons stats; other := S (other stats) |}.

Definition getStatistics (geojson : FeatureCollection) : Statistics :=
  let stats := {| totalFeatures := 0; points := 0; lines := 0;
                  polygons := 0; other := 0 |} in
  match features geojson with
  | None => stats
  | Some fs =>
      let stats := {| totalFeatures := length fs; points := 0; lines := 0;
                      polygons := 0; other := 0 |} in
      fold_left count_feature fs stats
  end.

(** [Math.ceil(a / b)] on counts *)
Definition ceil_div (a b : nat) : nat := (a + (b - 1)) / b.

Definition sample_types : list string := [ "Point"; "LineString"; "Polygon" ].

Definition getSampleFeatures (geojson : FeatureCollection) (limit : nat)
    : list Feature :=
  match features geojson with
  | None | Some [] => []
  | Some fs =>
      let samples :=
        fold_left (fun (samples : list Feature) type =>
          let featuresOfType :=
            List.filter (fun f => String.eqb (geometry_type (geometry f)) type) fs in
          if 0 <? length featuresOfType
          then samples ++ firstn (ceil_div limit (length sample_types)) featuresOfType
          else samples) sample_types [] in
      firstn limit samples
  end.

(** *** Splitting and validation *)

(** The four collections returned by [splitByGeometryType]. *)
Record Split := {
  split_points : FeatureCollection;
  split_lines : FeatureCollection;
  split_polygons : FeatureCollection;
  split_other : FeatureCollection
}.

(** [fc.features.push(feature)] on a collection created with an array *)
Definition push_feature (feature : Feature) (fc : FeatureCollection)
    : FeatureCollection :=
  {| features := Some (default [] (features fc) ++ [feature]); crs := crs fc |}.

Definition split_feature (acc : Split) (feature : Feature) : Split :=
  let type := geometry_type (geometry feature) in
  if String.eqb type "Point" || String.eqb type "MultiPoint" then
    {| split_points := push_feature feature (split_points acc);
       split_lines := split_lines acc; split_polygons := split_polygons acc;
       split_other := split_other acc |}
  else if String.eqb type "LineString" || String.eqb type "MultiLineString" then
    {| split_points := split_points acc;
       split_lines := push_feature feature (split_lines acc);
       split_polygons := split_polygons acc; split_other := split_other acc |}
  else if String.eqb type "Polygon" || String.eqb type "MultiPolygon" then
    {| split_points := split_points acc; split_lines := split_lines acc;
       split_polygons := push_feature feature (split_polygons acc);
       split_other := split_other acc |}
  else
    {| split_points := split_points acc; split_lines := split_lines acc;
       split_polygons := split_polygons acc;
       split_other := push_feature feature (split_other acc) |}.

(** [splitByGeometryType]; iterating over the features of a collection
    that has none raises a [TypeError]. *)
Definition splitByGeometryType (geojson : FeatureCollection) : JS.Result Split :=
  let empty := {| features := Some []; crs := crs geojson |} in
  match features geojson with
  | None => JS.Throw (JS.TypeError "geojson.features is undefined")
  | Some fs =>
      JS.Return (fold_left split_feature fs
                   {| split_points := empty; split_lines := empty;
                      split_polygons := empty; split_other := empty |})
  end.

(** A GeoJSON [coordinates] value: a position (an array of numbers) or
    an array of such values. *)
#[warnings="-register-all"] Inductive Coords :=
| Position (p : list JS.num)
| Nested (l : list Coords).

(** [p[i]] on an array of numbers *)
Definition at_index (p : list JS.num) (i : nat) : JS.num :=
  nth i p JS.Undefined.

(** [hasValidCoordinates].  [Array.isArray(coords[0])] holds of a
    non-empty array of arrays; a position and the empty array go to the
    [else] branch, where [const [lng, lat] = coords]. *)
Fixpoint hasValidCoordinates (coords : Coords) : bool :=
  match coords with
  | Position p => Utils.isValidCoordinate (at_index p 1) (at_index p 0)
  | Nested [] => Utils.isValidCoordinate JS.Undefined JS.Undefined
  | Nested l => forallb hasValidCoordinates l
  end.

Definition position (c : Coord) : Coords := Position [fst c; snd c].

Definition line_coords (cs : list Coord) : Coords := Nested (map position cs).

Definition rings_coords (rs : list (list Coord)) : Coords :=
  Nested (map line_coords rs).

(** [feature.geometry.coordinates]; a geometry of another type (a
    GeometryCollection) has none. *)
Definition geometry_coordinates (g : Geometry) : option Coords :=
  match g with
  | Point c => Some (position c)
  | LineString cs | MultiPoint cs => Some (line_coords cs)
  | Polygon rs | MultiLineString rs => Some (rings_coords rs)
  | MultiPolygon ps => Some (Nested (map rings_coords ps))
  | OtherGeometry _ => None
  end.

(** The test of the loop of [cleanGeoJSON] on one feature. *)
Definition valid_feature (feature : Feature) : bool :=
  match geometry_coordinates (geometry feature) with
  | None => false
  | Some coords => hasValidCoordinates coords
  end.

Definition cleanGeoJSON (geojson : FeatureCollection) : FeatureCollection :=
  {| features :=
       Some (match features geojson with
             | None => []
             | Some fs => List.filter valid_feature fs
             end);
     crs := crs geojson |}.

End GeometryProcessor.

#[global] Instance result_bind : MBind JS.Result := fun A B k c => JS.bind c k.
#[global] Instance result_ret : MRet JS.Result := fun A a => JS.Return a.

(** ** src/exportService.js *)

Module ExportService.

(** The own properties of the object literal [typeMap]. *)
Definition typeMap : gmap string (list string) :=
  <["Point" := ["Point"; "MultiPoint"]]>
  (<["LineString" := ["LineString"; "MultiLineString"]]>
  (<["Polygon" := ["Polygon"; "MultiPolygon"]]> ∅)).

(** [typeMap] is a plain object: besides its own three keys it answers
    to the property names it inherits from [Object.prototype]. *)
Definition inherited_properties : list string :=
  [ "constructor"; "hasOwnProperty"; "isPrototypeOf"; "propertyIsEnumerable";
    "toLocaleString"; "toString"; "valueOf"; "__proto__";
    "__defineGetter__"; "__defineSetter__";
    "__lookupGetter__"; "__lookupSetter__" ].

(** The value of [typeMap[type]]: an own array of geometry types, an
    inherited function or object (truthy, with no [forEach]), or
    [undefined]. *)
Inductive Property :=
| Own (types : list string)
| Inherited
| Absent.

Definition typeMap_get (type : string) : Property :=
  match typeMap !! type with
  | Some ts => Own ts
  | None =>
      if existsb (String.eqb type) inherited_properties then Inherited
      else Absent
  end.

(** [typeMap[type].forEach(t => allowed.add(t))] *)
Definition add_all (ts : list string) (allowed : gset string) : gset string :=
  fold_left (fun (allowed : gset string) t => {[ t ]} ∪ allowed) ts allowed.

(** The loop that builds the [Set] of allowed geometry types.  On an
    inherited property the test [if (typeMap[type])] passes and the call
    of its missing [forEach] raises a [TypeError]. *)
Fixpoint build_allowed (allowedTypes : list string) (allowed : gset string)
    : JS.Result (gset string) :=
  match allowedTypes with
  | [] => JS.Return allowed
  | type :: rest =>
      match typeMap_get type with
      | Own ts => build_allowed rest (add_all ts allowed)
      | Inherited =>
          JS.Throw (JS.TypeError "typeMap[type].forEach is not a function")
      | Absent => build_allowed rest allowed
      end
  end.

(** The set the loop builds when it meets own keys and absent ones
    only. *)
Definition allowed_set (allowedTypes : list string) : gset string :=
  fold_left (fun (allowed : gset string) type =>
    match typeMap !! type with
    | Some ts => fold_left (fun (allowed : gset string) t => {[ t ]} ∪ allowed) ts allowed
    | None => allowed
    end) allowedTypes ∅.

(** [filterByGeometry]: the allowed set is built first, then the features
    are read; reading [features] of a collection that has none raises a
    [TypeError]. *)
Definition filterByGeometry (geojson : FeatureCollection)
    (allowedTypes : list string) : JS.Result FeatureCollection :=
  allowed ← build_allowed allowedTypes ∅;
  match features geojson with
  | None => JS.Throw (JS.TypeError "geojson.features is undefined")
  | Some fs =>
      JS.Return
        {| features :=
             Some (List.filter
                     (fun feature =>
                        bool_decide (geometry_type (geometry feature) ∈ allowed))
                     fs);
           crs := crs geojson |}
  end.

(** [x.features.length] *)
Definition features_length (geojson : FeatureCollection) : JS.Result nat :=
  match features geojson with
  | None => JS.Throw (JS.TypeError "features is undefined")
  | Some fs => JS.Return (length fs)
  end.

(** [s.replace(/c/g, repl)] for a one-character pattern *)
Fixpoint replace_all (c : ascii) (repl : string) (s : string) : string :=
  match s with
  | EmptyString => EmptyString
  | String a rest =>
      if Ascii.eqb a c then String.append repl (replace_all c repl rest)
      else String a (replace_all c repl rest)
  end.

Definition amp : ascii := "&"%char.
Definition lt : ascii := "<"%char.
Definition gt : ascii := ">"%char.
Definition quot : ascii := "034"%char.
Definition apos : ascii := "'"%char.

(** [escapeXML] on a string. *)
Definition escapeXML (str : string) : string :=
  replace_all apos "&apos;"
    (replace_all quot "&quot;"
       (replace_all gt "&gt;"
          (replace_all lt "&lt;"
             (replace_all amp "&amp;" str)))).

(** [export].  Metadata generation and the five encoders are the format
    adapters; each may return or throw. *)
Section ExportOperation.

Context {OsmData Metadata Output : Type}.

Variable generateMetadata :
  FeatureCollection -> option LatLngBounds -> option (list string) ->
  string -> string -> JS.Result Metadata.
Variable exportGeoJSON : FeatureCollection -> string -> Metadata -> JS.Result Output.
Variable exportShapefile : FeatureCollection -> string -> Metadata -> JS.Result Output.
Variable exportKML : FeatureCollection -> string -> JS.Result Output.
Variable exportGPX : FeatureCollection -> string -> JS.Result Output.
Variable exportOSM : OsmData -> string -> JS.Result Output.

(** [geometryFilter && geometryFilter.length > 0] *)
Definition filter_requested (geometryFilter : option (list string)) : bool :=
  match geometryFilter with
  | Some l => 0 <? length l
  | None => false
  end.

Definition export (format : string) (geojson : FeatureCollection)
    (osmData : OsmData) (filename : string)
    (geometryFilter : option (list string)) (bounds : option LatLngBounds)
    (selectedFeatures : option (list string)) : JS.Result Output :=
  JS.try_catch
    (filteredGeoJSON ←
       (if filter_requested geometryFilter then
          filtered ← filterByGeometry geojson (default [] geometryFilter);
          n ← features_length filtered;
          if n =? 0
          then JS.Throw (JS.Error "No features match the selected geometry types")
          else JS.Return filtered
        else JS.Return geojson);
     metadata ← generateMetadata filteredGeoJSON bounds selectedFeatures
                  format filename;
     if String.eqb format "geojson" then exportGeoJSON filteredGeoJSON filename metadata
     else if String.eqb format "shapefile" then exportShapefile filteredGeoJSON filename metadata
     else if String.eqb format "kml" then exportKML filteredGeoJSON filename
     else if String.eqb format "gpx" then exportGPX filteredGeoJSON filename
     else if String.eqb format "osm" then exportOSM osmData filename
     else JS.Throw (JS.Error "Unsupported export format"))
    (fun error =>
       JS.Throw (JS.Error (String.append "Export failed: " (JS.message error)))).

End ExportOperation.

End ExportService.

(** ** src/fileParser.js *)

Module FileParser.

Section ValidateCoordinates.

(** How a template literal prints a number. *)
Variable show : JS.num -> string.

Definition invalid_coordinates (lng lat : JS.num) : JS.Exn :=
  JS.Error (String.append "Invalid coordinates: ["
             (String.append (show lng)
                (String.append ", " (String.append (show lat) "]")))).

(** [validateCoord]: returns, or throws at the first invalid position. *)
Fixpoint validateCoord (coords : GeometryProcessor.Coords) : JS.Result unit :=
  match coords with
  | GeometryProcessor.Position p =>
      let lng := GeometryProcessor.at_index p 0 in
      let lat := GeometryProcessor.at_index p 1 in
      if negb (Utils.isValidCoordinate lat lng)
      then JS.Throw (invalid_coordinates lng lat)
      else JS.Return tt
  | GeometryProcessor.Nested [] =>
      JS.Throw (invalid_coordinates JS.Undefined JS.Undefined)
  | GeometryProcessor.Nested l =>
      (fix each (l : list GeometryProcessor.Coords) : JS.Result unit :=
         match l with
         | [] => JS.Return tt
         | c :: rest =>
             match validateCoord c with
             | JS.Return _ => each rest
             | JS.Throw e => JS.Throw e
             end
         end) l
  end.

(** The body of the loop over the features. *)
Definition validate_feature (feature : Feature) : JS.Result unit :=
  match GeometryProcessor.geometry_coordinates (geometry feature) with
  | None => JS.Return tt
  | Some coords =>
      JS.try_catch (validateCoord coords)
        (fun error =>
           JS.Throw (JS.Error (String.append "Invalid coordinates in geometry: "
                                 (JS.message error))))
  end.

Fixpoint validate_each (fs : list Feature) : JS.Result unit :=
  match fs with
  | [] => JS.Return tt
  | f :: rest =>
      match validate_feature f with
      | JS.Return _ => validate_each rest
      | JS.Throw e => JS.Throw e
      end
  end.

(** [validateCoordinates] on a FeatureCollection. *)
Definition validateCoordinates (geojson : FeatureCollection) : JS.Result unit :=
  match features geojson with
  | None => JS.Throw (JS.TypeError "features is undefined")
  | Some fs => validate_each fs
  end.

End ValidateCoordinates.

End FileParser.

(** ** The specification's wording, as definitions

    These follow the sentences of the specification, not the code; the
    theorems below compare the code with them. *)

Module Spec.

(** "inside the boundary (inclusive bounds)" *)
Definition inside (b : LatLngBounds) (c : Coord) : bool :=
  JS.le (JS.Num (getWest b)) (fst c) && JS.le (fst c) (JS.Num (getEast b))
  && JS.le (JS.Num (getSouth b)) (snd c) && JS.le (snd c) (JS.Num (getNorth b)).

(** "coordinate-wise clamp to [minLon,maxLon] x [minLat,maxLat]" *)
Definition clamp (b : LatLngBounds) (c : Coord) : Coord :=
  (JS.Math_max (JS.Num (getWest b)) (JS.Math_min (JS.Num (getEast b)) (fst c)),
   JS.Math_max (JS.Num (getSouth b)) (JS.Math_min (JS.Num (getNorth b)) (snd c))).

(** The LineString rule as the specification words it: keep each vertex
    that is inside; replace by its clamp a vertex that is outside and whose
    immediate next vertex is inside; drop the others. *)
Fixpoint clip_line_as_specified (b : LatLngBounds) (coords : list Coord)
    : list Coord :=
  match coords with
  | [] => []
  | c :: rest =>
      if inside b c then c :: clip_line_as_specified b rest
      else match rest with
           | next :: _ =>
               if inside b next
               then clamp b c :: clip_line_as_specified b rest
               else clip_line_as_specified b rest
           | [] => []
           end
  end.

(** The same walk with the guard the code has: the clamp is substituted
    only once some earlier vertex has been kept ([entered]). *)
Fixpoint clip_line_walk (b : LatLngBounds) (entered : bool)
    (coords : list Coord) : list Coord :=
  match coords with
  | [] => []
  | c :: rest =>
      if inside b c then c :: clip_line_walk b true rest
      else match rest with
           | next :: _ =>
               if entered && inside b next
               then clamp b c :: clip_line_walk b entered rest
               else clip_line_walk b entered rest
           | [] => []
           end
  end.

(** "the key is present" *)
Definition present (tags : Tags) (key : string) : Prop :=
  is_Some (tags !! key).

(** "the key is present with a non-empty value" *)
Definition present_nonempty (tags : Tags) (key : string) : Prop :=
  exists s, tags !! key = Some (JS.VString s) /\ s <> "".

(** "tags.key == value" *)
Definition tag_is (tags : Tags) (key v : string) : Prop :=
  tags !! key = Some (JS.VString v).

Definition area_keys : list string :=
  [ "building"; "landuse"; "amenity"; "leisure"; "tourism"; "aeroway";
    "natural"; "place"; "shop"; "office"; "craft"; "military";
    "public_transport" ].

Definition natural_area_values : list string :=
  [ "water"; "wood"; "scrub"; "wetland" ].

Definition waterway_area_values : list string := [ "riverbank"; "dock" ].

(** The tag test of the classifier below the [area] override, with
    [has_key] the reading of "one of the keys is present". *)
Definition area_by_tags (has_key : Tags -> string -> Prop) (tags : Tags) : Prop :=
  (exists k, In k area_keys /\ has_key tags k)
  \/ (exists v, In v natural_area_values /\ tag_is tags "natural" v)
  \/ (exists v, In v waterway_area_values /\ tag_is tags "waterway" v).

(** The coarse geometry kinds of the filter and the types each stands for. *)
Definition kind_covers (kind type : string) : Prop :=
  (kind = "Point" /\ (type = "Point" \/ type = "MultiPoint"))
  \/ (kind = "LineString" /\ (type = "LineString" \/ type = "MultiLineString"))
  \/ (kind = "Polygon" /\ (type = "Polygon" \/ type = "MultiPolygon")).


(** No requested kind is the name of an inherited object property; so
    it is with every list of Point, LineString and Polygon. *)
Definition plain_kinds (kinds : list string) : Prop :=
  Forall (fun kind => ~ In kind ExportService.inherited_properties) kinds.

(** The four buckets of the statistics. *)
Definition point_like (f : Feature) : bool :=
  let type := geometry_type (geometry f) in
  String.eqb type "Point" || String.eqb type "MultiPoint".

Definition line_like (f : Feature) : bool :=
  let type := geometry_type (geometry f) in
  String.eqb type "LineString" || String.eqb type "MultiLineString".

Definition polygon_like (f : Feature) : bool :=
  let type := geometry_type (geometry f) in
  String.eqb type "Polygon" || String.eqb type "MultiPolygon".

Definition other_like (f : Feature) : bool :=
  negb (point_like f || line_like f || polygon_like f).

(** The features of one geometry type, in collection order. *)
Definition of_type (type : string) (fs : list Feature) : list Feature :=
  List.filter (fun f => String.eqb (geometry_type (geometry f)) type) fs.

(** The converter only appends: to the features collected and to the
    events reported. *)
Definition appends (st st' : GeometryProcessor.Conv) : Prop :=
  (exists fs, GeometryProcessor.collected st'
              = GeometryProcessor.collected st ++ fs)
  /\ (exists es, GeometryProcessor.reported st'
                 = GeometryProcessor.reported st ++ es).

(** The Point feature of a node. *)
Definition point_of (n : Node) : Feature :=
  {| geometry := Point (lon n, lat n);
     properties := GeometryProcessor.cleanProperties (node_tags n) |}.

(** The geometries the way and relation passes build. *)
Definition built_by_way_or_relation (f : Feature) : Prop :=
  match geometry f with
  | LineString _ | Polygon _ | MultiLineString _ => True
  | _ => False
  end.

Definition is_point (f : Feature) : Prop :=
  match geometry f with
  | Point _ => True
  | _ => False
  end.

(** "a LineString has at least 2 points" *)
Definition line_has_two_points (f : Feature) : Prop :=
  forall coordinates, geometry f = LineString coordinates ->
                      2 <= length coordinates.

(** Both coordinates of the position are numbers. *)
Definition numeric (c : Coord) : Prop :=
  exists x y : Q, c = (JS.Num x, JS.Num y).

(** west <= east and south <= north *)
Definition well_formed (b : LatLngBounds) : Prop :=
  (getWest b <= getEast b)%Q /\ (getSouth b <= getNorth b)%Q.

(** "first == last", coordinate by coordinate, as [===] compares. *)
Definition closed_ring (ring : list Coord) : Prop :=
  exists first final,
    head ring = Some first /\ last ring = Some final
    /\ JS.strict_ne (fst first) (fst final) = false
    /\ JS.strict_ne (snd first) (snd final) = false.

(** The properties are a cleaned tag mapping. *)
Definition cleaned (f : Feature) : Prop :=
  exists tags, properties f = GeometryProcessor.cleanProperties tags.

(** What the way pass hands to the clipper: a LineString of at least one
    point, or a Polygon of one ring of at least 4 points. *)
Definition raw_way_feature (f : Feature) : Prop :=
  cleaned f
  /\ match geometry f with
     | LineString cs => cs <> []
     | Polygon rs => exists cs, rs = [cs] /\ 4 <= length cs
     | _ => False
     end.

(** What the relation pass hands to the clipper: a MultiLineString of at
    least one line, none of them empty. *)
Definition raw_relation_feature (f : Feature) : Prop :=
  cleaned f
  /\ match geometry f with
     | MultiLineString ls => ls <> [] /\ Forall (fun l => l <> []) ls
     | _ => False
     end.

(** The features each pass of the converter pushes. *)
Definition node_output (clipBoundary : option ClipPolygon)
    (elements : list Element) (f : Feature) : Prop :=
  exists n, In (node n) elements
            /\ JS.truthy (lat n) = true /\ JS.truthy (lon n) = true
            /\ GeometryProcessor.has_tags (node_tags n) = true
            /\ GeometryProcessor.isPointInBoundary clipBoundary (lon n) (lat n)
               = true
            /\ f = point_of n.

Definition way_output (clipBoundary : option ClipPolygon) (f' : Feature) : Prop :=
  exists f, raw_way_feature f
            /\ GeometryProcessor.clipFeatureToBoundary clipBoundary f = Some f'.

Definition relation_output (clipBoundary : option ClipPolygon) (f' : Feature)
    : Prop :=
  exists f, raw_relation_feature f
            /\ GeometryProcessor.clipFeatureToBoundary clipBoundary f = Some f'.

(** 1 for a node element, 0 for any other. *)
Definition node_weight (el : Element) : nat :=
  match el with
  | node _ => 1
  | _ => 0
  end.

Definition is_line_or_polygon (f : Feature) : Prop :=
  match geometry f with
  | LineString _ | Polygon _ => True
  | _ => False
  end.

Definition is_multiline (f : Feature) : Prop :=
  match geometry f with
  | MultiLineString _ => True
  | _ => False
  end.

(** The converter as a function of the elements alone: what each node,
    way and relation contributes to the collection. *)
Definition node_feature (clipBoundary : option ClipPolygon) (el : Element)
    : list Feature :=
  match el with
  | node n =>
      if JS.truthy (lat n) && JS.truthy (lon n)
         && GeometryProcessor.has_tags (node_tags n)
         && GeometryProcessor.isPointInBoundary clipBoundary (lon n) (lat n)
      then [point_of n] else []
  | _ => []
  end.

Definition clipped_feature (clipBoundary : option ClipPolygon) (f : Feature)
    : list Feature :=
  match GeometryProcessor.clipFeatureToBoundary clipBoundary f with
  | Some f' => if 0 <? coordinates_length (geometry f') then [f'] else []
  | None => []
  end.

Definition way_feature (clipBoundary : option ClipPolygon)
    (nodes : gmap Z Node) (w : Way) : list Feature :=
  match way_nodes w with
  | None | Some [] => []
  | Some ids =>
      let coords := GeometryProcessor.resolve nodes ids in
      if length coords =? 0 then []
      else clipped_feature clipBoundary
             {| geometry :=
                  if GeometryProcessor.isAreaFeature (way_tags w)
                       (GeometryProcessor.first_is_last ids) (length coords)
                  then Polygon [coords] else LineString coords;
                properties := GeometryProcessor.cleanProperties (way_tags w) |}
  end.

Definition relation_feature (clipBoundary : option ClipPolygon)
    (nodes : gmap Z Node) (ways : list Way) (r : Relation) : list Feature :=
  match members r with
  | None | Some [] => []
  | Some ms =>
      let memberCoords := omap (GeometryProcessor.member_coords nodes ways) ms in
      if 0 <? length memberCoords
      then clipped_feature clipBoundary
             {| geometry := MultiLineString memberCoords;
                properties :=
                  GeometryProcessor.cleanProperties (relation_tags r) |}
      else []
  end.

Definition converted (clipBoundary : option ClipPolygon)
    (elements : list Element) : list Feature :=
  let nodes := GeometryProcessor.node_lookup elements in
  let ways := GeometryProcessor.ways_of elements in
  flat_map (node_feature clipBoundary) elements
  ++ flat_map (way_feature clipBoundary nodes) ways
  ++ flat_map (relation_feature clipBoundary nodes ways)
       (GeometryProcessor.relations_of elements).

(** What one character becomes when escaped for XML. *)
Definition escape_char (c : ascii) : string :=
  if Ascii.eqb c ExportService.amp then "&amp;"
  else if Ascii.eqb c ExportService.lt then "&lt;"
  else if Ascii.eqb c ExportService.gt then "&gt;"
  else if Ascii.eqb c ExportService.quot then "&quot;"
  else if Ascii.eqb c ExportService.apos then "&apos;"
  else String c EmptyString.

(** The character is none of [<], [>], the double quote and the
    apostrophe. *)
Definition not_markup (c : ascii) : bool :=
  negb (Ascii.eqb c ExportService.lt || Ascii.eqb c ExportService.gt
        || Ascii.eqb c ExportService.quot || Ascii.eqb c ExportService.apos).

(** Every character of the string passes the test. *)
Fixpoint all_chars (p : ascii -> bool) (s : string) : bool :=
  match s with
  | EmptyString => true
  | String c rest => p c && all_chars p rest
  end.

(** The feature has a [coordinates] member. *)
Definition has_coordinates (f : Feature) : bool :=
  match GeometryProcessor.geometry_coordinates (geometry f) with
  | Some _ => true
  | None => false
  end.

(** The formats [export] dispatches on. *)
Definition supported_formats : list string :=
  [ "geojson"; "shapefile"; "kml"; "gpx"; "osm" ].

Definition start_event : ProgressEvent :=
  {| stage := "process"; message := "Processing nodes..."; progress := 0 |}.

Definition complete_event : ProgressEvent :=
  {| stage := "complete"; message := "Processing complete"; progress := 100 |}.

End Spec.

(** ** Concrete inputs *)

Module Examples.

Definition tag (key v : string) : option Tags := Some {[ key := JS.VString v ]}.

(** A closed way's tags whose only entry is [building] with an empty value. *)
Definition empty_building : Tags := {[ "building" := JS.VString "" ]}.

(** Ten Point features and ten LineString features, interleaved. *)
Definition point_feature (i : nat) : Feature :=
  {| geometry := Point (JS.Num (inject_Z (Z.of_nat i)), JS.Num 1);
     properties := ∅ |}.

Definition line_feature (i : nat) : Feature :=
  {| geometry := LineString [ (JS.Num (inject_Z (Z.of_nat i)), JS.Num 1);
                              (JS.Num (inject_Z (Z.of_nat i)), JS.Num 2) ];
     properties := ∅ |}.

Definition ten_points_ten_lines : FeatureCollection :=
  {| features :=
       Some (flat_map (fun i => [point_feature i; line_feature i]) (seq 0 10));
     crs := EPSG4326 |}.

(** The box west = 0, east = 1, south = 0, north = 1. *)
Definition unit_box : LatLngBounds :=
  {| getWest := 0; getEast := 1; getSouth := 0; getNorth := 1 |}.

(** A line that starts outside the unit box, east of it, and enters it. *)
Definition entering_line : list Coord :=
  [ (JS.Num 2, JS.Num (1 # 2));
    (JS.Num (1 # 2), JS.Num (1 # 2));
    (JS.Num (3 # 5), JS.Num (1 # 2)) ].

(** A collection with a single Point feature. *)
Definition one_point : FeatureCollection :=
  {| features := Some [point_feature 0]; crs := EPSG4326 |}.

(** Format adapters that always succeed. *)
Definition metadata_ok (_ : FeatureCollection) (_ : option LatLngBounds)
    (_ : option (list string)) (_ _ : string) : JS.Result unit :=
  JS.Return tt.

Definition encode3_ok (_ : FeatureCollection) (filename : string) (_ : unit)
    : JS.Result string :=
  JS.Return filename.

Definition encode2_ok (_ : FeatureCollection) (filename : string)
    : JS.Result string :=
  JS.Return filename.

Definition encode_osm_ok (_ : option (list Element)) (filename : string)
    : JS.Result string :=
  JS.Return filename.

(** Percentages for the intermediate progress events, in exact
    arithmetic. *)
Definition node_percent (processed totalElements : nat) : Z :=
  Z.of_nat (processed * 50 / totalElements).

Definition way_percent (processed nodeKeys waysLength : nat) : Z :=
  50 + Z.of_nat ((processed - nodeKeys) * 40 / waysLength).

(** A tagged node away from the equator and the prime meridian. *)
Definition named_node : Node :=
  {| node_id := 7; lat := JS.Num 5; lon := JS.Num 10;
     node_tags := tag "name" "Harbour light" |}.

(** Two untagged nodes inside the unit box and the way that joins them. *)
Definition inner_way_elements : list Element :=
  [ node {| node_id := 1; lat := JS.Num (1 # 2); lon := JS.Num (1 # 2);
            node_tags := None |};
    node {| node_id := 2; lat := JS.Num (1 # 2); lon := JS.Num (3 # 5);
            node_tags := None |};
    way {| way_id := 10; way_nodes := Some [1%Z; 2%Z]; way_tags := None |} ].

(** A tagged node on the equator. *)
Definition equator_node : Node :=
  {| node_id := 1; lat := JS.Num 0; lon := JS.Num 10;
     node_tags := tag "name" "Null Island buoy" |}.

(** A way with two references, one of them dangling, and the node the
    other refers to. *)
Definition lone_vertex : Node :=
  {| node_id := 1; lat := JS.Num 5; lon := JS.Num 10; node_tags := None |}.

Definition one_vertex_way : Way :=
  {| way_id := 10; way_nodes := Some [1%Z; 99%Z];
     way_tags := tag "highway" "residential" |}.

End Examples.

(** * Properties *)

(** ** Coordinate validation *)

Lemma ge_Num (x y : Q) : JS.ge (JS.Num x) (JS.Num y) = true <-> (y <= x)%Q.
Proof. apply Qle_bool_iff. Qed.

Lemma le_Num (x y : Q) : JS.le (JS.Num x) (JS.Num y) = true <-> (x <= y)%Q.
Proof. apply Qle_bool_iff. Qed.

(** C8. On numbers, [isValidCoordinate(lat, lon)] is true exactly when
    -90 <= lat <= 90 and -180 <= lon <= 180; it is false at lat = 91,
    lat = -91, lon = 181 and lon = -181, whatever the other argument. *)
Theorem isValidCoordinate_range :
  (forall lat lon : Q,
      Utils.isValidCoordinate (JS.Num lat) (JS.Num lon) = true <->
      ((-90 <= lat /\ lat <= 90) /\ (-180 <= lon /\ lon <= 180))%Q)
  /\ (forall lon, Utils.isValidCoordinate (JS.Num 91) lon = false)
  /\ (forall lon, Utils.isValidCoordinate (JS.Num (-91)) lon = false)
  /\ (forall lat, Utils.isValidCoordinate lat (JS.Num 181) = false)
  /\ (forall lat, Utils.isValidCoordinate lat (JS.Num (-181)) = false).
Proof.
  split; [| split; [| split; [| split]]].
  - intros lat lon. unfold Utils.isValidCoordinate.
    rewrite !andb_true_iff, !ge_Num, !le_Num. tauto.
  - intros lon. reflexivity.
  - intros lon. reflexivity.
  - intros lat. unfold Utils.isValidCoordinate.
    apply andb_false_r.
  - intros lat. unfold Utils.isValidCoordinate.
    replace (JS.ge (JS.Num (-181)) (JS.Num (-180))) with false by reflexivity.
    rewrite andb_false_r. reflexivity.
Qed.

(** ** Tag cleaning *)

Section CleanProperties.

Import GeometryProcessor.

Lemma cleanProperties_body_lookup key v cleaned k :
  cleaned !! key = None ->
  cleanProperties_body key v cleaned !! k =
  if decide (key = k) then kept key v else cleaned !! k.
Proof.
  intros Hfresh. unfold cleanProperties_body, kept.
  destruct (empty_value v), (includes skipFields key); cbn [orb];
    try (case_decide; subst; auto; fail).
  apply lookup_insert.
Qed.

(** The result of the loop, read key by key. *)
Lemma cleanProperties_lookup (tags : Tags) (k : string) :
  cleanProperties (Some tags) !! k = tags !! k ≫= kept k.
Proof.
  unfold cleanProperties.
  apply (map_fold_weak_ind
           (fun (r m : Tags) => forall j, r !! j = m !! j ≫= kept j)).
  - intros j. rewrite !lookup_empty. reflexivity.
  - intros i x m r Hi IH j.
    rewrite cleanProperties_body_lookup.
    + rewrite lookup_insert. case_decide; subst; auto.
    + rewrite IH, Hi. reflexivity.
Qed.

Lemma kept_Some key v w : kept key v = Some w ->
  w = v /\ empty_value v = false /\ includes skipFields key = false.
Proof.
  unfold kept. destruct (empty_value v), (includes skipFields key);
    simpl; intros H; inversion H; auto.
Qed.

Lemma kept_idem key v w : kept key v = Some w -> kept key w = Some w.
Proof.
  intros H. destruct (kept_Some _ _ _ H) as (Hw & _ & _). subst w. exact H.
Qed.

Lemma includes_In l key : includes l key = true <-> In key l.
Proof.
  unfold includes. rewrite existsb_exists. split.
  - intros (x & Hx & Heq). apply String.eqb_eq in Heq. subst. exact Hx.
  - intros H. exists key. split; [exact H | apply String.eqb_refl].
Qed.

End CleanProperties.

(** C9. Cleaning is idempotent: the cleaned mapping holds no key of the
    skip list and no empty value ([null], [undefined] or the empty
    string), and cleaning it again returns it unchanged. *)
Theorem cleanProperties_idempotent (tags : option Tags) :
  (forall key, In key GeometryProcessor.skipFields ->
               GeometryProcessor.cleanProperties tags !! key = None)
  /\ (forall key v, GeometryProcessor.cleanProperties tags !! key = Some v ->
                    GeometryProcessor.empty_value v = false)
  /\ GeometryProcessor.cleanProperties
       (Some (GeometryProcessor.cleanProperties tags))
     = GeometryProcessor.cleanProperties tags.
Proof.
  destruct tags as [tags|].
  - split; [| split].
    + intros key Hin. rewrite cleanProperties_lookup.
      destruct (tags !! key) as [v|]; simpl; [| reflexivity].
      unfold GeometryProcessor.kept. apply includes_In in Hin. rewrite Hin.
      rewrite orb_true_r. reflexivity.
    + intros key v. rewrite cleanProperties_lookup.
      destruct (tags !! key) as [w|]; simpl; [| discriminate].
      intros H. apply kept_Some in H. destruct H as (-> & H & _). exact H.
    + apply map_eq. intros k. rewrite !cleanProperties_lookup.
      destruct (tags !! k) as [v|]; simpl; [| reflexivity].
      destruct (GeometryProcessor.kept k v) as [w|] eqn:E; simpl; [| reflexivity].
      eapply kept_idem, E.
  - split; [| split].
    + intros key _. apply lookup_empty.
    + intros key v. simpl. rewrite lookup_empty. discriminate.
    + simpl. apply map_fold_empty.
Qed.

(** ** Area classification *)

Section Classifier.

Import GeometryProcessor.

Lemma is_string_iff (tags : Tags) key v :
  JS.is_string (tags !! key) v = true <-> Spec.tag_is tags key v.
Proof.
  unfold JS.is_string, Spec.tag_is.
  destruct (tags !! key) as [[| |s]|]; try (split; [discriminate | congruence]).
  rewrite String.eqb_eq. split; congruence.
Qed.

Lemma truthy_prop_iff (tags : Tags) key :
  JS.truthy_prop (tags !! key) = true <-> Spec.present_nonempty tags key.
Proof.
  unfold JS.truthy_prop, Spec.present_nonempty.
  destruct (tags !! key) as [[| |s]|].
  - split; [discriminate | intros (s & H & _); discriminate].
  - split; [discriminate | intros (s & H & _); discriminate].
  - rewrite negb_true_iff, String.eqb_neq. split.
    + intros H. exists s. auto.
    + intros (s' & H & Hne). congruence.
  - split; [discriminate | intros (s & H & _); discriminate].
Qed.

(** The tag test below the [area] override, as a proposition. *)
Lemma tag_test_iff (tags : Tags) :
  existsb (fun tag => JS.truthy_prop (tags !! tag)) polygonTags
  || (JS.is_string (tags !! "natural") "water"
      || JS.is_string (tags !! "natural") "wood"
      || JS.is_string (tags !! "natural") "scrub"
      || JS.is_string (tags !! "natural") "wetland")
  || (JS.is_string (tags !! "waterway") "riverbank"
      || JS.is_string (tags !! "waterway") "dock") = true
  <-> Spec.area_by_tags Spec.present_nonempty tags.
Proof.
  unfold Spec.area_by_tags.
  rewrite !orb_true_iff, existsb_exists, !is_string_iff.
  split.
  - intros [[(k & Hin & Hk) | H] | H].
    + left. exists k. split; [exact Hin | apply truthy_prop_iff, Hk].
    + right. left. simpl.
      destruct H as [[[H|H]|H]|H]; eauto 10.
    + right. right. simpl. destruct H as [H|H]; eauto 10.
  - intros [(k & Hin & Hk) | [(v & Hin & Hv) | (v & Hin & Hv)]].
    + left. left. exists k. split; [exact Hin | apply truthy_prop_iff, Hk].
    + left. right. simpl in Hin.
      destruct Hin as [<-|[<-|[<-|[<-|[]]]]]; auto.
    + right. simpl in Hin. destruct Hin as [<-|[<-|[]]]; auto.
Qed.

(** [isAreaFeature] once the way is closed and has four vertices. *)
Lemma isAreaFeature_closed (tags : Tags) n :
  4 <= n ->
  isAreaFeature (Some tags) true n =
  if JS.is_string (tags !! "area") "yes" then true
  else if JS.is_string (tags !! "area") "no" then false
  else existsb (fun tag => JS.truthy_prop (tags !! tag)) polygonTags
       || (JS.is_string (tags !! "natural") "water"
           || JS.is_string (tags !! "natural") "wood"
           || JS.is_string (tags !! "natural") "scrub"
           || JS.is_string (tags !! "natural") "wetland")
       || (JS.is_string (tags !! "waterway") "riverbank"
           || JS.is_string (tags !! "waterway") "dock").
Proof.
  intros Hn. unfold isAreaFeature.
  replace (n <? 4) with false by (symmetry; apply Nat.ltb_ge; exact Hn).
  cbn [negb orb].
  destruct (JS.is_string (tags !! "area") "yes"); [reflexivity|].
  destruct (JS.is_string (tags !! "area") "no"); [reflexivity|].
  destruct (existsb _ polygonTags); [reflexivity|].
  cbn [orb].
  destruct (_ || _ || _ || _); [reflexivity|].
  cbn [orb].
  destruct (_ || _); reflexivity.
Qed.

End Classifier.

(** C1 (amended). [isAreaFeature] is false when the way is not closed or
    has fewer than 4 vertices, and when it has no tags; otherwise
    [area = "yes"] gives true and [area = "no"] gives false; otherwise it
    is true exactly when one of the thirteen keys is present with a
    non-empty value, or [natural] is one of water, wood, scrub, wetland,
    or [waterway] is riverbank or dock. *)
Theorem isAreaFeature_classification (tags : option Tags) (isClosed : bool)
    (nodeCount : nat) :
  (isClosed = false \/ nodeCount < 4 ->
   GeometryProcessor.isAreaFeature tags isClosed nodeCount = false)
  /\ (tags = None ->
      GeometryProcessor.isAreaFeature tags isClosed nodeCount = false)
  /\ (forall t, tags = Some t -> isClosed = true -> 4 <= nodeCount ->
        (Spec.tag_is t "area" "yes" ->
         GeometryProcessor.isAreaFeature tags isClosed nodeCount = true)
        /\ (Spec.tag_is t "area" "no" ->
            GeometryProcessor.isAreaFeature tags isClosed nodeCount = false)
        /\ (~ Spec.tag_is t "area" "yes" -> ~ Spec.tag_is t "area" "no" ->
            (GeometryProcessor.isAreaFeature tags isClosed nodeCount = true
             <-> Spec.area_by_tags Spec.present_nonempty t))).
Proof.
  split; [| split].
  - intros [-> | Hlt]; unfold GeometryProcessor.isAreaFeature.
    + reflexivity.
    + apply Nat.ltb_lt in Hlt. rewrite Hlt, orb_true_r. reflexivity.
  - intros ->. unfold GeometryProcessor.isAreaFeature.
    destruct (negb isClosed || (nodeCount <? 4)); reflexivity.
  - intros t -> -> Hn. rewrite (isAreaFeature_closed t nodeCount Hn).
    split; [| split].
    + intros Hyes. apply is_string_iff in Hyes. rewrite Hyes. reflexivity.
    + intros Hno.
      destruct (JS.is_string (t !! "area") "yes") eqn:Hyes.
      * apply is_string_iff in Hyes. unfold Spec.tag_is in *. congruence.
      * apply is_string_iff in Hno. rewrite Hno. reflexivity.
    + intros Hyes Hno.
      destruct (JS.is_string (t !! "area") "yes") eqn:Eyes;
        [apply is_string_iff in Eyes; contradiction|].
      destruct (JS.is_string (t !! "area") "no") eqn:Eno;
        [apply is_string_iff in Eno; contradiction|].
      apply tag_test_iff.
Qed.

(** C1, as stated, fails: a closed way of 4 vertices whose [building] key
    is present with the empty string as value has no [area] override and
    one of the keys present, yet it is classified as a line. *)
Lemma isAreaFeature_present_key_counterexample :
  ~ Spec.tag_is Examples.empty_building "area" "yes"
  /\ ~ Spec.tag_is Examples.empty_building "area" "no"
  /\ Spec.area_by_tags Spec.present Examples.empty_building
  /\ GeometryProcessor.isAreaFeature (Some Examples.empty_building) true 4 = false.
Proof.
  split; [| split; [| split]].
  - unfold Spec.tag_is. vm_compute. discriminate.
  - unfold Spec.tag_is. vm_compute. discriminate.
  - left. exists "building". split; [simpl; auto |].
    exists (JS.VString ""). reflexivity.
  - reflexivity.
Qed.

(** ** Statistics *)

Section Statistics.

Import GeometryProcessor.

Lemma count_feature_cases (stats : Statistics) (f : Feature) :
  totalFeatures (count_feature stats f) = totalFeatures stats
  /\ points (count_feature stats f)
     = points stats + (if Spec.point_like f then 1 else 0)
  /\ lines (count_feature stats f)
     = lines stats + (if Spec.line_like f then 1 else 0)
  /\ polygons (count_feature stats f)
     = polygons stats + (if Spec.polygon_like f then 1 else 0)
  /\ other (count_feature stats f)
     = other stats + (if Spec.other_like f then 1 else 0).
Proof.
  unfold count_feature, Spec.other_like, Spec.point_like, Spec.line_like,
    Spec.polygon_like.
  set (type := geometry_type (geometry f)).
  destruct (String.eqb_spec type "Point") as [->|_];
    [cbn; repeat split; lia|].
  destruct (String.eqb_spec type "MultiPoint") as [->|_];
    [cbn; repeat split; lia|].
  destruct (String.eqb_spec type "LineString") as [->|_];
    [cbn; repeat split; lia|].
  destruct (String.eqb_spec type "MultiLineString") as [->|_];
    [cbn; repeat split; lia|].
  destruct (String.eqb_spec type "Polygon") as [->|_];
    [cbn; repeat split; lia|].
  destruct (String.eqb_spec type "MultiPolygon") as [->|_];
    cbn; repeat split; lia.
Qed.

Lemma length_filter_cons {A} (p : A -> bool) x l :
  length (List.filter p (x :: l))
  = (if p x then 1 else 0) + length (List.filter p l).
Proof. simpl. destruct (p x); reflexivity. Qed.

Lemma count_feature_fold (fs : list Feature) : forall stats,
  let s := fold_left count_feature fs stats in
  totalFeatures s = totalFeatures stats
  /\ points s = points stats + length (List.filter Spec.point_like fs)
  /\ lines s = lines stats + length (List.filter Spec.line_like fs)
  /\ polygons s = polygons stats + length (List.filter Spec.polygon_like fs)
  /\ other s = other stats + length (List.filter Spec.other_like fs).
Proof.
  induction fs as [|f fs IH]; intros stats.
  - cbn. repeat split; lia.
  - cbn [fold_left]. rewrite !length_filter_cons.
    destruct (IH (count_feature stats f)) as (Ht & Hp & Hl & Hg & Ho).
    destruct (count_feature_cases stats f) as (Ht' & Hp' & Hl' & Hg' & Ho').
    cbv zeta. rewrite Ht, Hp, Hl, Hg, Ho, Ht', Hp', Hl', Hg', Ho'.
    repeat split; lia.
Qed.

(** Every feature falls in exactly one bucket. *)
Lemma buckets_partition (fs : list Feature) :
  length (List.filter Spec.point_like fs)
  + length (List.filter Spec.line_like fs)
  + length (List.filter Spec.polygon_like fs)
  + length (List.filter Spec.other_like fs) = length fs.
Proof.
  induction fs as [|f fs IH]; [reflexivity|].
  rewrite !length_filter_cons. cbn [length].
  assert (H : (if Spec.point_like f then 1 else 0)
              + (if Spec.line_like f then 1 else 0)
              + (if Spec.polygon_like f then 1 else 0)
              + (if Spec.other_like f then 1 else 0) = 1).
  { unfold Spec.other_like, Spec.point_like, Spec.line_like, Spec.polygon_like.
    set (type := geometry_type (geometry f)).
    destruct (String.eqb_spec type "Point") as [->|_]; [reflexivity|].
    destruct (String.eqb_spec type "MultiPoint") as [->|_]; [reflexivity|].
    destruct (String.eqb_spec type "LineString") as [->|_]; [reflexivity|].
    destruct (String.eqb_spec type "MultiLineString") as [->|_]; [reflexivity|].
    destruct (String.eqb_spec type "Polygon") as [->|_]; [reflexivity|].
    destruct (String.eqb_spec type "MultiPolygon") as [->|_]; reflexivity. }
  lia.
Qed.

End Statistics.

(** C10. For a collection with a features array, the four bucket counters
    of [getStatistics] add up to [totalFeatures], which is the number of
    features; each counter is the number of features of its bucket. *)
Theorem getStatistics_partition (fs : list Feature) (c : string) :
  let stats := GeometryProcessor.getStatistics {| features := Some fs; crs := c |} in
  GeometryProcessor.points stats + GeometryProcessor.lines stats
  + GeometryProcessor.polygons stats + GeometryProcessor.other stats
  = GeometryProcessor.totalFeatures stats
  /\ GeometryProcessor.totalFeatures stats = length fs
  /\ GeometryProcessor.points stats = length (List.filter Spec.point_like fs)
  /\ GeometryProcessor.lines stats = length (List.filter Spec.line_like fs)
  /\ GeometryProcessor.polygons stats = length (List.filter Spec.polygon_like fs)
  /\ GeometryProcessor.other stats = length (List.filter Spec.other_like fs).
Proof.
  unfold GeometryProcessor.getStatistics. cbn [features].
  pose proof (buckets_partition fs) as Hsum.
  destruct (count_feature_fold fs
              {| GeometryProcessor.totalFeatures := length fs;
                 GeometryProcessor.points := 0; GeometryProcessor.lines := 0;
                 GeometryProcessor.polygons := 0; GeometryProcessor.other := 0 |})
    as (Ht & Hp & Hl & Hg & Ho).
  cbn [GeometryProcessor.totalFeatures GeometryProcessor.points
       GeometryProcessor.lines GeometryProcessor.polygons
       GeometryProcessor.other] in *.
  cbv zeta. rewrite Ht, Hp, Hl, Hg, Ho. repeat split; lia.
Qed.

(** ** Sampling *)

Section Sampling.

Import GeometryProcessor.

Lemma firstn_empty_guard {A} (n : nat) (l acc : list A) :
  (if 0 <? length l then acc ++ firstn n l else acc) = acc ++ firstn n l.
Proof.
  destruct l as [|x l]; cbn [length].
  - rewrite firstn_nil, app_nil_r. reflexivity.
  - reflexivity.
Qed.

(** The sample of a non-empty collection: [ceil(limit / 3)] features of
    each of the three types, concatenated in the fixed order and cut at
    [limit]. *)
Lemma getSampleFeatures_eq (fs : list Feature) (c : string) (limit : nat) :
  fs <> [] ->
  getSampleFeatures {| features := Some fs; crs := c |} limit
  = firstn limit
      (firstn (ceil_div limit 3) (Spec.of_type "Point" fs)
       ++ firstn (ceil_div limit 3) (Spec.of_type "LineString" fs)
       ++ firstn (ceil_div limit 3) (Spec.of_type "Polygon" fs)).
Proof.
  intros Hne. unfold getSampleFeatures. cbn [features].
  destruct fs as [|f l]; [contradiction|].
  remember (f :: l) as fs0 eqn:Hfs. clear Hfs Hne.
  unfold sample_types. cbn [fold_left length].
  fold (Spec.of_type "Point" fs0). fold (Spec.of_type "LineString" fs0).
  fold (Spec.of_type "Polygon" fs0).
  rewrite !firstn_empty_guard. cbn [app].
  rewrite <- app_assoc. reflexivity.
Qed.

Lemma of_type_type (type : string) (fs : list Feature) (n : nat) :
  Forall (fun f => geometry_type (geometry f) = type)
         (firstn n (Spec.of_type type fs)).
Proof.
  apply Forall_forall. intros f Hin.
  apply (subseteq_take n), list_elem_of_In, filter_In in Hin.
  destruct Hin as [_ H].
  apply String.eqb_eq, H.
Qed.

End Sampling.

(** C6 (amended). On a collection with 10 Point features, 10 LineString
    features and no Polygon feature, [getSampleFeatures(collection, 6)]
    returns exactly 4 features: the first ceil(6/3) = 2 Point features
    followed by the first 2 LineString features, in collection order;
    every sampled feature is a Point or a LineString. *)
Theorem getSampleFeatures_ten_ten_zero (fs : list Feature) (c : string) :
  length (Spec.of_type "Point" fs) = 10 ->
  length (Spec.of_type "LineString" fs) = 10 ->
  length (Spec.of_type "Polygon" fs) = 0 ->
  let sample :=
    GeometryProcessor.getSampleFeatures {| features := Some fs; crs := c |} 6 in
  sample = firstn 2 (Spec.of_type "Point" fs)
           ++ firstn 2 (Spec.of_type "LineString" fs)
  /\ length sample = 4
  /\ Forall (fun f => geometry_type (geometry f) = "Point"
                      \/ geometry_type (geometry f) = "LineString") sample.
Proof.
  intros Hp Hl Hg sample.
  assert (Hne : fs <> []) by (intros ->; discriminate Hp).
  assert (Hlen : length (firstn 2 (Spec.of_type "Point" fs)
                         ++ firstn 2 (Spec.of_type "LineString" fs)) = 4).
  { rewrite length_app, !length_firstn, Hp, Hl. reflexivity. }
  assert (Hs : sample = firstn 2 (Spec.of_type "Point" fs)
                        ++ firstn 2 (Spec.of_type "LineString" fs)).
  { subst sample. rewrite (getSampleFeatures_eq fs c 6 Hne).
    change (GeometryProcessor.ceil_div 6 3) with 2.
    apply length_zero_iff_nil in Hg. rewrite Hg, firstn_nil, app_nil_r.
    apply firstn_all2. rewrite Hlen. lia. }
  split; [exact Hs | split].
  - rewrite Hs. exact Hlen.
  - rewrite Hs. apply Forall_app. split.
    + eapply Forall_impl; [apply of_type_type|]. intros f H. left. exact H.
    + eapply Forall_impl; [apply of_type_type|]. intros f H. right. exact H.
Qed.

(** The interleaved collection of ten points and ten lines: its sample of
    limit 6 has 4 features. *)
Lemma getSampleFeatures_ten_ten_zero_witness :
  length (GeometryProcessor.getSampleFeatures Examples.ten_points_ten_lines 6) = 4.
Proof.
  refine (proj1 (proj2 (getSampleFeatures_ten_ten_zero
            (flat_map (fun i => [Examples.point_feature i; Examples.line_feature i])
                      (seq 0 10))
            EPSG4326 _ _ _))); reflexivity.
Defined.

(** C6, as stated, fails: the sample of such a collection has 4
    features, not 6. *)
Lemma getSampleFeatures_six_counterexample :
  (exists fs, features Examples.ten_points_ten_lines = Some fs
              /\ length (Spec.of_type "Point" fs) = 10
              /\ length (Spec.of_type "LineString" fs) = 10
              /\ length (Spec.of_type "Polygon" fs) = 0)
  /\ length (GeometryProcessor.getSampleFeatures Examples.ten_points_ten_lines 6)
     <> 6.
Proof.
  split.
  - eexists. split; [reflexivity|]. repeat split; reflexivity.
  - vm_compute. discriminate.
Qed.

(** ** Boundary clipping *)

Section Clipping.

Import GeometryProcessor.

Variable b : LatLngBounds.

Abbreviation cb := (boundary_polygon b).

Lemma ge_le_swap (x y : JS.num) : JS.ge x y = JS.le y x.
Proof. destruct x, y; reflexivity. Qed.

(** The ring indices read the four sides of the box. *)
Lemma within_inside (lon lat : JS.num) :
  within cb lon lat = Spec.inside b (lon, lat).
Proof.
  unfold within, Spec.inside, minLon, maxLon, minLat, maxLat. cbn.
  rewrite !ge_le_swap. reflexivity.
Qed.

Lemma clipPointToBoundary_clamp (lon lat : JS.num) :
  clipPointToBoundary lon lat (minLon cb) (maxLon cb) (minLat cb) (maxLat cb)
  = Spec.clamp b (lon, lat).
Proof. reflexivity. Qed.

Lemma lookup_after_prefix (pre : list Coord) c suf :
  (pre ++ c :: suf) !! length pre = Some c.
Proof. apply list_lookup_middle. reflexivity. Qed.

(** The loop from index [length pre] on, with [acc] built so far, is the
    walk over the remaining vertices. *)
Lemma clipLineString_loop (suf : list Coord) : forall (pre acc : list Coord),
  fold_left (clipLineString_body cb (pre ++ suf))
            (seq (length pre) (length suf)) acc
  = acc ++ Spec.clip_line_walk b (0 <? length acc) suf.
Proof.
  induction suf as [|c suf IH]; intros pre acc.
  - cbn. rewrite app_nil_r. reflexivity.
  - cbn [length seq fold_left].
    assert (Hshift : pre ++ c :: suf = (pre ++ [c]) ++ suf)
      by (rewrite <- app_assoc; reflexivity).
    assert (Hlen : S (length pre) = length (pre ++ [c]))
      by (rewrite length_app; cbn; lia).
    unfold clipLineString_body at 2.
    rewrite lookup_after_prefix. destruct c as [lon lat].
    rewrite within_inside. cbn [Spec.clip_line_walk].
    destruct (Spec.inside b (lon, lat)) eqn:Hin.
    + rewrite Hshift, Hlen, IH.
      rewrite length_app. cbn [length].
      replace (0 <? length acc + 1) with true
        by (symmetry; apply Nat.ltb_lt; lia).
      rewrite <- app_assoc. reflexivity.
    + destruct suf as [|next suf'].
      * cbn [length seq fold_left].
        match goal with |- context [?i <? ?n - 1] =>
          replace (i <? n - 1) with false
            by (symmetry; apply Nat.ltb_ge; rewrite length_app; cbn; lia)
        end.
        rewrite andb_false_r, app_nil_r. reflexivity.
      * match goal with |- context [?i <? ?n - 1] =>
          replace (i <? n - 1) with true
            by (symmetry; apply Nat.ltb_lt; rewrite length_app; cbn; lia)
        end.
        rewrite andb_true_r.
        assert (Hlk : (pre ++ (lon, lat) :: next :: suf') !! (length pre + 1)
                        = Some next).
        { rewrite Hshift, Nat.add_1_r, Hlen. apply lookup_after_prefix. }
        rewrite Hlk.
        destruct next as [nextLon nextLat]. rewrite within_inside.
        destruct (0 <? length acc) eqn:Hacc; cbn [andb].
        -- destruct (Spec.inside b (nextLon, nextLat)) eqn:Hnext.
           ++ rewrite clipPointToBoundary_clamp.
              rewrite Hshift, Hlen, IH. rewrite length_app. cbn [length].
              replace (0 <? length acc + 1) with true
                by (symmetry; apply Nat.ltb_lt; lia).
              rewrite <- app_assoc. reflexivity.
           ++ rewrite Hshift, Hlen, IH, Hacc. reflexivity.
        -- rewrite Hshift, Hlen, IH, Hacc. reflexivity.
Qed.

Lemma clipLineString_walk (coords : list Coord) :
  clipLineString (setClipBoundary (Some b)) coords
  = Spec.clip_line_walk b false coords.
Proof.
  cbn [setClipBoundary clipLineString].
  apply (clipLineString_loop coords [] []).
Qed.

End Clipping.

(** C3 (amended). With a clip boundary set, [clipLineString] walks the
    vertices in order: a vertex inside the boundary (inclusive bounds) is
    kept; a vertex outside it is replaced by its coordinate-wise clamp
    when it is not the last one, its immediate next vertex is inside and
    some earlier vertex has already been kept, and is dropped otherwise.
    The clipped LineString feature is kept only if at least 2 points
    remain; otherwise it is dropped. *)
Theorem clipLineString_rule (b : LatLngBounds) (coords : list Coord)
    (props : Tags) :
  let clip := GeometryProcessor.setClipBoundary (Some b) in
  let clipped := Spec.clip_line_walk b false coords in
  GeometryProcessor.clipLineString clip coords = clipped
  /\ GeometryProcessor.clipFeatureToBoundary clip
       {| geometry := LineString coords; properties := props |}
     = if length clipped <? 2 then None
       else Some {| geometry := LineString clipped; properties := props |}.
Proof.
  cbv zeta. split.
  - apply clipLineString_walk.
  - pose proof (clipLineString_walk b coords) as H.
    cbn [GeometryProcessor.setClipBoundary] in *.
    cbn [GeometryProcessor.clipFeatureToBoundary geometry properties].
    rewrite H. reflexivity.
Qed.

(** C3, as stated, fails: on a line whose first vertex lies outside the
    unit box and whose second lies inside, the rule as worded puts the
    clamp of the first vertex in front, and the code drops that vertex. *)
Lemma clipLineString_first_vertex_counterexample :
  Spec.clip_line_as_specified Examples.unit_box Examples.entering_line
  = [ (JS.Num 1, JS.Num (1 # 2));
      (JS.Num (1 # 2), JS.Num (1 # 2));
      (JS.Num (3 # 5), JS.Num (1 # 2)) ]
  /\ GeometryProcessor.clipLineString
       (GeometryProcessor.setClipBoundary (Some Examples.unit_box))
       Examples.entering_line
     = [ (JS.Num (1 # 2), JS.Num (1 # 2));
         (JS.Num (3 # 5), JS.Num (1 # 2)) ].
Proof. split; reflexivity. Qed.

(** ** Geometry filter and export *)

Section Filter.

Import ExportService.

Lemma typeMap_lookup (kind : string) (ts : list string) :
  typeMap !! kind = Some ts <->
  (kind = "Point" /\ ts = ["Point"; "MultiPoint"])
  \/ (kind = "LineString" /\ ts = ["LineString"; "MultiLineString"])
  \/ (kind = "Polygon" /\ ts = ["Polygon"; "MultiPolygon"]).
Proof.
  unfold typeMap.
  destruct (decide (kind = "Point")) as [->|H1].
  { rewrite lookup_insert_eq. split.
    - intros [= <-]. auto.
    - intros [[_ ->]|[[? _]|[? _]]]; [reflexivity | discriminate..]. }
  rewrite lookup_insert_ne by congruence.
  destruct (decide (kind = "LineString")) as [->|H2].
  { rewrite lookup_insert_eq. split.
    - intros [= <-]. auto.
    - intros [[? _]|[[_ ->]|[? _]]]; [discriminate | reflexivity | discriminate]. }
  rewrite lookup_insert_ne by congruence.
  destruct (decide (kind = "Polygon")) as [->|H3].
  { rewrite lookup_insert_eq. split.
    - intros [= <-]. auto.
    - intros [[? _]|[[? _]|[_ ->]]]; [discriminate.. | reflexivity]. }
  rewrite lookup_insert_ne by congruence. rewrite lookup_empty.
  split; [discriminate|]. intros [[? _]|[[? _]|[? _]]]; contradiction.
Qed.

Lemma add_all_elem (ts : list string) : forall (acc : gset string) (t : string),
  t ∈ fold_left (fun (allowed : gset string) t => {[ t ]} ∪ allowed) ts acc
  <-> t ∈ acc \/ t ∈ ts.
Proof.
  induction ts as [|x ts IH]; intros acc t; cbn [fold_left].
  - rewrite elem_of_nil. tauto.
  - rewrite IH, elem_of_cons, elem_of_union, elem_of_singleton. tauto.
Qed.

Lemma covers_typeMap (kind type : string) :
  Spec.kind_covers kind type <->
  exists ts, typeMap !! kind = Some ts /\ type ∈ ts.
Proof.
  unfold Spec.kind_covers. split.
  - intros H. destruct H as [H|[H|H]]; destruct H as [Hk H]; subst kind;
      eexists; (split; [reflexivity|]);
      destruct H as [H|H]; subst type; rewrite !elem_of_cons; auto.
  - intros (ts & Hts & Hin). apply typeMap_lookup in Hts.
    destruct Hts as [[-> ->]|[[-> ->]|[-> ->]]];
      rewrite !elem_of_cons, elem_of_nil in Hin; intuition auto.
Qed.

(** The allowed set holds the types covered by a requested kind. *)
Lemma allowed_set_elem (kinds : list string) (type : string) :
  type ∈ allowed_set kinds <->
  exists kind, kind ∈ kinds /\ Spec.kind_covers kind type.
Proof.
  unfold allowed_set.
  assert (G : forall (acc : gset string),
    type ∈ fold_left (fun (allowed : gset string) k =>
              match typeMap !! k with
              | Some ts => fold_left (fun (allowed : gset string) t => {[ t ]} ∪ allowed)
                                     ts allowed
              | None => allowed
              end) kinds acc
    <-> type ∈ acc \/ exists kind, kind ∈ kinds /\ Spec.kind_covers kind type).
  { induction kinds as [|k kinds IH]; intros acc; cbn [fold_left].
    - split; [auto|]. intros [H|(kind & H & _)]; [exact H|].
      apply elem_of_nil in H. contradiction.
    - rewrite IH. split.
      + intros [H|(kind & Hk & Hc)].
        * destruct (typeMap !! k) as [ts|] eqn:E; [|auto].
          apply add_all_elem in H. destruct H as [H|H]; [auto|].
          right. exists k. split; [left|]. apply covers_typeMap. eauto.
        * right. exists kind. split; [right; exact Hk | exact Hc].
      + intros [H|(kind & Hk & Hc)].
        * left. destruct (typeMap !! k); [apply add_all_elem|]; auto.
        * apply elem_of_cons in Hk. destruct Hk as [->|Hk].
          -- left. apply covers_typeMap in Hc. destruct Hc as (ts & -> & Hin).
             apply add_all_elem. auto.
          -- right. eauto. }
  rewrite G, elem_of_empty. tauto.
Qed.

Lemma inherited_not_own (kind : string) :
  In kind inherited_properties -> typeMap !! kind = None.
Proof.
  intros Hin. destruct (typeMap !! kind) as [ts|] eqn:E; [|reflexivity].
  apply typeMap_lookup in E. exfalso.
  destruct E as [[-> _]|[[-> _]|[-> _]]]; cbn in Hin;
    repeat (destruct Hin as [Hin|Hin]; [discriminate Hin|]); exact Hin.
Qed.

Lemma typeMap_get_plain (kind : string) :
  ~ In kind inherited_properties ->
  typeMap_get kind = match typeMap !! kind with
                     | Some ts => Own ts
                     | None => Absent
                     end.
Proof.
  intros Hnot. unfold typeMap_get. destruct (typeMap !! kind); [reflexivity|].
  destruct (existsb _ inherited_properties) eqn:E; [|reflexivity].
  exfalso. apply Hnot. apply existsb_exists in E. destruct E as (x & Hx & Heq).
  apply String.eqb_eq in Heq. subst. exact Hx.
Qed.

Lemma typeMap_get_inherited (kind : string) :
  In kind inherited_properties -> typeMap_get kind = Inherited.
Proof.
  intros Hin. unfold typeMap_get. rewrite (inherited_not_own kind Hin).
  replace (existsb (String.eqb kind) inherited_properties) with true;
    [reflexivity|].
  symmetry. apply existsb_exists. exists kind. split; [exact Hin|].
  apply String.eqb_refl.
Qed.

(** On plain kinds the loop returns the set of the covered types. *)
Lemma build_allowed_plain (kinds : list string) :
  Spec.plain_kinds kinds ->
  forall acc,
    build_allowed kinds acc
    = JS.Return (fold_left (fun (allowed : gset string) type =>
                   match typeMap !! type with
                   | Some ts =>
                       fold_left (fun (allowed : gset string) t => {[ t ]} ∪ allowed)
                                 ts allowed
                   | None => allowed
                   end) kinds acc).
Proof.
  induction 1 as [|kind kinds Hk _ IH]; intros acc; [reflexivity|].
  cbn [build_allowed fold_left]. rewrite (typeMap_get_plain kind Hk).
  destruct (typeMap !! kind); apply IH.
Qed.

(** A kind that names an inherited property makes the loop throw. *)
Lemma build_allowed_inherited (kinds : list string) :
  Exists (fun kind => In kind inherited_properties) kinds ->
  forall acc,
    build_allowed kinds acc
    = JS.Throw (JS.TypeError "typeMap[type].forEach is not a function").
Proof.
  induction kinds as [|kind kinds IH]; intros Hex acc.
  - inversion Hex.
  - cbn [build_allowed].
    destruct (typeMap_get kind) eqn:E; try reflexivity.
    + apply IH. inversion Hex as [? ? Hk|? ? Hrest]; subst; [|exact Hrest].
      rewrite (typeMap_get_inherited kind Hk) in E. discriminate E.
    + apply IH. inversion Hex as [? ? Hk|? ? Hrest]; subst; [|exact Hrest].
      rewrite (typeMap_get_inherited kind Hk) in E. discriminate E.
Qed.

Lemma filterByGeometry_plain (geojson : FeatureCollection) (kinds : list string) :
  Spec.plain_kinds kinds ->
  filterByGeometry geojson kinds
  = match features geojson with
    | None => JS.Throw (JS.TypeError "geojson.features is undefined")
    | Some fs =>
        JS.Return
          {| features :=
               Some (List.filter
                       (fun feature =>
                          bool_decide (geometry_type (geometry feature)
                                       ∈ allowed_set kinds))
                       fs);
             crs := crs geojson |}
    end.
Proof.
  intros Hplain. unfold filterByGeometry, allowed_set.
  rewrite (build_allowed_plain kinds Hplain). reflexivity.
Qed.

Lemma filter_none {A} (p : A -> bool) (l : list A) :
  (forall x, x ∈ l -> p x = false) -> List.filter p l = [].
Proof.
  induction l as [|x l IH]; intros H; [reflexivity|].
  cbn. rewrite (H x) by left. apply IH. intros y Hy. apply H. right. exact Hy.
Qed.

End Filter.

(** C5. When a non-empty list of geometry kinds is requested and the
    geometry filter excludes every feature, [export] fails: it throws
    the error "No features match the selected geometry types", wrapped
    as an export failure, whatever the format and the adapters.  The
    filter excludes every feature whenever no feature has a type covered
    by a requested kind and the kinds are geometry kinds (none of them
    names an inherited object property, on which the filter itself
    throws). *)
Theorem export_empty_filter {OsmData Metadata Output : Type}
    (generateMetadata : FeatureCollection -> option LatLngBounds ->
       option (list string) -> string -> string -> JS.Result Metadata)
    (exportGeoJSON exportShapefile :
       FeatureCollection -> string -> Metadata -> JS.Result Output)
    (exportKML exportGPX : FeatureCollection -> string -> JS.Result Output)
    (exportOSM : OsmData -> string -> JS.Result Output)
    (format : string) (geojson : FeatureCollection) (osmData : OsmData)
    (filename : string) (kinds : list string) (bounds : option LatLngBounds)
    (selectedFeatures : option (list string)) :
  kinds <> [] ->
  (forall filtered,
      ExportService.filterByGeometry geojson kinds = JS.Return filtered ->
      features filtered = Some [] ->
      ExportService.export generateMetadata exportGeoJSON exportShapefile
        exportKML exportGPX exportOSM
        format geojson osmData filename (Some kinds) bounds selectedFeatures
      = JS.Throw (JS.Error
          "Export failed: No features match the selected geometry types"))
  /\ (forall fs,
        features geojson = Some fs ->
        Spec.plain_kinds kinds ->
        (forall f kind, f ∈ fs -> kind ∈ kinds ->
           ~ Spec.kind_covers kind (geometry_type (geometry f))) ->
        ExportService.filterByGeometry geojson kinds
        = JS.Return {| features := Some []; crs := crs geojson |}
        /\ ExportService.export generateMetadata exportGeoJSON exportShapefile
             exportKML exportGPX exportOSM
             format geojson osmData filename (Some kinds) bounds selectedFeatures
           = JS.Throw (JS.Error
               "Export failed: No features match the selected geometry types")).
Proof.
  intros Hkinds.
  assert (Hfirst : forall filtered,
    ExportService.filterByGeometry geojson kinds = JS.Return filtered ->
    features filtered = Some [] ->
    ExportService.export generateMetadata exportGeoJSON exportShapefile
      exportKML exportGPX exportOSM
      format geojson osmData filename (Some kinds) bounds selectedFeatures
    = JS.Throw (JS.Error
        "Export failed: No features match the selected geometry types")).
  { intros filtered Hfilter Hempty.
    unfold ExportService.export, ExportService.filter_requested.
    destruct kinds as [|k kinds]; [contradiction|].
    cbn [length Nat.ltb Nat.leb default].
    change (id (k :: kinds)) with (k :: kinds).
    rewrite Hfilter. unfold ExportService.features_length.
    cbn [mbind result_bind JS.bind]. rewrite Hempty. reflexivity. }
  split; [exact Hfirst|].
  intros fs Hfs Hplain Hnone.
  assert (Hfilter : ExportService.filterByGeometry geojson kinds
                    = JS.Return {| features := Some []; crs := crs geojson |}).
  { rewrite (filterByGeometry_plain geojson kinds Hplain), Hfs.
    rewrite filter_none; [reflexivity|].
    intros f Hf. apply bool_decide_eq_false.
    rewrite allowed_set_elem. intros (kind & Hk & Hc).
    exact (Hnone f kind Hf Hk Hc). }
  split; [exact Hfilter|]. apply (Hfirst _ Hfilter). reflexivity.
Qed.

(** A collection with one Point, filtered on the Polygon kind. *)
Lemma export_empty_filter_witness :
  ExportService.export Examples.metadata_ok Examples.encode3_ok
    Examples.encode3_ok Examples.encode2_ok Examples.encode2_ok
    Examples.encode_osm_ok
    "geojson" Examples.one_point None "extract" (Some ["Polygon"]) None None
  = JS.Throw (JS.Error
      "Export failed: No features match the selected geometry types").
Proof.
  refine (proj2 (proj2 (export_empty_filter Examples.metadata_ok
           Examples.encode3_ok Examples.encode3_ok Examples.encode2_ok
           Examples.encode2_ok Examples.encode_osm_ok
           "geojson" Examples.one_point None "extract"
           ["Polygon"] None None _)
           [Examples.point_feature 0] eq_refl _ _)).
  - discriminate.
  - constructor; [|constructor]. cbn. intros H.
    repeat (destruct H as [H|H]; [discriminate H|]). exact H.
  - intros f kind Hf Hk.
    apply list_elem_of_singleton in Hf. apply list_elem_of_singleton in Hk.
    subst f kind. unfold Spec.kind_covers. cbn.
    intros [[H _]|[[H _]|[_ [H|H]]]]; discriminate H.
Defined.

(** A kind that names an inherited property is outside the filter's
    reach: on the list [constructor] the filter throws, and [export]
    reports that error, not the one of an empty result. *)
Lemma export_inherited_kind :
  ExportService.filterByGeometry Examples.one_point ["constructor"]
  = JS.Throw (JS.TypeError "typeMap[type].forEach is not a function")
  /\ ExportService.export Examples.metadata_ok Examples.encode3_ok
       Examples.encode3_ok Examples.encode2_ok Examples.encode2_ok
       Examples.encode_osm_ok
       "geojson" Examples.one_point None "extract" (Some ["constructor"])
       None None
     = JS.Throw (JS.Error
         "Export failed: typeMap[type].forEach is not a function").
Proof. split; reflexivity. Qed.

(** ** The converter *)

Section ConverterFacts.

Import GeometryProcessor.

Variable clipBoundary : option ClipPolygon.
Variable node_pass_progress : nat -> nat -> Z.
Variable way_pass_progress : nat -> nat -> nat -> Z.
Variable onProgress : bool.

Lemma appends_refl st : Spec.appends st st.
Proof. split; exists []; rewrite app_nil_r; reflexivity. Qed.

Lemma appends_trans st1 st2 st3 :
  Spec.appends st1 st2 -> Spec.appends st2 st3 -> Spec.appends st1 st3.
Proof.
  intros [[fs1 Hf1] [es1 He1]] [[fs2 Hf2] [es2 He2]]. split.
  - exists (fs1 ++ fs2). rewrite Hf2, Hf1, app_assoc. reflexivity.
  - exists (es1 ++ es2). rewrite He2, He1, app_assoc. reflexivity.
Qed.

Lemma push_appends f st : Spec.appends st (push f st).
Proof. split; [exists [f] | exists []; rewrite app_nil_r]; reflexivity. Qed.

Lemma tick_appends st : Spec.appends st (tick st).
Proof. split; exists []; rewrite app_nil_r; reflexivity. Qed.

Lemma report_appends e st : Spec.appends st (report e st).
Proof. split; [exists []; rewrite app_nil_r | exists [e]]; reflexivity. Qed.

Lemma push_clipped_appends f st : Spec.appends st (push_clipped f st).
Proof.
  unfold push_clipped. destruct f as [f|]; [|apply appends_refl].
  destruct (0 <? _); [apply push_appends | apply appends_refl].
Qed.

Create HintDb conv.
#[local] Hint Resolve appends_refl push_appends tick_appends report_appends
  push_clipped_appends : conv.

Lemma process_node_appends total st el :
  Spec.appends st
    (process_node clipBoundary node_pass_progress onProgress total st el).
Proof.
  unfold process_node.
  match goal with |- context [tick ?x] => assert (Spec.appends st x) as H end.
  { destruct el as [n| | |]; auto with conv.
    destruct (_ && _ && _); auto with conv.
    destruct (isPointInBoundary _ _ _); auto with conv. }
  destruct (_ && _);
    eauto using appends_trans with conv.
Qed.

Lemma process_way_appends nodes len st w :
  Spec.appends st
    (process_way clipBoundary way_pass_progress onProgress nodes len st w).
Proof.
  unfold process_way.
  destruct (way_nodes w) as [[|id ids]|]; auto with conv.
  destruct (length _ =? 0); auto with conv.
  destruct (_ && _);
    eauto 6 using appends_trans with conv.
Qed.

Lemma process_relation_appends nodes ways st r :
  Spec.appends st (process_relation clipBoundary nodes ways st r).
Proof.
  unfold process_relation.
  eapply appends_trans; [|apply tick_appends].
  destruct (members r) as [[|m ms]|]; auto with conv.
  destruct (0 <? _); auto with conv.
Qed.

Lemma fold_appends {A} (step : Conv -> A -> Conv) :
  (forall st x, Spec.appends st (step st x)) ->
  forall xs st, Spec.appends st (fold_left step xs st).
Proof.
  intros Hstep xs. induction xs as [|x xs IH]; intros st; cbn [fold_left].
  - apply appends_refl.
  - eapply appends_trans; [apply Hstep | apply IH].
Qed.

Lemma appends_collected st st' f :
  Spec.appends st st' -> f ∈ collected st -> f ∈ collected st'.
Proof.
  intros [[fs Hfs] _] Hin. rewrite Hfs. apply elem_of_app. left. exact Hin.
Qed.

Lemma fold_left_preserves {S A} (P : S -> Prop) (step : S -> A -> S)
    (xs : list A) :
  (forall st x, In x xs -> P st -> P (step st x)) ->
  forall st, P st -> P (fold_left step xs st).
Proof.
  induction xs as [|x xs IH]; intros Hstep st Hst; cbn [fold_left].
  - exact Hst.
  - apply IH.
    + intros st' y Hy. apply Hstep. right. exact Hy.
    + apply Hstep; [left; reflexivity | exact Hst].
Qed.

Section Invariant.

(** A property of features that holds of what each pass pushes holds of
    everything collected. *)
Variable P : Feature -> Prop.
Variable elements : list Element.

Hypothesis P_node : forall n,
  In (node n) elements ->
  JS.truthy (lat n) = true -> JS.truthy (lon n) = true ->
  has_tags (node_tags n) = true ->
  isPointInBoundary clipBoundary (lon n) (lat n) = true ->
  P (Spec.point_of n).

Hypothesis P_clipped : forall f f',
  Spec.built_by_way_or_relation f ->
  clipFeatureToBoundary clipBoundary f = Some f' -> P f'.

Lemma push_Forall f st :
  P f -> Forall P (collected st) -> Forall P (collected (push f st)).
Proof.
  intros Hf Hst. cbn. apply Forall_app. split; [exact Hst|].
  constructor; [exact Hf | constructor].
Qed.

Lemma push_clipped_Forall f st :
  Spec.built_by_way_or_relation f ->
  Forall P (collected st) ->
  Forall P (collected (push_clipped (clipFeatureToBoundary clipBoundary f) st)).
Proof.
  intros Hf Hst. unfold push_clipped.
  destruct (clipFeatureToBoundary clipBoundary f) as [f'|] eqn:E; [|exact Hst].
  destruct (0 <? _); [|exact Hst].
  apply push_Forall; [eapply P_clipped; eassumption | exact Hst].
Qed.

Lemma process_node_Forall total st el :
  In el elements -> Forall P (collected st) ->
  Forall P (collected
    (process_node clipBoundary node_pass_progress onProgress total st el)).
Proof.
  intros Hel Hst. unfold process_node.
  match goal with |- context [tick ?x] =>
    assert (Forall P (collected x)) as H end.
  { destruct el as [n| | |]; try exact Hst.
    destruct (JS.truthy (lat n)) eqn:Hlat; [|exact Hst].
    destruct (JS.truthy (lon n)) eqn:Hlon; [|exact Hst].
    destruct (has_tags (node_tags n)) eqn:Htags; [|exact Hst].
    cbn [andb].
    destruct (isPointInBoundary clipBoundary (lon n) (lat n)) eqn:Hin;
      [|exact Hst].
    apply push_Forall; [|exact Hst]. apply P_node; assumption. }
  destruct (_ && _); exact H.
Qed.

Lemma process_way_Forall nodes len st w :
  Forall P (collected st) ->
  Forall P (collected
    (process_way clipBoundary way_pass_progress onProgress nodes len st w)).
Proof.
  intros Hst. unfold process_way.
  destruct (way_nodes w) as [[|id ids]|]; try exact Hst.
  destruct (length _ =? 0); [exact Hst|].
  match goal with |- context [tick ?x] =>
    assert (Forall P (collected x)) as H end.
  { apply push_clipped_Forall; [|exact Hst].
    unfold Spec.built_by_way_or_relation. cbn [geometry].
    destruct (isAreaFeature _ _ _); exact I. }
  destruct (_ && _); exact H.
Qed.

Lemma process_relation_Forall nodes ways st r :
  Forall P (collected st) ->
  Forall P (collected (process_relation clipBoundary nodes ways st r)).
Proof.
  intros Hst. unfold process_relation. cbn [tick collected].
  destruct (members r) as [[|m ms]|]; try exact Hst.
  destruct (0 <? _); [|exact Hst].
  apply push_clipped_Forall; [exact I | exact Hst].
Qed.

Lemma passes_Forall st :
  Forall P (collected st) ->
  Forall P (collected
    (passes clipBoundary node_pass_progress way_pass_progress onProgress
       elements st)).
Proof.
  intros Hst. unfold passes.
  apply (fold_left_preserves (fun st => Forall P (collected st))).
  { intros st' r _. apply process_relation_Forall. }
  apply (fold_left_preserves (fun st => Forall P (collected st))).
  { intros st' w _. apply process_way_Forall. }
  apply (fold_left_preserves (fun st => Forall P (collected st))).
  { intros st' el Hel. apply process_node_Forall. exact Hel. }
  exact Hst.
Qed.

Lemma convert_Forall :
  Forall P (collected
    (convert clipBoundary node_pass_progress way_pass_progress onProgress
       elements)).
Proof.
  unfold convert.
  assert (H : forall st, Forall P (collected st) ->
            Forall P (collected
              (if onProgress
               then report {| stage := "complete";
                              message := "Processing complete";
                              progress := 100 |} st
               else st))).
  { intros st Hst. destruct onProgress; exact Hst. }
  apply H, passes_Forall. destruct onProgress; constructor.
Qed.

End Invariant.

Lemma passes_appends elements st :
  Spec.appends st
    (passes clipBoundary node_pass_progress way_pass_progress onProgress
       elements st).
Proof.
  unfold passes.
  eapply appends_trans; [|apply fold_appends, process_relation_appends].
  eapply appends_trans; [|apply fold_appends, process_way_appends].
  apply fold_appends, process_node_appends.
Qed.


(** Clipping neither turns a way or relation geometry into a Point nor
    lets a LineString of fewer than 2 points through. *)
Lemma clipFeature_not_point f f' :
  Spec.built_by_way_or_relation f ->
  clipFeatureToBoundary clipBoundary f = Some f' -> ~ Spec.is_point f'.
Proof.
  unfold Spec.built_by_way_or_relation, Spec.is_point, clipFeatureToBoundary.
  intros Hf Hclip.
  destruct clipBoundary as [cb|]; [|injection Hclip as <-].
  - destruct (geometry f); try contradiction.
    + destruct (length _ <? 2); [discriminate|]. injection Hclip as <-. auto.
    + destruct (_ || _); [discriminate|]. injection Hclip as <-. auto.
    + destruct (length _ =? 0); [discriminate|]. injection Hclip as <-. auto.
  - destruct (geometry f); auto.
Qed.

Lemma clipFeature_line_two cb f f' :
  Spec.built_by_way_or_relation f ->
  clipFeatureToBoundary (Some cb) f = Some f' -> Spec.line_has_two_points f'.
Proof.
  unfold Spec.built_by_way_or_relation, Spec.line_has_two_points,
    clipFeatureToBoundary.
  intros Hf Hclip cs Hcs.
  destruct (geometry f); try contradiction.
  - destruct (length _ <? 2) eqn:Hlen; [discriminate|].
    injection Hclip as <-. cbn in Hcs. injection Hcs as <-.
    apply Nat.ltb_ge in Hlen. exact Hlen.
  - destruct (_ || _); [discriminate|]. injection Hclip as <-. discriminate.
  - destruct (length _ =? 0); [discriminate|]. injection Hclip as <-.
    discriminate.
Qed.

(** The pass over the elements pushes the Point of a tagged node with
    non-zero coordinates that lies within the boundary. *)
Lemma process_node_pushes total st n :
  JS.truthy (lat n) = true -> JS.truthy (lon n) = true ->
  has_tags (node_tags n) = true ->
  isPointInBoundary clipBoundary (lon n) (lat n) = true ->
  Spec.point_of n ∈ collected
    (process_node clipBoundary node_pass_progress onProgress total st (node n)).
Proof.
  intros Hlat Hlon Htags Hin. unfold process_node.
  rewrite Hlat, Hlon, Htags, Hin. cbn [andb].
  assert (H : Spec.point_of n ∈ collected (tick (push (Spec.point_of n) st))).
  { cbn. apply elem_of_app. right. left. }
  destruct (_ && _); exact H.
Qed.

Lemma tagged_node_collected elements st n :
  In (node n) elements ->
  JS.truthy (lat n) = true -> JS.truthy (lon n) = true ->
  has_tags (node_tags n) = true ->
  isPointInBoundary clipBoundary (lon n) (lat n) = true ->
  Spec.point_of n ∈ collected
    (passes clipBoundary node_pass_progress way_pass_progress onProgress
       elements st).
Proof.
  intros Hel Hlat Hlon Htags Hin. unfold passes.
  eapply appends_collected; [apply fold_appends, process_relation_appends|].
  eapply appends_collected; [apply fold_appends, process_way_appends|].
  generalize (length elements). intros total.
  apply in_split in Hel. destruct Hel as (l1 & l2 & ->).
  rewrite fold_left_app. cbn [fold_left].
  eapply appends_collected; [apply fold_appends, process_node_appends|].
  apply process_node_pushes; assumption.
Qed.

End ConverterFacts.

(** C7 (amended). On a non-empty element list, a supplied progress sink
    receives the start event first and, as its last event, the
    "complete" event with progress 100. *)
Theorem progress_start_and_complete (clipBoundary : option ClipPolygon)
    (node_pass_progress : nat -> nat -> Z)
    (way_pass_progress : nat -> nat -> nat -> Z) (elements : list Element) :
  elements <> [] ->
  let events :=
    snd (GeometryProcessor.osmToGeoJSON clipBoundary node_pass_progress
           way_pass_progress true (Some elements)) in
  head events = Some Spec.start_event
  /\ last events = Some Spec.complete_event
  /\ progress Spec.complete_event = 100%Z.
Proof.
  intros Hne. destruct elements as [|el els]; [contradiction|].
  cbn [GeometryProcessor.osmToGeoJSON snd].
  unfold GeometryProcessor.convert.
  match goal with
  | |- context [GeometryProcessor.passes _ _ _ _ ?l ?st] =>
      destruct (passes_appends clipBoundary node_pass_progress
                  way_pass_progress true l st) as [_ [es Hes]]
  end.
  cbn [GeometryProcessor.report GeometryProcessor.reported] in *.
  rewrite Hes. cbn [app]. split; [reflexivity | split; [|reflexivity]].
  rewrite app_comm_cons. apply last_snoc.
Qed.

(** A one-element list: the last event is the "complete" event. *)
Lemma progress_start_and_complete_witness :
  last (snd (GeometryProcessor.osmToGeoJSON None Examples.node_percent
               Examples.way_percent true
               (Some [node Examples.equator_node])))
  = Some Spec.complete_event.
Proof.
  refine (proj1 (proj2 (progress_start_and_complete None Examples.node_percent
            Examples.way_percent [node Examples.equator_node] _))).
  discriminate.
Defined.

(** C7, as stated, fails: on the empty element list the converter
    returns before any report, so the sink receives neither the start
    event nor the "complete" event. *)
Lemma progress_empty_counterexample :
  snd (GeometryProcessor.osmToGeoJSON None Examples.node_percent
         Examples.way_percent true (Some [])) = []
  /\ head (snd (GeometryProcessor.osmToGeoJSON None Examples.node_percent
                  Examples.way_percent true (Some [])))
     <> Some Spec.start_event
  /\ last (snd (GeometryProcessor.osmToGeoJSON None Examples.node_percent
                  Examples.way_percent true (Some [])))
     <> Some Spec.complete_event.
Proof. repeat split; discriminate. Qed.

(** C2: the code at a tagged node on the equator.  The node has valid
    coordinates and one tag, no clip boundary is set, and the collection
    returned has no feature. *)
Theorem equator_node_not_emitted (node_pass_progress : nat -> nat -> Z)
    (way_pass_progress : nat -> nat -> nat -> Z) (onProgress : bool) :
  Utils.isValidCoordinate (lat Examples.equator_node)
                          (lon Examples.equator_node) = true
  /\ GeometryProcessor.has_tags (node_tags Examples.equator_node) = true
  /\ features (fst (GeometryProcessor.osmToGeoJSON None node_pass_progress
                      way_pass_progress onProgress
                      (Some [node Examples.equator_node])))
     = Some [].
Proof.
  split; [reflexivity | split; [reflexivity|]].
  destruct onProgress; reflexivity.
Qed.

(** C4: the code at a way with a single resolved vertex.  No clip
    boundary is set, and the collection returned holds a LineString of
    one point. *)
Theorem one_vertex_way_emitted (node_pass_progress : nat -> nat -> Z)
    (way_pass_progress : nat -> nat -> nat -> Z) (onProgress : bool) :
  features (fst (GeometryProcessor.osmToGeoJSON None node_pass_progress
                   way_pass_progress onProgress
                   (Some [node Examples.lone_vertex;
                          way Examples.one_vertex_way])))
  = Some [ {| geometry := LineString [(JS.Num 10, JS.Num 5)];
              properties :=
                GeometryProcessor.cleanProperties
                  (way_tags Examples.one_vertex_way) |} ].
Proof. destruct onProgress; reflexivity. Qed.

(** *** What the node pass does emit

    The nearby facts about standalone points: a tagged node whose
    latitude and longitude are both non-zero numbers is emitted when it
    passes the boundary test, and every Point of the output is the Point
    of a tagged node of the input. *)

(** X17. A node with at least one tag whose latitude and longitude are
    both non-zero numbers, and which passes the boundary test, has its
    Point feature, with coordinates [lon, lat] and cleaned tags, in the
    output. *)
Lemma tagged_node_emitted (clipBoundary : option ClipPolygon)
    (node_pass_progress : nat -> nat -> Z)
    (way_pass_progress : nat -> nat -> nat -> Z) (onProgress : bool)
    (elements : list Element) (n : Node) (fs : list Feature) :
  In (node n) elements ->
  JS.truthy (lat n) = true -> JS.truthy (lon n) = true ->
  GeometryProcessor.has_tags (node_tags n) = true ->
  GeometryProcessor.isPointInBoundary clipBoundary (lon n) (lat n) = true ->
  features (fst (GeometryProcessor.osmToGeoJSON clipBoundary node_pass_progress
                   way_pass_progress onProgress (Some elements))) = Some fs ->
  Spec.point_of n ∈ fs.
Proof.
  intros Hel Hlat Hlon Htags Hin.
  destruct elements as [|el els]; [contradiction|].
  cbn [GeometryProcessor.osmToGeoJSON fst features]. intros [= <-].
  unfold GeometryProcessor.convert.
  assert (H : forall st, Spec.point_of n ∈ GeometryProcessor.collected
                (GeometryProcessor.passes clipBoundary node_pass_progress
                   way_pass_progress onProgress (el :: els) st))
    by (intros st; apply tagged_node_collected; assumption).
  destruct onProgress; apply H.
Qed.

Lemma tagged_node_emitted_witness :
  Spec.point_of Examples.named_node ∈ [Spec.point_of Examples.named_node].
Proof.
  apply (tagged_node_emitted None Examples.node_percent Examples.way_percent
           false [node Examples.named_node] Examples.named_node
           [Spec.point_of Examples.named_node]);
    try reflexivity.
  left. reflexivity.
Defined.

(** X18. Every Point feature of the output is the Point of a node of the
    input that has at least one tag: untagged nodes yield no standalone
    point. *)
Lemma points_come_from_tagged_nodes (clipBoundary : option ClipPolygon)
    (node_pass_progress : nat -> nat -> Z)
    (way_pass_progress : nat -> nat -> nat -> Z) (onProgress : bool)
    (elements : option (list Element)) (fs : list Feature) :
  features (fst (GeometryProcessor.osmToGeoJSON clipBoundary node_pass_progress
                   way_pass_progress onProgress elements)) = Some fs ->
  Forall (fun f => Spec.is_point f ->
            exists n els, elements = Some els /\ In (node n) els
                          /\ GeometryProcessor.has_tags (node_tags n) = true
                          /\ f = Spec.point_of n) fs.
Proof.
  destruct elements as [[|el els]|];
    cbn [GeometryProcessor.osmToGeoJSON fst features]; intros [= <-];
    try constructor.
  apply convert_Forall.
  - intros n Hn _ _ Htags _ _. exists n, (el :: els). auto.
  - intros f f' Hf Hclip Hpoint.
    destruct (clipFeature_not_point clipBoundary f f' Hf Hclip Hpoint).
Qed.

Lemma points_come_from_tagged_nodes_witness :
  Forall (fun f => Spec.is_point f ->
            exists n els, Some [node Examples.named_node] = Some els
                          /\ In (node n) els
                          /\ GeometryProcessor.has_tags (node_tags n) = true
                          /\ f = Spec.point_of n)
    [Spec.point_of Examples.named_node].
Proof.
  apply (points_come_from_tagged_nodes None Examples.node_percent
           Examples.way_percent false (Some [node Examples.named_node])).
  reflexivity.
Defined.

(** *** Lines under a clip boundary *)

(** X19. With a clip boundary set, every LineString of the output has at
    least 2 points. *)
Lemma clipped_lines_have_two_points (cb : ClipPolygon)
    (node_pass_progress : nat -> nat -> Z)
    (way_pass_progress : nat -> nat -> nat -> Z) (onProgress : bool)
    (elements : option (list Element)) (fs : list Feature) :
  features (fst (GeometryProcessor.osmToGeoJSON (Some cb) node_pass_progress
                   way_pass_progress onProgress elements)) = Some fs ->
  Forall Spec.line_has_two_points fs.
Proof.
  destruct elements as [[|el els]|];
    cbn [GeometryProcessor.osmToGeoJSON fst features]; intros [= <-];
    try constructor.
  apply convert_Forall.
  - intros n _ _ _ _ _ cs Hcs. discriminate Hcs.
  - intros f f' Hf Hclip. eapply clipFeature_line_two; eassumption.
Qed.

Lemma clipped_lines_have_two_points_witness :
  Forall Spec.line_has_two_points
    [ {| geometry := LineString [ (JS.Num (1 # 2), JS.Num (1 # 2));
                                  (JS.Num (3 # 5), JS.Num (1 # 2)) ];
         properties := ∅ |} ].
Proof.
  apply (clipped_lines_have_two_points
           (GeometryProcessor.boundary_polygon Examples.unit_box)
           Examples.node_percent Examples.way_percent false
           (Some Examples.inner_way_elements)).
  reflexivity.
Defined.

(** * Further properties of the clipper *)

Section ClipperFacts.

Import GeometryProcessor.

Variable b : LatLngBounds.

Lemma Qle_bool_false (x y : Q) : Qle_bool x y = false -> (y <= x)%Q.
Proof.
  intros H. destruct (Qlt_le_dec y x) as [Hlt|Hle].
  - apply Qlt_le_weak, Hlt.
  - apply Qle_bool_iff in Hle. congruence.
Qed.

Lemma inside_numeric (c : Coord) : Spec.inside b c = true -> Spec.numeric c.
Proof.
  destruct c as [[x| |] [y| |]]; unfold Spec.inside; cbn;
    rewrite ?andb_false_r; try discriminate.
  intros _. exists x, y. reflexivity.
Qed.

Lemma inside_Num (x y : Q) :
  Spec.inside b (JS.Num x, JS.Num y) = true <->
  ((getWest b <= x /\ x <= getEast b)
   /\ (getSouth b <= y /\ y <= getNorth b))%Q.
Proof.
  unfold Spec.inside. cbn [fst snd].
  rewrite !andb_true_iff, !le_Num. tauto.
Qed.

(** [Math.max(lo, Math.min(hi, x))] lies between [lo] and [hi]. *)
Lemma clamp_between (lo hi x : Q) :
  (lo <= hi)%Q ->
  exists r, JS.Math_max (JS.Num lo) (JS.Math_min (JS.Num hi) (JS.Num x)) = JS.Num r
            /\ (lo <= r /\ r <= hi)%Q.
Proof.
  intros Hle. cbn [JS.Math_min JS.Math_max]. eexists. split; [reflexivity|].
  destruct (Qle_bool hi x) eqn:E1.
  - apply Qle_bool_iff in Hle. rewrite Hle. apply Qle_bool_iff in Hle.
    split; [exact Hle | apply Qle_refl].
  - apply Qle_bool_false in E1.
    destruct (Qle_bool lo x) eqn:E2.
    + apply Qle_bool_iff in E2. split; assumption.
    + split; [apply Qle_refl | exact Hle].
Qed.

Lemma clamp_inside (c : Coord) :
  Spec.well_formed b -> Spec.numeric c -> Spec.inside b (Spec.clamp b c) = true.
Proof.
  intros [Hwe Hsn] (x & y & ->). unfold Spec.clamp. cbn [fst snd].
  destruct (clamp_between _ _ x Hwe) as (r1 & -> & H1).
  destruct (clamp_between _ _ y Hsn) as (r2 & -> & H2).
  apply inside_Num. tauto.
Qed.

Lemma walk_inside (coords : list Coord) : forall entered,
  Spec.well_formed b -> Forall Spec.numeric coords ->
  Forall (fun c => Spec.inside b c = true) (Spec.clip_line_walk b entered coords).
Proof.
  induction coords as [|c rest IH]; intros entered Hwf Hnum; cbn [Spec.clip_line_walk].
  - constructor.
  - inversion Hnum as [|? ? Hc Hrest]; subst.
    destruct (Spec.inside b c) eqn:Hin.
    + constructor; [exact Hin | apply IH; assumption].
    + destruct rest as [|next rest']; [constructor|].
      destruct (entered && Spec.inside b next).
      * constructor; [apply clamp_inside; assumption | apply IH; assumption].
      * apply IH; assumption.
Qed.

Lemma walk_length (coords : list Coord) : forall entered,
  length (Spec.clip_line_walk b entered coords) <= length coords.
Proof.
  induction coords as [|c rest IH]; intros entered; cbn [Spec.clip_line_walk length].
  - lia.
  - destruct (Spec.inside b c).
    + cbn [length]. specialize (IH true). lia.
    + specialize (IH entered).
      destruct rest as [|next rest']; [cbn; lia|].
      destruct (entered && Spec.inside b next); simpl length in *; lia.
Qed.

Lemma walk_all_inside (coords : list Coord) : forall entered,
  Forall (fun c => Spec.inside b c = true) coords ->
  Spec.clip_line_walk b entered coords = coords.
Proof.
  induction coords as [|c rest IH]; intros entered Hall; cbn [Spec.clip_line_walk].
  - reflexivity.
  - inversion Hall as [|? ? Hc Hrest]; subst. rewrite Hc.
    f_equal. apply IH, Hrest.
Qed.

Lemma filter_within_inside (ring : list Coord) :
  Forall (fun c => Spec.inside b c = true)
    (List.filter (fun c => within (boundary_polygon b) (fst c) (snd c)) ring).
Proof.
  apply Forall_forall. intros c Hc.
  apply list_elem_of_In, filter_In in Hc. destruct Hc as [_ Hc].
  rewrite within_inside in Hc. destruct c; exact Hc.
Qed.

Lemma filter_all {A} (p : A -> bool) (l : list A) :
  Forall (fun x => p x = true) l -> List.filter p l = l.
Proof.
  induction 1 as [|x l Hx _ IH]; [reflexivity|].
  cbn. rewrite Hx, IH. reflexivity.
Qed.

Lemma map_fixed {A} (f : A -> A) (l : list A) :
  Forall (fun x => f x = x) l -> map f l = l.
Proof.
  induction 1 as [|x l Hx _ IH]; [reflexivity|].
  cbn. rewrite Hx, IH. reflexivity.
Qed.

Lemma strict_ne_inside (c : Coord) :
  Spec.inside b c = true ->
  JS.strict_ne (fst c) (fst c) = false /\ JS.strict_ne (snd c) (snd c) = false.
Proof.
  intros H. apply inside_numeric in H. destruct H as (x & y & ->). cbn.
  rewrite !Qeq_bool_refl. auto.
Qed.

(** What [clipRing] returns when the result has at least 4 points. *)
Lemma clipRing_facts (ring : list Coord) :
  let r := clipRing (boundary_polygon b) ring in
  Forall (fun c => Spec.inside b c = true) r
  /\ (4 <= length r -> Spec.closed_ring r).
Proof.
  cbv zeta. unfold clipRing.
  pose proof (filter_within_inside ring) as Hall.
  set (clipped := List.filter _ ring) in *.
  destruct (3 <=? length clipped) eqn:Hlen.
  2:{ split; [exact Hall|]. apply Nat.leb_gt in Hlen. lia. }
  destruct clipped as [|c0 cl] eqn:Hcl; [discriminate Hlen|].
  cbn [head].
  destruct (last (c0 :: cl)) as [final|] eqn:Hlast.
  2:{ apply last_None in Hlast. discriminate Hlast. }
  assert (Hc0 : Spec.inside b c0 = true) by (inversion Hall; assumption).
  destruct (JS.strict_ne (fst c0) (fst final) || JS.strict_ne (snd c0) (snd final))
    eqn:Hne.
  - split.
    + apply Forall_app. split; [exact Hall|]. constructor; [exact Hc0|constructor].
    + intros _. exists c0, c0. split; [reflexivity|]. split.
      * apply (last_snoc c0 (c0 :: cl)).
      * apply strict_ne_inside, Hc0.
  - split; [exact Hall|]. intros _. apply orb_false_iff in Hne.
    exists c0, final. tauto.
Qed.

Lemma clipRing_fixed (ring : list Coord) :
  let r := clipRing (boundary_polygon b) ring in
  4 <= length r -> clipRing (boundary_polygon b) r = r.
Proof.
  cbv zeta. intros Hlen.
  destruct (clipRing_facts ring) as [Hall Hclosed].
  specialize (Hclosed Hlen).
  destruct Hclosed as (first & final & Hhead & Hlast & Hx & Hy).
  set (r := clipRing (boundary_polygon b) ring) in *.
  unfold clipRing at 1.
  rewrite filter_all.
  2:{ eapply Forall_impl; [exact Hall|]. intros [lon lat] H.
      rewrite within_inside. exact H. }
  replace (3 <=? length r) with true by (symmetry; apply Nat.leb_le; lia).
  rewrite Hhead, Hlast, Hx, Hy. reflexivity.
Qed.

End ClipperFacts.

(** X1. With a well-formed box and numeric vertices, every vertex of a
    clipped line lies within the box, clamped substitutes included. *)
Theorem clipLineString_stays_in_box (b : LatLngBounds) (coords : list Coord) :
  Spec.well_formed b ->
  Forall Spec.numeric coords ->
  Forall (fun c => exists x y : Q,
            c = (JS.Num x, JS.Num y)
            /\ (getWest b <= x /\ x <= getEast b)%Q
            /\ (getSouth b <= y /\ y <= getNorth b)%Q)
    (GeometryProcessor.clipLineString
       (GeometryProcessor.setClipBoundary (Some b)) coords).
Proof.
  intros Hwf Hnum. rewrite clipLineString_walk.
  eapply Forall_impl; [apply walk_inside; assumption|].
  intros c Hc. destruct (inside_numeric b c Hc) as (x & y & ->).
  exists x, y. apply inside_Num in Hc. tauto.
Qed.

Lemma clipLineString_stays_in_box_witness :
  Forall (fun c => exists x y : Q,
            c = (JS.Num x, JS.Num y)
            /\ (0 <= x /\ x <= 1)%Q /\ (0 <= y /\ y <= 1)%Q)
    (GeometryProcessor.clipLineString
       (GeometryProcessor.setClipBoundary (Some Examples.unit_box))
       Examples.entering_line).
Proof.
  apply (clipLineString_stays_in_box Examples.unit_box Examples.entering_line).
  - split; discriminate.
  - repeat constructor; eexists; eexists; reflexivity.
Defined.

(** X2. Whatever the boundary, set or not, a clipped line has no more
    vertices than the line it comes from. *)
Theorem clipLineString_never_longer (bounds : option LatLngBounds)
    (coords : list Coord) :
  length (GeometryProcessor.clipLineString
            (GeometryProcessor.setClipBoundary bounds) coords)
  <= length coords.
Proof.
  destruct bounds as [b|].
  - rewrite clipLineString_walk. apply walk_length.
  - cbn. lia.
Qed.

(** X3. A line whose vertices all lie inside the box is returned
    unchanged. *)
Theorem clipLineString_inside_unchanged (b : LatLngBounds) (coords : list Coord) :
  Forall (fun c => Spec.inside b c = true) coords ->
  GeometryProcessor.clipLineString
    (GeometryProcessor.setClipBoundary (Some b)) coords = coords.
Proof.
  intros Hall. rewrite clipLineString_walk. apply walk_all_inside, Hall.
Qed.

Lemma clipLineString_inside_unchanged_witness :
  GeometryProcessor.clipLineString
    (GeometryProcessor.setClipBoundary (Some Examples.unit_box))
    (tail Examples.entering_line)
  = tail Examples.entering_line.
Proof.
  apply (clipLineString_inside_unchanged Examples.unit_box
           (tail Examples.entering_line)).
  repeat constructor.
Defined.

(** X4. With a well-formed box and numeric vertices, clipping a line
    twice gives the same line as clipping it once. *)
Theorem clipLineString_idempotent (b : LatLngBounds) (coords : list Coord) :
  Spec.well_formed b ->
  Forall Spec.numeric coords ->
  let clip := GeometryProcessor.clipLineString
                (GeometryProcessor.setClipBoundary (Some b)) in
  clip (clip coords) = clip coords.
Proof.
  intros Hwf Hnum clip. subst clip. cbv beta.
  rewrite !clipLineString_walk.
  apply walk_all_inside, walk_inside; assumption.
Qed.

Lemma clipLineString_idempotent_witness :
  GeometryProcessor.clipLineString
    (GeometryProcessor.setClipBoundary (Some Examples.unit_box))
    (GeometryProcessor.clipLineString
       (GeometryProcessor.setClipBoundary (Some Examples.unit_box))
       Examples.entering_line)
  = GeometryProcessor.clipLineString
      (GeometryProcessor.setClipBoundary (Some Examples.unit_box))
      Examples.entering_line.
Proof.
  apply (clipLineString_idempotent Examples.unit_box Examples.entering_line).
  - split; discriminate.
  - repeat constructor; eexists; eexists; reflexivity.
Defined.

(** X5. Every ring that the polygon clip returns has at least 4 points,
    has all its points inside the box, and is closed: its first and last
    points are equal coordinate by coordinate. *)
Theorem clipPolygon_rings (b : LatLngBounds) (rings : list (list Coord)) :
  Forall (fun ring =>
            4 <= length ring
            /\ Forall (fun c => Spec.inside b c = true) ring
            /\ Spec.closed_ring ring)
    (GeometryProcessor.clipPolygon
       (GeometryProcessor.setClipBoundary (Some b)) rings).
Proof.
  cbn [GeometryProcessor.setClipBoundary GeometryProcessor.clipPolygon].
  apply Forall_forall. intros r Hr.
  apply list_elem_of_In, filter_In in Hr. destruct Hr as [Hr Hlen].
  apply in_map_iff in Hr. destruct Hr as (ring & <- & _).
  apply Nat.leb_le in Hlen.
  destruct (clipRing_facts b ring) as [Hall Hclosed]. auto.
Qed.

(** X6. Whatever the boundary, set or not, clipping the rings of a
    polygon twice gives the same rings as clipping them once. *)
Theorem clipPolygon_idempotent (bounds : option LatLngBounds)
    (rings : list (list Coord)) :
  let clip := GeometryProcessor.clipPolygon
                (GeometryProcessor.setClipBoundary bounds) in
  clip (clip rings) = clip rings.
Proof.
  destruct bounds as [b|]; [|reflexivity].
  cbn [GeometryProcessor.setClipBoundary GeometryProcessor.clipPolygon].
  set (result := List.filter _ (map _ rings)).
  assert (Hres : Forall (fun r => 4 <= length r
                          /\ GeometryProcessor.clipRing
                               (GeometryProcessor.boundary_polygon b) r = r)
                   result).
  { apply Forall_forall. intros r Hr.
    apply list_elem_of_In, filter_In in Hr. destruct Hr as [Hr Hlen].
    apply in_map_iff in Hr. destruct Hr as (ring & <- & _).
    apply Nat.leb_le in Hlen. split; [exact Hlen|].
    apply clipRing_fixed, Hlen. }
  rewrite map_fixed.
  - apply filter_all. eapply Forall_impl; [exact Hres|].
    intros r [Hlen _]. apply Nat.leb_le, Hlen.
  - eapply Forall_impl; [exact Hres|]. intros r [_ H]. exact H.
Qed.

(** X7. With a boundary set, a Point feature with numeric coordinates is
    kept unchanged when west <= lon <= east and south <= lat <= north
    (bounds included), and dropped otherwise. *)
Theorem clipPoint_containment (b : LatLngBounds) (x y : Q) (props : Tags) :
  let f := {| geometry := Point (JS.Num x, JS.Num y); properties := props |} in
  let clip := GeometryProcessor.clipFeatureToBoundary
                (GeometryProcessor.setClipBoundary (Some b)) in
  (((getWest b <= x /\ x <= getEast b)
    /\ (getSouth b <= y /\ y <= getNorth b))%Q -> clip f = Some f)
  /\ (~ ((getWest b <= x /\ x <= getEast b)
         /\ (getSouth b <= y /\ y <= getNorth b))%Q -> clip f = None).
Proof.
  cbv zeta.
  cbn [GeometryProcessor.setClipBoundary GeometryProcessor.clipFeatureToBoundary
       GeometryProcessor.isPointInBoundary geometry].
  rewrite within_inside.
  pose proof (inside_Num b x y) as Hiff.
  destruct (Spec.inside b (JS.Num x, JS.Num y)); cbn [negb]; split; intros H.
  - reflexivity.
  - exfalso. apply H, Hiff. reflexivity.
  - apply Hiff in H. discriminate H.
  - reflexivity.
Qed.

(** X8. A feature that clipping keeps has the geometry type and the
    properties it had before. *)
Theorem clipFeature_keeps_type_and_properties (bounds : option LatLngBounds)
    (f f' : Feature) :
  GeometryProcessor.clipFeatureToBoundary
    (GeometryProcessor.setClipBoundary bounds) f = Some f' ->
  geometry_type (geometry f') = geometry_type (geometry f)
  /\ properties f' = properties f.
Proof.
  destruct bounds as [b|];
    cbn [GeometryProcessor.setClipBoundary GeometryProcessor.clipFeatureToBoundary].
  2:{ intros [= <-]. auto. }
  destruct (geometry f) as [[lon lat]|cs|rs|ls|cs|ps|t] eqn:Hg;
    try (intros [= <-]; rewrite Hg; auto; fail).
  - destruct (negb _); [discriminate|]. intros [= <-]. rewrite Hg. auto.
  - destruct (length _ <? 2); [discriminate|]. intros [= <-]. auto.
  - destruct (_ || _); [discriminate|]. intros [= <-]. auto.
  - destruct (length _ =? 0); [discriminate|]. intros [= <-]. auto.
Qed.

Lemma clipFeature_keeps_type_and_properties_witness :
  geometry_type (geometry (Examples.point_feature 1)) = "Point".
Proof.
  exact (proj1 (clipFeature_keeps_type_and_properties (Some Examples.unit_box)
           (Examples.point_feature 1) (Examples.point_feature 1) eq_refl)).
Defined.

(** * Further properties of the converter *)

Section ConverterPasses.

Import GeometryProcessor.

Variable clipBoundary : option ClipPolygon.
Variable node_pass_progress : nat -> nat -> Z.
Variable way_pass_progress : nat -> nat -> nat -> Z.
Variable onProgress : bool.

(** A pass that pushes, for each item, at most [weight] features of a
    kind [K] pushes in all a list of such features, no longer than the
    total weight. *)
Lemma fold_pushes {A} (K : Feature -> Prop) (weight : A -> nat)
    (step : Conv -> A -> Conv) (xs : list A) :
  (forall st x, In x xs ->
     exists fs, collected (step st x) = collected st ++ fs
                /\ Forall K fs /\ length fs <= weight x) ->
  forall st,
    exists fs, collected (fold_left step xs st) = collected st ++ fs
               /\ Forall K fs /\ length fs <= list_sum (map weight xs).
Proof.
  induction xs as [|x xs IH]; intros Hstep st; cbn [fold_left].
  - exists []. rewrite app_nil_r. repeat split; [constructor | cbn; lia].
  - change (list_sum (map weight (x :: xs)))
      with (weight x + list_sum (map weight xs)).
    destruct (Hstep st x (or_introl eq_refl)) as (fs1 & H1 & K1 & L1).
    destruct (IH (fun st' y Hy => Hstep st' y (or_intror Hy)) (step st x))
      as (fs2 & H2 & K2 & L2).
    exists (fs1 ++ fs2). rewrite H2, H1, app_assoc.
    repeat split; [apply Forall_app; auto | rewrite length_app; lia].
Qed.

Lemma pushes_nothing (K : Feature -> Prop) (n : nat) (st : Conv) :
  exists fs, collected st = collected st ++ fs /\ Forall K fs /\ length fs <= n.
Proof.
  exists []. rewrite app_nil_r. repeat split; [constructor | cbn; lia].
Qed.

Lemma pushes_one (K : Feature -> Prop) (f : Feature) (st : Conv) :
  K f ->
  exists fs, collected (push f st) = collected st ++ fs
             /\ Forall K fs /\ length fs <= 1.
Proof.
  intros Hf. exists [f]. repeat split; [repeat constructor; exact Hf | cbn; lia].
Qed.

Lemma push_clipped_pushes (K : Feature -> Prop) (f : Feature) (st : Conv) :
  (forall f', clipFeatureToBoundary clipBoundary f = Some f' -> K f') ->
  exists fs,
    collected (push_clipped (clipFeatureToBoundary clipBoundary f) st)
    = collected st ++ fs
    /\ Forall K fs /\ length fs <= 1.
Proof.
  intros HK. unfold push_clipped.
  destruct (clipFeatureToBoundary clipBoundary f) as [f'|];
    [|apply pushes_nothing].
  destruct (0 <? _); [apply pushes_one, HK; reflexivity | apply pushes_nothing].
Qed.

Lemma process_node_pushes_output elements total st el :
  In el elements ->
  exists fs,
    collected (process_node clipBoundary node_pass_progress onProgress total st el)
    = collected st ++ fs
    /\ Forall (Spec.node_output clipBoundary elements) fs
    /\ length fs <= Spec.node_weight el.
Proof.
  intros Hel. unfold process_node.
  match goal with |- context [tick ?x] =>
    assert (exists fs, collected x = collected st ++ fs
                       /\ Forall (Spec.node_output clipBoundary elements) fs
                       /\ length fs <= Spec.node_weight el) as H end.
  { destruct el as [n| | |]; try apply pushes_nothing.
    destruct (JS.truthy (lat n)) eqn:Hlat; [|apply pushes_nothing].
    destruct (JS.truthy (lon n)) eqn:Hlon; [|apply pushes_nothing].
    destruct (has_tags (node_tags n)) eqn:Htags; [|apply pushes_nothing].
    cbn [andb].
    destruct (isPointInBoundary clipBoundary (lon n) (lat n)) eqn:Hin;
      [|apply pushes_nothing].
    apply pushes_one. exists n. auto 10. }
  destruct (_ && _); exact H.
Qed.

Lemma isAreaFeature_true_count tags closed n :
  isAreaFeature tags closed n = true -> 4 <= n.
Proof.
  unfold isAreaFeature. destruct (n <? 4) eqn:Hn.
  - rewrite orb_true_r. discriminate.
  - intros _. apply Nat.ltb_ge, Hn.
Qed.

Lemma process_way_pushes_output nodes len st w :
  exists fs,
    collected (process_way clipBoundary way_pass_progress onProgress nodes len st w)
    = collected st ++ fs
    /\ Forall (Spec.way_output clipBoundary) fs
    /\ length fs <= 1.
Proof.
  unfold process_way.
  destruct (way_nodes w) as [[|id ids]|]; try apply pushes_nothing.
  destruct (length _ =? 0) eqn:Hlen; [apply pushes_nothing|].
  match goal with |- context [tick ?x] =>
    assert (exists fs, collected x = collected st ++ fs
                       /\ Forall (Spec.way_output clipBoundary) fs
                       /\ length fs <= 1) as H end.
  { apply push_clipped_pushes. intros f' Hclip.
    eexists. split; [|exact Hclip].
    split; [eexists; reflexivity|]. cbn [geometry].
    destruct (isAreaFeature _ _ _) eqn:Harea.
    - eexists. split; [reflexivity|].
      eapply isAreaFeature_true_count, Harea.
    - intros Hnil. rewrite Hnil in Hlen. discriminate Hlen. }
  destruct (_ && _); exact H.
Qed.

Lemma member_coords_nonempty nodes ways (ms : list Member) :
  Forall (fun l => l <> []) (omap (member_coords nodes ways) ms).
Proof.
  induction ms as [|m ms IH]; [constructor|].
  change (omap (member_coords nodes ways) (m :: ms))
    with (match member_coords nodes ways m with
          | Some y => y :: omap (member_coords nodes ways) ms
          | None => omap (member_coords nodes ways) ms
          end).
  destruct (member_coords nodes ways m) as [coords|] eqn:E; [|exact IH].
  constructor; [|exact IH].
  unfold member_coords in E.
  destruct (_ && _); [|discriminate].
  destruct (List.find _ ways) as [w|]; [|discriminate].
  destruct (way_nodes w); [|discriminate].
  destruct (0 <? length _) eqn:Hlen; [|discriminate].
  injection E as <-. intros Hnil. rewrite Hnil in Hlen. discriminate Hlen.
Qed.

Lemma process_relation_pushes_output nodes ways st r :
  exists fs,
    collected (process_relation clipBoundary nodes ways st r)
    = collected st ++ fs
    /\ Forall (Spec.relation_output clipBoundary) fs
    /\ length fs <= 1.
Proof.
  unfold process_relation. cbn [tick collected].
  destruct (members r) as [[|m ms]|]; try apply pushes_nothing.
  destruct (0 <? length _) eqn:Hlen; [|apply pushes_nothing].
  apply push_clipped_pushes. intros f' Hclip.
  eexists. split; [|exact Hclip].
  split; [eexists; reflexivity|]. cbn [geometry]. split.
  - intros Hnil. rewrite Hnil in Hlen. discriminate Hlen.
  - apply member_coords_nonempty.
Qed.

Lemma list_sum_ones {A} (xs : list A) :
  list_sum (map (fun _ => 1) xs) = length xs.
Proof.
  induction xs as [|x xs IH]; [reflexivity|].
  change (list_sum (map (fun _ : A => 1) (x :: xs)))
    with (1 + list_sum (map (fun _ : A => 1) xs)).
  rewrite IH. reflexivity.
Qed.

Lemma length_omap_cons {A B} (f : A -> option B) (x : A) (l : list A) :
  length (omap f (x :: l))
  = match f x with Some _ => 1 | None => 0 end + length (omap f l).
Proof.
  change (omap f (x :: l))
    with (match f x with Some y => y :: omap f l | None => omap f l end).
  destruct (f x); reflexivity.
Qed.

Lemma element_count (elements : list Element) :
  list_sum (map Spec.node_weight elements)
  + length (ways_of elements) + length (relations_of elements)
  <= length elements.
Proof.
  unfold ways_of, relations_of.
  induction elements as [|el els IH]; [cbn; lia|].
  change (list_sum (map Spec.node_weight (el :: els)))
    with (Spec.node_weight el + list_sum (map Spec.node_weight els)).
  rewrite !length_omap_cons. cbn [length].
  destruct el; cbn [Spec.node_weight]; lia.
Qed.

(** The features collected by the three passes: the points of the node
    pass, then the outputs of the way pass, then those of the relation
    pass. *)
Lemma passes_decomposition (elements : list Element) (st : Conv) :
  exists pts ws rs,
    collected (passes clipBoundary node_pass_progress way_pass_progress
                 onProgress elements st)
    = collected st ++ pts ++ ws ++ rs
    /\ Forall (Spec.node_output clipBoundary elements) pts
    /\ Forall (Spec.way_output clipBoundary) ws
    /\ Forall (Spec.relation_output clipBoundary) rs
    /\ length pts + length ws + length rs <= length elements.
Proof.
  unfold passes.
  destruct (fold_pushes (Spec.node_output clipBoundary elements)
              Spec.node_weight
              (process_node clipBoundary node_pass_progress onProgress
                 (length elements))
              elements
              (fun st' x Hx => process_node_pushes_output elements _ st' x Hx) st)
    as (pts & Hp & Kp & Lp).
  set (st1 := fold_left _ elements st) in *.
  destruct (fold_pushes (Spec.way_output clipBoundary) (fun _ => 1)
              (process_way clipBoundary way_pass_progress onProgress
                 (node_lookup elements) (length (ways_of elements)))
              (ways_of elements)
              (fun st' x _ => process_way_pushes_output _ _ st' x) st1)
    as (ws & Hw & Kw & Lw).
  set (st2 := fold_left _ (ways_of elements) st1) in *.
  destruct (fold_pushes (Spec.relation_output clipBoundary) (fun _ => 1)
              (process_relation clipBoundary (node_lookup elements)
                 (ways_of elements))
              (relations_of elements)
              (fun st' x _ => process_relation_pushes_output _ _ st' x) st2)
    as (rs & Hr & Kr & Lr).
  exists pts, ws, rs. rewrite Hr, Hw, Hp, <- !app_assoc.
  rewrite list_sum_ones in Lw. rewrite list_sum_ones in Lr.
  pose proof (element_count elements).
  repeat split; auto; lia.
Qed.

Lemma convert_decomposition (elements : list Element) :
  exists pts ws rs,
    collected (convert clipBoundary node_pass_progress way_pass_progress
                 onProgress elements)
    = pts ++ ws ++ rs
    /\ Forall (Spec.node_output clipBoundary elements) pts
    /\ Forall (Spec.way_output clipBoundary) ws
    /\ Forall (Spec.relation_output clipBoundary) rs
    /\ length pts + length ws + length rs <= length elements.
Proof.
  unfold convert.
  assert (H : forall st, collected st = [] ->
    exists pts ws rs,
      collected (if onProgress
                 then report {| stage := "complete";
                                message := "Processing complete";
                                progress := 100 |}
                        (passes clipBoundary node_pass_progress
                           way_pass_progress onProgress elements st)
                 else passes clipBoundary node_pass_progress
                        way_pass_progress onProgress elements st)
      = pts ++ ws ++ rs
      /\ Forall (Spec.node_output clipBoundary elements) pts
      /\ Forall (Spec.way_output clipBoundary) ws
      /\ Forall (Spec.relation_output clipBoundary) rs
      /\ length pts + length ws + length rs <= length elements).
  { intros st Hst.
    destruct (passes_decomposition elements st) as (pts & ws & rs & Hc & Hrest).
    rewrite Hst in Hc. exists pts, ws, rs.
    destruct onProgress; cbn [report collected]; rewrite Hc; auto. }
  destruct onProgress; apply H; reflexivity.
Qed.

(** The collection returned by [osmToGeoJSON], for any element array. *)
Lemma osmToGeoJSON_decomposition (elements : option (list Element)) :
  exists pts ws rs,
    features (fst (osmToGeoJSON clipBoundary node_pass_progress
                     way_pass_progress onProgress elements))
    = Some (pts ++ ws ++ rs)
    /\ Forall (Spec.node_output clipBoundary (default [] elements)) pts
    /\ Forall (Spec.way_output clipBoundary) ws
    /\ Forall (Spec.relation_output clipBoundary) rs
    /\ length pts + length ws + length rs <= length (default [] elements).
Proof.
  destruct elements as [[|el els]|]; cbn [osmToGeoJSON fst features default].
  - exists [], [], []. repeat split; try constructor; cbn; lia.
  - destruct (convert_decomposition (el :: els)) as (pts & ws & rs & Hc & H).
    exists pts, ws, rs. rewrite Hc. auto.
  - exists [], [], []. repeat split; try constructor; cbn; lia.
Qed.

End ConverterPasses.

Section OutputFacts.

Import GeometryProcessor.

Variable clipBoundary : option ClipPolygon.

(** What a kept feature looks like, by geometry of the feature clipped. *)
Lemma clip_result (f f' : Feature) :
  clipFeatureToBoundary clipBoundary f = Some f' ->
  properties f' = properties f
  /\ match geometry f with
     | LineString cs => exists cs', geometry f' = LineString cs'
     | Polygon rs =>
         geometry f' = Polygon (clipPolygon clipBoundary rs)
         /\ (clipBoundary <> None -> clipPolygon clipBoundary rs <> [])
     | MultiLineString ls =>
         exists ls', geometry f' = MultiLineString ls'
                     /\ (clipBoundary = None -> ls' = ls)
                     /\ (clipBoundary <> None ->
                         ls' <> [] /\ Forall (fun l => 2 <= length l) ls')
     | _ => geometry f' = geometry f
     end.
Proof.
  unfold clipFeatureToBoundary. destruct clipBoundary as [cb|].
  2:{ intros [= <-]. split; [reflexivity|].
      destruct (geometry f) as [c|cs|rs|ls|cs|ps|t]; try reflexivity.
      - eexists. reflexivity.
      - split; [reflexivity | congruence].
      - exists ls. repeat split; congruence. }
  destruct (geometry f) as [[lon lat]|cs|rs|ls|cs|ps|t] eqn:Hg;
    try (intros [= <-]; rewrite Hg; auto; fail).
  - destruct (negb _); [discriminate|]. intros [= <-]. rewrite Hg. auto.
  - destruct (length _ <? 2); [discriminate|]. intros [= <-]. cbn. eauto.
  - destruct (length _ =? 0) eqn:Hlen; [discriminate|]. cbn [orb].
    destruct (_ <? 4); [discriminate|]. intros [= <-].
    cbn [geometry properties].
    repeat split. intros _ Hnil. apply Nat.eqb_neq in Hlen. apply Hlen.
    exact (f_equal (@length _) Hnil).
  - destruct (length _ =? 0) eqn:Hlen; [discriminate|]. intros [= <-].
    cbn [geometry properties].
    split; [reflexivity|]. eexists. split; [reflexivity|].
    split; [congruence|]. intros _. split.
    + intros Hnil. apply Nat.eqb_neq in Hlen. apply Hlen.
      exact (f_equal (@length _) Hnil).
    + apply Forall_forall. intros l Hl.
      apply list_elem_of_In, filter_In in Hl. apply Nat.leb_le, Hl.
Qed.

Lemma clipPolygon_ring_sizes (cs : list Coord) :
  4 <= length cs ->
  Forall (fun r => 4 <= length r) (clipPolygon clipBoundary [cs]).
Proof.
  intros Hlen. destruct clipBoundary as [cb|]; cbn [clipPolygon].
  - apply Forall_forall. intros r Hr.
    apply list_elem_of_In, filter_In in Hr. apply Nat.leb_le, Hr.
  - repeat constructor. exact Hlen.
Qed.

Lemma node_output_facts elements f :
  Spec.node_output clipBoundary elements f -> Spec.is_point f /\ Spec.cleaned f.
Proof.
  intros (n & _ & _ & _ & _ & _ & ->). split; [exact I|].
  eexists. reflexivity.
Qed.

Lemma way_output_facts f' :
  Spec.way_output clipBoundary f' ->
  Spec.is_line_or_polygon f' /\ Spec.cleaned f'
  /\ (forall rs, geometry f' = Polygon rs ->
        rs <> [] /\ Forall (fun r => 4 <= length r) rs).
Proof.
  intros (f & [[tags Htags] Hshape] & Hclip).
  destruct (clip_result f f' Hclip) as [Hprops Hgeom].
  unfold Spec.is_line_or_polygon, Spec.cleaned. rewrite Hprops, Htags.
  destruct (geometry f) as [c|cs|rs|ls|cs|ps|t]; try contradiction.
  - destruct Hgeom as (cs' & ->). repeat split; eauto; discriminate.
  - destruct Hgeom as [-> Hne]. destruct Hshape as (cs & -> & Hlen).
    split; [exact I|]. split; [eauto|].
    intros rs' [= <-]. split; [|apply clipPolygon_ring_sizes, Hlen].
    destruct clipBoundary as [cb|] eqn:E; [apply Hne; discriminate|].
    discriminate.
Qed.

Lemma relation_output_facts f' :
  Spec.relation_output clipBoundary f' ->
  Spec.is_multiline f' /\ Spec.cleaned f'
  /\ (forall ls, geometry f' = MultiLineString ls ->
        ls <> [] /\ Forall (fun l => l <> []) ls).
Proof.
  intros (f & [[tags Htags] Hshape] & Hclip).
  destruct (clip_result f f' Hclip) as [Hprops Hgeom].
  unfold Spec.is_multiline, Spec.cleaned. rewrite Hprops, Htags.
  destruct (geometry f) as [c|cs|rs|ls|cs|ps|t]; try contradiction.
  destruct Hgeom as (ls' & -> & Hnone & Hsome).
  split; [exact I|]. split; [eauto|]. intros ls0 [= <-].
  destruct clipBoundary as [cb|].
  - destruct Hsome as [Hne Hall]; [discriminate|]. split; [exact Hne|].
    eapply Forall_impl; [exact Hall|]. intros l Hl Hnil. subst l.
    cbn in Hl. lia.
  - rewrite Hnone by reflexivity. exact Hshape.
Qed.

(** A cleaned mapping has no key of the skip list and no empty value. *)
Lemma cleaned_facts (f : Feature) :
  Spec.cleaned f ->
  (forall key, In key skipFields -> properties f !! key = None)
  /\ (forall key v, properties f !! key = Some v -> empty_value v = false).
Proof.
  intros [tags ->]. destruct tags as [tags|]; [|cbn [cleanProperties]].
  - split.
    + intros key Hin. rewrite cleanProperties_lookup.
      destruct (tags !! key) as [v|]; simpl; [| reflexivity].
      unfold kept. apply includes_In in Hin. rewrite Hin.
      rewrite orb_true_r. reflexivity.
    + intros key v. rewrite cleanProperties_lookup.
      destruct (tags !! key) as [w|]; simpl; [| discriminate].
      intros H. apply kept_Some in H. destruct H as (-> & H & _). exact H.
  - split; [intros; apply lookup_empty|].
    intros key v. rewrite lookup_empty. discriminate.
Qed.

Lemma Forall_app3 {A} (P : A -> Prop) (l1 l2 l3 : list A) :
  Forall P l1 -> Forall P l2 -> Forall P l3 -> Forall P (l1 ++ l2 ++ l3).
Proof. intros. repeat (apply Forall_app; split); assumption. Qed.

End OutputFacts.

Section ConverterAsFunction.

Import GeometryProcessor.

Variable clipBoundary : option ClipPolygon.
Variable node_pass_progress : nat -> nat -> Z.
Variable way_pass_progress : nat -> nat -> nat -> Z.
Variable onProgress : bool.

Lemma fold_collected {A} (g : A -> list Feature) (step : Conv -> A -> Conv)
    (xs : list A) :
  (forall st x, collected (step st x) = collected st ++ g x) ->
  forall st, collected (fold_left step xs st) = collected st ++ flat_map g xs.
Proof.
  intros Hstep. induction xs as [|x xs IH]; intros st; cbn [fold_left flat_map].
  - rewrite app_nil_r. reflexivity.
  - rewrite IH, Hstep, app_assoc. reflexivity.
Qed.

Lemma push_clipped_collected f st :
  collected (push_clipped (clipFeatureToBoundary clipBoundary f) st)
  = collected st ++ Spec.clipped_feature clipBoundary f.
Proof.
  unfold push_clipped, Spec.clipped_feature.
  destruct (clipFeatureToBoundary clipBoundary f) as [f'|];
    [|rewrite app_nil_r; reflexivity].
  destruct (0 <? _); [reflexivity | rewrite app_nil_r; reflexivity].
Qed.

Lemma process_node_collected total st el :
  collected (process_node clipBoundary node_pass_progress onProgress total st el)
  = collected st ++ Spec.node_feature clipBoundary el.
Proof.
  unfold process_node, Spec.node_feature.
  match goal with |- context [tick ?x] =>
    assert (collected x = collected st ++ Spec.node_feature clipBoundary el) as H
  end.
  { unfold Spec.node_feature. destruct el as [n| | |];
      try (rewrite app_nil_r; reflexivity).
    destruct (_ && _ && _); cbn [andb]; [|rewrite app_nil_r; reflexivity].
    destruct (isPointInBoundary _ _ _);
      [reflexivity | rewrite app_nil_r; reflexivity]. }
  destruct (_ && (_ =? 0)); exact H.
Qed.

Lemma process_way_collected nodes len st w :
  collected (process_way clipBoundary way_pass_progress onProgress nodes len st w)
  = collected st ++ Spec.way_feature clipBoundary nodes w.
Proof.
  unfold process_way, Spec.way_feature.
  destruct (way_nodes w) as [[|id ids]|]; try (rewrite app_nil_r; reflexivity).
  destruct (length _ =? 0); [rewrite app_nil_r; reflexivity|].
  destruct (_ && (_ =? 0)); cbn [report tick collected];
    apply push_clipped_collected.
Qed.

Lemma process_relation_collected nodes ways st r :
  collected (process_relation clipBoundary nodes ways st r)
  = collected st ++ Spec.relation_feature clipBoundary nodes ways r.
Proof.
  unfold process_relation, Spec.relation_feature. cbn [tick collected].
  destruct (members r) as [[|m ms]|]; try (rewrite app_nil_r; reflexivity).
  destruct (0 <? length _); [|rewrite app_nil_r; reflexivity].
  apply push_clipped_collected.
Qed.

Lemma passes_collected elements st :
  collected (passes clipBoundary node_pass_progress way_pass_progress
               onProgress elements st)
  = collected st ++ Spec.converted clipBoundary elements.
Proof.
  unfold passes, Spec.converted.
  rewrite (fold_collected _ _ _ (process_relation_collected _ _)).
  rewrite (fold_collected _ _ _ (process_way_collected _ _)).
  rewrite (fold_collected _ _ _ (process_node_collected _)).
  rewrite <- !app_assoc. reflexivity.
Qed.

Lemma osmToGeoJSON_features (elements : option (list Element)) :
  features (fst (osmToGeoJSON clipBoundary node_pass_progress
                   way_pass_progress onProgress elements))
  = Some (Spec.converted clipBoundary (default [] elements)).
Proof.
  destruct elements as [[|el els]|]; try reflexivity.
  cbn [osmToGeoJSON fst features default]. f_equal.
  assert (H : forall e st,
            collected (if onProgress then report e st else st) = collected st)
    by (intros e st; destruct onProgress; reflexivity).
  unfold convert. rewrite H, passes_collected, H. reflexivity.
Qed.

(** With no sink, nothing is reported. *)
Lemma fold_silent {A} (step : Conv -> A -> Conv) (xs : list A) :
  (forall st x, reported st = [] -> reported (step st x) = []) ->
  forall st, reported st = [] -> reported (fold_left step xs st) = [].
Proof.
  intros Hstep. induction xs as [|x xs IH]; intros st Hst; cbn [fold_left].
  - exact Hst.
  - apply IH, Hstep, Hst.
Qed.

Lemma push_clipped_reported f st :
  reported (push_clipped f st) = reported st.
Proof.
  unfold push_clipped. destruct f as [f|]; [|reflexivity].
  destruct (0 <? _); reflexivity.
Qed.

End ConverterAsFunction.

Lemma osmToGeoJSON_silent (clipBoundary : option ClipPolygon)
    (node_pass_progress : nat -> nat -> Z)
    (way_pass_progress : nat -> nat -> nat -> Z)
    (elements : option (list Element)) :
  snd (GeometryProcessor.osmToGeoJSON clipBoundary node_pass_progress
         way_pass_progress false elements) = [].
Proof.
  destruct elements as [[|el els]|]; try reflexivity.
  cbn [GeometryProcessor.osmToGeoJSON snd].
  unfold GeometryProcessor.convert, GeometryProcessor.passes.
  apply fold_silent.
  { intros st r Hst. unfold GeometryProcessor.process_relation.
    cbn [GeometryProcessor.tick GeometryProcessor.reported].
    destruct (members r) as [[|m ms]|]; try exact Hst.
    destruct (0 <? _); [|exact Hst].
    rewrite push_clipped_reported. exact Hst. }
  apply fold_silent.
  { intros st w Hst. unfold GeometryProcessor.process_way.
    destruct (way_nodes w) as [[|id ids]|]; try exact Hst.
    destruct (length _ =? 0); [exact Hst|].
    cbn [andb GeometryProcessor.tick GeometryProcessor.reported].
    rewrite push_clipped_reported. exact Hst. }
  apply fold_silent; [|reflexivity].
  intros st x Hst. unfold GeometryProcessor.process_node.
  cbn [andb GeometryProcessor.tick GeometryProcessor.reported].
  destruct x as [n| | |]; try exact Hst.
  destruct (_ && _ && _); [|exact Hst].
  destruct (GeometryProcessor.isPointInBoundary _ _ _); exact Hst.
Qed.

(** X9. The collection returned by the converter is, in this order, the
    point of each emitted node in input order, the feature of each
    emitted way in input order, and the feature of each emitted relation
    in input order; it is the same whether or not a progress sink is
    supplied. *)
Theorem osmToGeoJSON_in_input_order (clipBoundary : option ClipPolygon)
    (node_pass_progress : nat -> nat -> Z)
    (way_pass_progress : nat -> nat -> nat -> Z) (onProgress : bool)
    (elements : option (list Element)) :
  features (fst (GeometryProcessor.osmToGeoJSON clipBoundary node_pass_progress
                   way_pass_progress onProgress elements))
  = Some (Spec.converted clipBoundary (default [] elements)).
Proof. apply osmToGeoJSON_features. Qed.

(** X10. The progress sink only observes: without a sink no event is
    reported, and the collection returned is the same as with a sink. *)
Theorem progress_sink_only_observes (clipBoundary : option ClipPolygon)
    (node_pass_progress : nat -> nat -> Z)
    (way_pass_progress : nat -> nat -> nat -> Z)
    (elements : option (list Element)) :
  snd (GeometryProcessor.osmToGeoJSON clipBoundary node_pass_progress
         way_pass_progress false elements) = []
  /\ fst (GeometryProcessor.osmToGeoJSON clipBoundary node_pass_progress
            way_pass_progress false elements)
     = fst (GeometryProcessor.osmToGeoJSON clipBoundary node_pass_progress
              way_pass_progress true elements).
Proof.
  split; [apply osmToGeoJSON_silent|].
  pose proof (osmToGeoJSON_features clipBoundary node_pass_progress
                way_pass_progress false elements) as H1.
  pose proof (osmToGeoJSON_features clipBoundary node_pass_progress
                way_pass_progress true elements) as H2.
  destruct elements as [[|el els]|]; try reflexivity.
  cbn [GeometryProcessor.osmToGeoJSON fst features] in *.
  congruence.
Qed.

Lemma output_kinds (clipBoundary : option ClipPolygon)
    (node_pass_progress : nat -> nat -> Z)
    (way_pass_progress : nat -> nat -> nat -> Z) (onProgress : bool)
    (elements : option (list Element)) :
  exists pts ws rs,
    features (fst (GeometryProcessor.osmToGeoJSON clipBoundary
                     node_pass_progress way_pass_progress onProgress elements))
    = Some (pts ++ ws ++ rs)
    /\ Forall Spec.is_point pts
    /\ Forall Spec.is_line_or_polygon ws
    /\ Forall Spec.is_multiline rs.
Proof.
  destruct (osmToGeoJSON_decomposition clipBoundary node_pass_progress
              way_pass_progress onProgress elements)
    as (pts & ws & rs & Hf & Hp & Hw & Hr & _).
  exists pts, ws, rs. split; [exact Hf|]. split; [|split].
  - eapply Forall_impl; [exact Hp|]. intros f H.
    eapply node_output_facts, H.
  - eapply Forall_impl; [exact Hw|]. intros f H.
    eapply way_output_facts, H.
  - eapply Forall_impl; [exact Hr|]. intros f H.
    eapply relation_output_facts, H.
Qed.

(** X11. The output lists Point features first, then LineString and
    Polygon features, then MultiLineString features. *)
Theorem osmToGeoJSON_pass_order (clipBoundary : option ClipPolygon)
    (node_pass_progress : nat -> nat -> Z)
    (way_pass_progress : nat -> nat -> nat -> Z) (onProgress : bool)
    (elements : option (list Element)) :
  exists pts ws rs,
    features (fst (GeometryProcessor.osmToGeoJSON clipBoundary
                     node_pass_progress way_pass_progress onProgress elements))
    = Some (pts ++ ws ++ rs)
    /\ Forall Spec.is_point pts
    /\ Forall Spec.is_line_or_polygon ws
    /\ Forall Spec.is_multiline rs.
Proof. apply output_kinds. Qed.

(** X12. The converter never returns more features than it was given
    elements. *)
Theorem osmToGeoJSON_size (clipBoundary : option ClipPolygon)
    (node_pass_progress : nat -> nat -> Z)
    (way_pass_progress : nat -> nat -> nat -> Z) (onProgress : bool)
    (elements : option (list Element)) :
  exists fs,
    features (fst (GeometryProcessor.osmToGeoJSON clipBoundary
                     node_pass_progress way_pass_progress onProgress elements))
    = Some fs
    /\ length fs <= length (default [] elements).
Proof.
  destruct (osmToGeoJSON_decomposition clipBoundary node_pass_progress
              way_pass_progress onProgress elements)
    as (pts & ws & rs & Hf & _ & _ & _ & Hlen).
  eexists. split; [exact Hf|]. rewrite !length_app. lia.
Qed.

(** X13. Every Polygon of the output has at least one ring, and each of
    its rings has at least 4 points, whether or not a clip boundary is
    set. *)
Theorem osmToGeoJSON_polygons (clipBoundary : option ClipPolygon)
    (node_pass_progress : nat -> nat -> Z)
    (way_pass_progress : nat -> nat -> nat -> Z) (onProgress : bool)
    (elements : option (list Element)) :
  exists fs,
    features (fst (GeometryProcessor.osmToGeoJSON clipBoundary
                     node_pass_progress way_pass_progress onProgress elements))
    = Some fs
    /\ Forall (fun f => forall rings, geometry f = Polygon rings ->
                 rings <> [] /\ Forall (fun ring => 4 <= length ring) rings) fs.
Proof.
  destruct (osmToGeoJSON_decomposition clipBoundary node_pass_progress
              way_pass_progress onProgress elements)
    as (pts & ws & rs & Hf & Hp & Hw & Hr & _).
  eexists. split; [exact Hf|]. apply Forall_app3.
  - eapply Forall_impl; [exact Hp|]. intros f H rings Hg.
    apply node_output_facts in H. destruct H as [H _].
    unfold Spec.is_point in H. rewrite Hg in H. contradiction.
  - eapply Forall_impl; [exact Hw|]. intros f H.
    eapply way_output_facts, H.
  - eapply Forall_impl; [exact Hr|]. intros f H rings Hg.
    apply relation_output_facts in H. destruct H as [H _].
    unfold Spec.is_multiline in H. rewrite Hg in H. contradiction.
Qed.

(** X14. Every feature of the output carries cleaned properties: no key
    of the skip list and no empty value. *)
Theorem osmToGeoJSON_properties_cleaned (clipBoundary : option ClipPolygon)
    (node_pass_progress : nat -> nat -> Z)
    (way_pass_progress : nat -> nat -> nat -> Z) (onProgress : bool)
    (elements : option (list Element)) :
  exists fs,
    features (fst (GeometryProcessor.osmToGeoJSON clipBoundary
                     node_pass_progress way_pass_progress onProgress elements))
    = Some fs
    /\ Forall (fun f =>
         (forall key, In key GeometryProcessor.skipFields ->
                      properties f !! key = None)
         /\ (forall key v, properties f !! key = Some v ->
                           GeometryProcessor.empty_value v = false)) fs.
Proof.
  destruct (osmToGeoJSON_decomposition clipBoundary node_pass_progress
              way_pass_progress onProgress elements)
    as (pts & ws & rs & Hf & Hp & Hw & Hr & _).
  eexists. split; [exact Hf|]. apply Forall_app3.
  - eapply Forall_impl; [exact Hp|]. intros f H.
    apply cleaned_facts. eapply node_output_facts, H.
  - eapply Forall_impl; [exact Hw|]. intros f H.
    apply cleaned_facts. eapply way_output_facts, H.
  - eapply Forall_impl; [exact Hr|]. intros f H.
    apply cleaned_facts. eapply relation_output_facts, H.
Qed.

(** X15. Every MultiLineString of the output has at least one line, and
    none of its lines is empty. *)
Theorem osmToGeoJSON_multilines (clipBoundary : option ClipPolygon)
    (node_pass_progress : nat -> nat -> Z)
    (way_pass_progress : nat -> nat -> nat -> Z) (onProgress : bool)
    (elements : option (list Element)) :
  exists fs,
    features (fst (GeometryProcessor.osmToGeoJSON clipBoundary
                     node_pass_progress way_pass_progress onProgress elements))
    = Some fs
    /\ Forall (fun f => forall ls, geometry f = MultiLineString ls ->
                 ls <> [] /\ Forall (fun l => l <> []) ls) fs.
Proof.
  destruct (osmToGeoJSON_decomposition clipBoundary node_pass_progress
              way_pass_progress onProgress elements)
    as (pts & ws & rs & Hf & Hp & Hw & Hr & _).
  eexists. split; [exact Hf|]. apply Forall_app3.
  - eapply Forall_impl; [exact Hp|]. intros f H ls Hg.
    apply node_output_facts in H. destruct H as [H _].
    unfold Spec.is_point in H. rewrite Hg in H. contradiction.
  - eapply Forall_impl; [exact Hw|]. intros f H ls Hg.
    apply way_output_facts in H. destruct H as [H _].
    unfold Spec.is_line_or_polygon in H. rewrite Hg in H. contradiction.
  - eapply Forall_impl; [exact Hr|]. intros f H.
    eapply relation_output_facts, H.
Qed.

Lemma filter_nothing {A} (p : A -> bool) (l : list A) :
  Forall (fun x => p x = false) l -> length (List.filter p l) = 0.
Proof.
  induction 1 as [|x l Hx _ IH]; [reflexivity|]. cbn. rewrite Hx. exact IH.
Qed.

(** X16. The statistics of a converted collection have an empty "other"
    bucket: points, lines and polygons add up to the total. *)
Theorem osmToGeoJSON_statistics (clipBoundary : option ClipPolygon)
    (node_pass_progress : nat -> nat -> Z)
    (way_pass_progress : nat -> nat -> nat -> Z) (onProgress : bool)
    (elements : option (list Element)) :
  let stats :=
    GeometryProcessor.getStatistics
      (fst (GeometryProcessor.osmToGeoJSON clipBoundary node_pass_progress
              way_pass_progress onProgress elements)) in
  GeometryProcessor.other stats = 0
  /\ GeometryProcessor.points stats + GeometryProcessor.lines stats
     + GeometryProcessor.polygons stats
     = GeometryProcessor.totalFeatures stats.
Proof.
  cbv zeta.
  destruct (output_kinds clipBoundary node_pass_progress
              way_pass_progress onProgress elements)
    as (pts & ws & rs & Hf & Hp & Hw & Hr).
  unfold GeometryProcessor.getStatistics. rewrite Hf.
  set (fs := pts ++ ws ++ rs).
  destruct (count_feature_fold fs
              {| GeometryProcessor.totalFeatures := length fs;
                 GeometryProcessor.points := 0; GeometryProcessor.lines := 0;
                 GeometryProcessor.polygons := 0; GeometryProcessor.other := 0 |})
    as (Ht & Hpo & Hl & Hg & Ho).
  cbn [GeometryProcessor.totalFeatures GeometryProcessor.points
       GeometryProcessor.lines GeometryProcessor.polygons
       GeometryProcessor.other] in *.
  pose proof (buckets_partition fs) as Hsum.
  assert (Hother : length (List.filter Spec.other_like fs) = 0).
  { apply filter_nothing. apply Forall_app3.
    - eapply Forall_impl; [exact Hp|]. intros f H.
      unfold Spec.is_point in H. unfold Spec.other_like, Spec.point_like.
      destruct (geometry f); try contradiction. reflexivity.
    - eapply Forall_impl; [exact Hw|]. intros f H.
      unfold Spec.is_line_or_polygon in H.
      unfold Spec.other_like, Spec.point_like, Spec.line_like, Spec.polygon_like.
      destruct (geometry f); try contradiction; reflexivity.
    - eapply Forall_impl; [exact Hr|]. intros f H.
      unfold Spec.is_multiline in H.
      unfold Spec.other_like, Spec.point_like, Spec.line_like.
      destruct (geometry f); try contradiction; reflexivity. }
  rewrite Ht, Hpo, Hl, Hg, Ho. lia.
Qed.

(** * Further properties of statistics, sampling and filtering *)

Section SplitFacts.

Import GeometryProcessor.

Variable c : string.

Abbreviation collection l := {| features := Some l; crs := c |}.

Lemma split_bucket_cases (f : Feature) :
  (Spec.point_like f = true /\ Spec.line_like f = false
   /\ Spec.polygon_like f = false /\ Spec.other_like f = false)
  \/ (Spec.point_like f = false /\ Spec.line_like f = true
      /\ Spec.polygon_like f = false /\ Spec.other_like f = false)
  \/ (Spec.point_like f = false /\ Spec.line_like f = false
      /\ Spec.polygon_like f = true /\ Spec.other_like f = false)
  \/ (Spec.point_like f = false /\ Spec.line_like f = false
      /\ Spec.polygon_like f = false /\ Spec.other_like f = true).
Proof.
  unfold Spec.other_like, Spec.point_like, Spec.line_like, Spec.polygon_like.
  set (type := geometry_type (geometry f)).
  destruct (String.eqb_spec type "Point") as [->|_]; [cbn; tauto|].
  destruct (String.eqb_spec type "MultiPoint") as [->|_]; [cbn; tauto|].
  destruct (String.eqb_spec type "LineString") as [->|_]; [cbn; tauto|].
  destruct (String.eqb_spec type "MultiLineString") as [->|_]; [cbn; tauto|].
  destruct (String.eqb_spec type "Polygon") as [->|_]; [cbn; tauto|].
  destruct (String.eqb_spec type "MultiPolygon") as [->|_]; cbn; tauto.
Qed.

Lemma split_fold (fs : list Feature) : forall ps ls gs os,
  fold_left split_feature fs
    {| split_points := collection ps; split_lines := collection ls;
       split_polygons := collection gs; split_other := collection os |}
  = {| split_points := collection (ps ++ List.filter Spec.point_like fs);
       split_lines := collection (ls ++ List.filter Spec.line_like fs);
       split_polygons := collection (gs ++ List.filter Spec.polygon_like fs);
       split_other := collection (os ++ List.filter Spec.other_like fs) |}.
Proof.
  induction fs as [|f fs IH]; intros ps ls gs os; cbn [fold_left List.filter].
  - rewrite !app_nil_r. reflexivity.
  - assert (Hstep :
      split_feature
        {| split_points := collection ps; split_lines := collection ls;
           split_polygons := collection gs; split_other := collection os |} f
      = {| split_points :=
             collection (ps ++ (if Spec.point_like f then [f] else []));
           split_lines :=
             collection (ls ++ (if Spec.line_like f then [f] else []));
           split_polygons :=
             collection (gs ++ (if Spec.polygon_like f then [f] else []));
           split_other :=
             collection (os ++ (if Spec.other_like f then [f] else [])) |}).
    { unfold split_feature.
      destruct (split_bucket_cases f) as [H|[H|[H|H]]];
        destruct H as (Hp & Hl & Hg & Ho); rewrite Hp, Hl, Hg, Ho;
        unfold Spec.point_like, Spec.line_like, Spec.polygon_like in Hp, Hl, Hg;
        cbv zeta in Hp, Hl, Hg; rewrite ?Hp, ?Hl, ?Hg;
        cbn [push_feature features crs default split_points split_lines
             split_polygons split_other];
        rewrite ?app_nil_r; reflexivity. }
    rewrite Hstep, IH.
    destruct (Spec.point_like f), (Spec.line_like f), (Spec.polygon_like f),
      (Spec.other_like f); rewrite <- ?app_assoc, ?app_nil_r; reflexivity.
Qed.

End SplitFacts.

(** X20. [splitByGeometryType] sorts the features of a collection into
    four collections, each in collection order and with the same crs:
    point-like, line-like, polygon-like, and the rest; their sizes are
    the bucket counts of [getStatistics]. *)
Theorem splitByGeometryType_partition (fs : list Feature) (c : string) :
  let g := {| features := Some fs; crs := c |} in
  let stats := GeometryProcessor.getStatistics g in
  GeometryProcessor.splitByGeometryType g
  = JS.Return
      {| GeometryProcessor.split_points :=
           {| features := Some (List.filter Spec.point_like fs); crs := c |};
         GeometryProcessor.split_lines :=
           {| features := Some (List.filter Spec.line_like fs); crs := c |};
         GeometryProcessor.split_polygons :=
           {| features := Some (List.filter Spec.polygon_like fs); crs := c |};
         GeometryProcessor.split_other :=
           {| features := Some (List.filter Spec.other_like fs); crs := c |} |}
  /\ length (List.filter Spec.point_like fs) = GeometryProcessor.points stats
  /\ length (List.filter Spec.line_like fs) = GeometryProcessor.lines stats
  /\ length (List.filter Spec.polygon_like fs) = GeometryProcessor.polygons stats
  /\ length (List.filter Spec.other_like fs) = GeometryProcessor.other stats.
Proof.
  cbv zeta. split.
  - unfold GeometryProcessor.splitByGeometryType. cbn [features crs].
    rewrite (split_fold c fs [] [] [] []). reflexivity.
  - unfold GeometryProcessor.getStatistics. cbn [features].
    destruct (count_feature_fold fs
                {| GeometryProcessor.totalFeatures := length fs;
                   GeometryProcessor.points := 0; GeometryProcessor.lines := 0;
                   GeometryProcessor.polygons := 0;
                   GeometryProcessor.other := 0 |})
      as (_ & Hp & Hl & Hg & Ho).
    cbn [GeometryProcessor.points GeometryProcessor.lines
         GeometryProcessor.polygons GeometryProcessor.other] in *.
    rewrite Hp, Hl, Hg, Ho. auto.
Qed.

(** X21. A sample never has more than [limit] features, and each of its
    features is a feature of the collection whose type is Point,
    LineString or Polygon. *)
Theorem getSampleFeatures_bounds (geojson : FeatureCollection) (limit : nat) :
  let sample := GeometryProcessor.getSampleFeatures geojson limit in
  length sample <= limit
  /\ Forall (fun f =>
       (exists fs, features geojson = Some fs /\ In f fs)
       /\ In (geometry_type (geometry f)) GeometryProcessor.sample_types)
     sample.
Proof.
  cbv zeta. destruct geojson as [[fs|] c].
  2:{ cbn. split; [lia | constructor]. }
  destruct fs as [|f0 fs0].
  { cbn. split; [lia | constructor]. }
  rewrite getSampleFeatures_eq by discriminate.
  set (fs := f0 :: fs0). split.
  - rewrite length_firstn. lia.
  - assert (H : forall type, In type GeometryProcessor.sample_types ->
      Forall (fun f =>
         (exists l, Some fs = Some l /\ In f l)
         /\ In (geometry_type (geometry f)) GeometryProcessor.sample_types)
        (firstn (GeometryProcessor.ceil_div limit 3) (Spec.of_type type fs))).
    { intros type Htype. apply Forall_forall. intros f Hf.
      apply (subseteq_take _), list_elem_of_In, filter_In in Hf.
      destruct Hf as [Hin Heq]. apply String.eqb_eq in Heq.
      split; [eauto | rewrite Heq; exact Htype]. }
    apply Forall_take. apply Forall_app3; apply H; cbn; auto.
Qed.

Section FilterFacts.

Import ExportService.

Lemma filter_sublist {A} (p : A -> bool) (l : list A) :
  List.filter p l `sublist_of` l.
Proof.
  induction l as [|x l IH]; cbn; [constructor|].
  destruct (p x); [apply sublist_skip | apply sublist_cons]; exact IH.
Qed.

Lemma filter_filter_same {A} (p : A -> bool) (l : list A) :
  List.filter p (List.filter p l) = List.filter p l.
Proof.
  apply filter_all. apply Forall_forall. intros x Hx.
  apply list_elem_of_In, filter_In in Hx. apply Hx.
Qed.

(** The test of the filter on one kind is the bucket test. *)
Lemma allowed_single (kind : string) (f : Feature) :
  bool_decide (geometry_type (geometry f) ∈ allowed_set [kind]) = true
  <-> Spec.kind_covers kind (geometry_type (geometry f)).
Proof.
  rewrite bool_decide_eq_true, allowed_set_elem. split.
  - intros (k & Hk & Hc). apply list_elem_of_singleton in Hk. subst. exact Hc.
  - intros Hc. exists kind. split; [left | exact Hc].
Qed.

Lemma filter_ext_iff {A} (p q : A -> bool) (l : list A) :
  (forall x, p x = true <-> q x = true) -> List.filter p l = List.filter q l.
Proof.
  intros H. apply filter_ext. intros x. specialize (H x).
  destruct (p x), (q x); intuition congruence.
Qed.

Lemma covers_point (f : Feature) :
  Spec.kind_covers "Point" (geometry_type (geometry f))
  <-> Spec.point_like f = true.
Proof.
  unfold Spec.kind_covers, Spec.point_like. cbv zeta.
  rewrite orb_true_iff, !String.eqb_eq. split.
  - intros [[_ H]|[[H _]|[H _]]]; [exact H | discriminate..].
  - intros H. left. auto.
Qed.

Lemma covers_line (f : Feature) :
  Spec.kind_covers "LineString" (geometry_type (geometry f))
  <-> Spec.line_like f = true.
Proof.
  unfold Spec.kind_covers, Spec.line_like. cbv zeta.
  rewrite orb_true_iff, !String.eqb_eq. split.
  - intros [[H _]|[[_ H]|[H _]]]; [discriminate | exact H | discriminate].
  - intros H. right. left. auto.
Qed.

Lemma covers_polygon (f : Feature) :
  Spec.kind_covers "Polygon" (geometry_type (geometry f))
  <-> Spec.polygon_like f = true.
Proof.
  unfold Spec.kind_covers, Spec.polygon_like. cbv zeta.
  rewrite orb_true_iff, !String.eqb_eq. split.
  - intros [[H _]|[[H _]|[_ H]]]; [discriminate.. | exact H].
  - intros H. right. right. auto.
Qed.

End FilterFacts.

(** X22. When no requested kind names an inherited object property,
    [filterByGeometry] returns, with the same crs and in collection
    order, exactly the features whose geometry type is covered by one of
    the requested kinds, and filtering the result again with the same
    kinds changes nothing.  When some requested kind names an inherited
    object property, it throws a [TypeError]. *)
Theorem filterByGeometry_keeps_covered (fs : list Feature) (c : string)
    (kinds : list string) :
  (Spec.plain_kinds kinds ->
   exists kept,
     ExportService.filterByGeometry {| features := Some fs; crs := c |} kinds
     = JS.Return {| features := Some kept; crs := c |}
     /\ kept `sublist_of` fs
     /\ (forall f, f ∈ kept <->
           f ∈ fs /\ exists kind, kind ∈ kinds
                      /\ Spec.kind_covers kind (geometry_type (geometry f)))
     /\ ExportService.filterByGeometry {| features := Some kept; crs := c |} kinds
        = JS.Return {| features := Some kept; crs := c |})
  /\ (Exists (fun kind => In kind ExportService.inherited_properties) kinds ->
      ExportService.filterByGeometry {| features := Some fs; crs := c |} kinds
      = JS.Throw (JS.TypeError "typeMap[type].forEach is not a function")).
Proof.
  split.
  - intros Hplain. eexists. rewrite !filterByGeometry_plain by exact Hplain.
    cbn [features crs].
    split; [reflexivity|]. split; [apply filter_sublist|]. split.
    + intros f. rewrite !list_elem_of_In, filter_In, bool_decide_eq_true,
        allowed_set_elem. reflexivity.
    + rewrite filter_filter_same. reflexivity.
  - intros Hex. unfold ExportService.filterByGeometry.
    rewrite (build_allowed_inherited kinds Hex). reflexivity.
Qed.

(** X23. Filtering on the single kind Point, LineString or Polygon keeps
    as many features as [getStatistics] counts points, lines or
    polygons. *)
Theorem filterByGeometry_matches_statistics (fs : list Feature) (c : string) :
  let g := {| features := Some fs; crs := c |} in
  let stats := GeometryProcessor.getStatistics g in
  (exists kept, ExportService.filterByGeometry g ["Point"]
                = JS.Return {| features := Some kept; crs := c |}
                /\ length kept = GeometryProcessor.points stats)
  /\ (exists kept, ExportService.filterByGeometry g ["LineString"]
                   = JS.Return {| features := Some kept; crs := c |}
                   /\ length kept = GeometryProcessor.lines stats)
  /\ (exists kept, ExportService.filterByGeometry g ["Polygon"]
                   = JS.Return {| features := Some kept; crs := c |}
                   /\ length kept = GeometryProcessor.polygons stats).
Proof.
  cbv zeta.
  unfold GeometryProcessor.getStatistics. cbn [features].
  destruct (count_feature_fold fs
              {| GeometryProcessor.totalFeatures := length fs;
                 GeometryProcessor.points := 0; GeometryProcessor.lines := 0;
                 GeometryProcessor.polygons := 0;
                 GeometryProcessor.other := 0 |})
    as (_ & Hp & Hl & Hg & _).
  cbn [GeometryProcessor.points GeometryProcessor.lines
       GeometryProcessor.polygons] in *.
  rewrite Hp, Hl, Hg.
  assert (Hplain : forall kind, In kind ["Point"; "LineString"; "Polygon"] ->
                                Spec.plain_kinds [kind]).
  { intros kind Hkind. constructor; [|constructor]. intros Hin.
    cbn in Hkind. destruct Hkind as [<-|[<-|[<-|[]]]]; cbn in Hin;
      repeat (destruct Hin as [Hin|Hin]; [discriminate Hin|]); exact Hin. }
  split; [|split]; eexists;
    (rewrite filterByGeometry_plain by (apply Hplain; cbn; auto));
    cbn [features crs];
    (split; [reflexivity|]); cbn [Nat.add];
    f_equal; apply filter_ext_iff; intros f; rewrite allowed_single.
  - apply covers_point.
  - apply covers_line.
  - apply covers_polygon.
Qed.

(** X24. A format other than geojson, shapefile, kml, gpx and osm never
    produces a result: [export] throws.  When no geometry filter is
    requested and the metadata are generated, the error is
    "Export failed: Unsupported export format". *)
Theorem export_unsupported_format {OsmData Metadata Output : Type}
    (generateMetadata : FeatureCollection -> option LatLngBounds ->
       option (list string) -> string -> string -> JS.Result Metadata)
    (exportGeoJSON exportShapefile :
       FeatureCollection -> string -> Metadata -> JS.Result Output)
    (exportKML exportGPX : FeatureCollection -> string -> JS.Result Output)
    (exportOSM : OsmData -> string -> JS.Result Output)
    (format : string) (geojson : FeatureCollection) (osmData : OsmData)
    (filename : string) (geometryFilter : option (list string))
    (bounds : option LatLngBounds) (selectedFeatures : option (list string)) :
  ~ In format Spec.supported_formats ->
  (exists e,
     ExportService.export generateMetadata exportGeoJSON exportShapefile
       exportKML exportGPX exportOSM
       format geojson osmData filename geometryFilter bounds selectedFeatures
     = JS.Throw e)
  /\ (forall metadata,
        generateMetadata geojson bounds selectedFeatures format filename
        = JS.Return metadata ->
        ExportService.export generateMetadata exportGeoJSON exportShapefile
          exportKML exportGPX exportOSM
          format geojson osmData filename None bounds selectedFeatures
        = JS.Throw (JS.Error "Export failed: Unsupported export format")).
Proof.
  intros Hfmt.
  assert (Hne : String.eqb format "geojson" = false
                /\ String.eqb format "shapefile" = false
                /\ String.eqb format "kml" = false
                /\ String.eqb format "gpx" = false
                /\ String.eqb format "osm" = false).
  { repeat split; apply String.eqb_neq; intros ->; apply Hfmt; cbn; auto 10. }
  destruct Hne as (H1 & H2 & H3 & H4 & H5).
  unfold ExportService.export. rewrite H1, H2, H3, H4, H5. split.
  - unfold JS.try_catch.
    match goal with |- exists e, match ?body with _ => _ end = _ =>
      assert (Hbody : forall r, body <> JS.Return r) end.
    { intros r.
      match goal with |- mbind _ ?c <> _ => destruct c as [g'|e1] end;
        [|discriminate].
      cbn. destruct (generateMetadata g' _ _ _ _); discriminate. }
    match goal with |- exists e, match ?body with _ => _ end = _ =>
      destruct body as [r|e'] end.
    + destruct (Hbody r eq_refl).
    + eexists. reflexivity.
  - intros metadata Hm. cbn. rewrite Hm. reflexivity.
Qed.

Lemma export_unsupported_format_witness :
  ExportService.export Examples.metadata_ok Examples.encode3_ok
    Examples.encode3_ok Examples.encode2_ok Examples.encode2_ok
    Examples.encode_osm_ok
    "pdf" Examples.one_point None "extract" None None None
  = JS.Throw (JS.Error "Export failed: Unsupported export format").
Proof.
  refine (proj2 (export_unsupported_format Examples.metadata_ok
            Examples.encode3_ok Examples.encode3_ok Examples.encode2_ok
            Examples.encode2_ok Examples.encode_osm_ok
            "pdf" Examples.one_point None "extract" None None None _) tt eq_refl).
  cbn. intros [H|[H|[H|[H|[H|[]]]]]]; discriminate H.
Defined.


(** * Strings: XML escaping and file names *)

Section Strings.

Import ExportService.

Lemma append_assoc (s1 s2 s3 : string) :
  String.append (String.append s1 s2) s3
  = String.append s1 (String.append s2 s3).
Proof.
  induction s1 as [|c s1 IH]; [reflexivity|].
  change (String c (String.append (String.append s1 s2) s3)
          = String c (String.append s1 (String.append s2 s3))).
  f_equal. exact IH.
Qed.

Lemma replace_all_append (c : ascii) (repl s1 s2 : string) :
  replace_all c repl (String.append s1 s2)
  = String.append (replace_all c repl s1) (replace_all c repl s2).
Proof.
  induction s1 as [|a s1 IH]; [reflexivity|].
  change (String.append (String a s1) s2) with (String a (String.append s1 s2)).
  cbn [replace_all]. rewrite IH.
  destruct (Ascii.eqb a c); [|reflexivity].
  rewrite append_assoc. reflexivity.
Qed.

(** The five successive replacements escape each character on its own. *)
Lemma escapeXML_step (c : ascii) (s : string) :
  escapeXML (String c s) = String.append (Spec.escape_char c) (escapeXML s).
Proof.
  unfold escapeXML, Spec.escape_char.
  cbn [replace_all].
  destruct (Ascii.eqb_spec c amp) as [->|Hamp].
  { rewrite !replace_all_append. reflexivity. }
  cbn [replace_all].
  destruct (Ascii.eqb_spec c lt) as [->|Hlt].
  { rewrite !replace_all_append. reflexivity. }
  cbn [replace_all].
  destruct (Ascii.eqb_spec c gt) as [->|Hgt].
  { rewrite !replace_all_append. reflexivity. }
  cbn [replace_all].
  destruct (Ascii.eqb_spec c quot) as [->|Hquot].
  { rewrite !replace_all_append. reflexivity. }
  cbn [replace_all].
  destruct (Ascii.eqb_spec c apos) as [->|Hapos]; reflexivity.
Qed.

Lemma all_chars_append p s1 s2 :
  Spec.all_chars p (String.append s1 s2)
  = Spec.all_chars p s1 && Spec.all_chars p s2.
Proof.
  induction s1 as [|c s1 IH]; [reflexivity|].
  change (String.append (String c s1) s2) with (String c (String.append s1 s2)).
  cbn [Spec.all_chars]. rewrite IH, andb_assoc. reflexivity.
Qed.

Lemma escape_char_not_markup (c : ascii) :
  Spec.all_chars Spec.not_markup (Spec.escape_char c) = true.
Proof.
  unfold Spec.escape_char.
  destruct (Ascii.eqb c amp); [reflexivity|].
  destruct (Ascii.eqb c lt) eqn:Hlt; [reflexivity|].
  destruct (Ascii.eqb c gt) eqn:Hgt; [reflexivity|].
  destruct (Ascii.eqb c quot) eqn:Hquot; [reflexivity|].
  destruct (Ascii.eqb c apos) eqn:Hapos; [reflexivity|].
  cbn. unfold Spec.not_markup. rewrite Hlt, Hgt, Hquot, Hapos. reflexivity.
Qed.

(** Two escaped characters followed by anything are equal only when the
    characters are. *)
Lemma escape_char_prefix (c1 c2 : ascii) (x y : string) :
  String.append (Spec.escape_char c1) x = String.append (Spec.escape_char c2) y ->
  c1 = c2 /\ x = y.
Proof.
  unfold Spec.escape_char.
  destruct (Ascii.eqb_spec c1 amp) as [->|A1];
    [|destruct (Ascii.eqb_spec c1 lt) as [->|L1];
      [|destruct (Ascii.eqb_spec c1 gt) as [->|G1];
        [|destruct (Ascii.eqb_spec c1 quot) as [->|Q1];
          [|destruct (Ascii.eqb_spec c1 apos) as [->|P1]]]]];
  (destruct (Ascii.eqb_spec c2 amp) as [->|A2];
    [|destruct (Ascii.eqb_spec c2 lt) as [->|L2];
      [|destruct (Ascii.eqb_spec c2 gt) as [->|G2];
        [|destruct (Ascii.eqb_spec c2 quot) as [->|Q2];
          [|destruct (Ascii.eqb_spec c2 apos) as [->|P2]]]]]);
  intros H; simpl in H; unfold amp, lt, gt, quot, apos in *;
  try discriminate H;
  try (injection H; intros; subst; auto; congruence).
Qed.

Lemma escape_char_nonempty (c : ascii) :
  exists a t, Spec.escape_char c = String a t.
Proof.
  unfold Spec.escape_char.
  repeat match goal with |- context [if ?b then _ else _] =>
    destruct b; [eexists; eexists; reflexivity|] end.
  eexists. eexists. reflexivity.
Qed.

Lemma substring_prefix_length (n : nat) : forall s,
  String.length (String.substring 0 n s) = Nat.min n (String.length s).
Proof.
  induction n as [|n IH]; intros [|c s]; cbn; try reflexivity.
  rewrite IH. reflexivity.
Qed.

Lemma substring_prefix_chars p (n : nat) : forall s,
  Spec.all_chars p s = true ->
  Spec.all_chars p (String.substring 0 n s) = true.
Proof.
  induction n as [|n IH]; intros [|c s]; cbn; try reflexivity.
  intros H. apply andb_true_iff in H. destruct H as [-> H].
  apply IH, H.
Qed.

Lemma substring_prefix_idem (n : nat) : forall s,
  String.substring 0 n (String.substring 0 n s) = String.substring 0 n s.
Proof.
  induction n as [|n IH]; intros [|c s]; cbn; try reflexivity.
  rewrite IH. reflexivity.
Qed.

Lemma replace_unsafe_chars (s : string) :
  Spec.all_chars Utils.filename_char (Utils.replace_unsafe s) = true.
Proof.
  induction s as [|c s IH]; cbn; [reflexivity|].
  rewrite IH, andb_true_r.
  destruct (Utils.filename_char c) eqn:Hc; [exact Hc | reflexivity].
Qed.

Lemma replace_unsafe_length (s : string) :
  String.length (Utils.replace_unsafe s) = String.length s.
Proof. induction s as [|c s IH]; cbn; [reflexivity | rewrite IH; reflexivity]. Qed.

Lemma replace_unsafe_fixed (s : string) :
  Spec.all_chars Utils.filename_char s = true -> Utils.replace_unsafe s = s.
Proof.
  induction s as [|c s IH]; cbn; [reflexivity|].
  intros H. apply andb_true_iff in H. destruct H as [-> H].
  rewrite IH by exact H. reflexivity.
Qed.

End Strings.

(** X25. [escapeXML] escapes each character on its own: nothing stays
    empty but the empty string, an escaped string is the escape of its
    first character followed by the escape of the rest, and no [<], [>],
    double quote or apostrophe is left in it. *)
Theorem escapeXML_character_wise (s : string) :
  ExportService.escapeXML EmptyString = EmptyString
  /\ (forall c, ExportService.escapeXML (String c s)
                = String.append (Spec.escape_char c) (ExportService.escapeXML s))
  /\ Spec.all_chars Spec.not_markup (ExportService.escapeXML s) = true.
Proof.
  split; [reflexivity|]. split; [intros c; apply escapeXML_step|].
  induction s as [|c s IH]; [reflexivity|].
  rewrite escapeXML_step, all_chars_append, escape_char_not_markup, IH.
  reflexivity.
Qed.

(** X26. [escapeXML] loses nothing: two strings with the same escaped
    form are equal. *)
Theorem escapeXML_injective (s1 s2 : string) :
  ExportService.escapeXML s1 = ExportService.escapeXML s2 -> s1 = s2.
Proof.
  revert s2. induction s1 as [|c1 s1 IH]; intros [|c2 s2] H.
  - reflexivity.
  - rewrite escapeXML_step in H.
    destruct (escape_char_nonempty c2) as (a & t & E). rewrite E in H.
    discriminate H.
  - rewrite escapeXML_step in H.
    destruct (escape_char_nonempty c1) as (a & t & E). rewrite E in H.
    discriminate H.
  - rewrite !escapeXML_step in H. apply escape_char_prefix in H.
    destruct H as [-> H]. f_equal. apply IH, H.
Qed.

Lemma escapeXML_injective_witness :
  String.append "a<b" EmptyString = "a<b".
Proof.
  apply (escapeXML_injective (String.append "a<b" EmptyString) "a<b").
  reflexivity.
Defined.

(** X27. A sanitized file name has at most 100 characters, exactly
    min(100, length of the name); each of them is a letter, a digit, an
    underscore or a hyphen; sanitizing it again changes nothing. *)
Theorem sanitizeFilename_safe (name : string) :
  let stem := Utils.sanitizeFilename name in
  String.length stem = Nat.min 100 (String.length name)
  /\ String.length stem <= 100
  /\ Spec.all_chars Utils.filename_char stem = true
  /\ Utils.sanitizeFilename stem = stem.
Proof.
  cbv zeta. unfold Utils.sanitizeFilename.
  assert (Hchars : Spec.all_chars Utils.filename_char
                     (String.substring 0 100 (Utils.replace_unsafe name)) = true)
    by apply substring_prefix_chars, replace_unsafe_chars.
  split; [|split; [|split]].
  - rewrite substring_prefix_length, replace_unsafe_length. reflexivity.
  - rewrite substring_prefix_length. lia.
  - exact Hchars.
  - rewrite (replace_unsafe_fixed _ Hchars). apply substring_prefix_idem.
Qed.

(** * Coordinate validation of collections *)

Section Validation.

Import GeometryProcessor.

Variable show : JS.num -> string.

(** Induction on a [coordinates] value, with the hypothesis on every
    member of an array. *)
Lemma Coords_nested_ind (P : Coords -> Prop) :
  (forall p, P (Position p)) ->
  (forall l, Forall P l -> P (Nested l)) ->
  forall coords, P coords.
Proof.
  intros HP HN. fix IH 1. intros [p|l].
  - apply HP.
  - apply HN. induction l as [|c l IHl]; constructor.
    + apply IH.
    + exact IHl.
Qed.

Lemma result_unit (r : JS.Result unit) :
  (exists e, r = JS.Throw e) \/ r = JS.Return tt.
Proof. destruct r as [[]|e]; eauto. Qed.

(** The upload check and the cleaning test agree on every value. *)
Lemma validateCoord_iff (coords : Coords) :
  FileParser.validateCoord show coords = JS.Return tt
  <-> hasValidCoordinates coords = true.
Proof.
  induction coords as [p|l IH] using Coords_nested_ind.
  - cbn [FileParser.validateCoord hasValidCoordinates].
    destruct (Utils.isValidCoordinate _ _); cbn [negb];
      split; (reflexivity || discriminate).
  - destruct l as [|c l]; [cbn; split; discriminate|].
    revert c IH. induction l as [|c' l IHl]; intros c Hall;
      inversion Hall as [|? ? Hc Hl]; subst.
    + assert (Hv : FileParser.validateCoord show (Nested [c])
                   = match FileParser.validateCoord show c with
                     | JS.Return _ => JS.Return tt
                     | JS.Throw e => JS.Throw e
                     end) by reflexivity.
      assert (Hh : hasValidCoordinates (Nested [c])
                   = hasValidCoordinates c && true) by reflexivity.
      rewrite Hv, Hh, andb_true_r, <- Hc.
      destruct (result_unit (FileParser.validateCoord show c)) as [[e ->]| ->].
      * split; discriminate.
      * tauto.
    + assert (Hv : FileParser.validateCoord show (Nested (c :: c' :: l))
                   = match FileParser.validateCoord show c with
                     | JS.Return _ =>
                         FileParser.validateCoord show (Nested (c' :: l))
                     | JS.Throw e => JS.Throw e
                     end) by reflexivity.
      assert (Hh : hasValidCoordinates (Nested (c :: c' :: l))
                   = hasValidCoordinates c
                     && hasValidCoordinates (Nested (c' :: l))) by reflexivity.
      rewrite Hv, Hh, andb_true_iff, <- Hc, <- (IHl c' Hl).
      destruct (result_unit (FileParser.validateCoord show c)) as [[e ->]| ->].
      * split; [discriminate | intros [H _]; discriminate H].
      * tauto.
Qed.

Lemma validate_feature_iff (f : Feature) :
  FileParser.validate_feature show f = JS.Return tt
  <-> Spec.has_coordinates f = false \/ valid_feature f = true.
Proof.
  unfold FileParser.validate_feature, Spec.has_coordinates, valid_feature.
  destruct (geometry_coordinates (geometry f)) as [coords|]; [|tauto].
  rewrite <- validateCoord_iff. unfold JS.try_catch.
  destruct (result_unit (FileParser.validateCoord show coords)) as [[e ->]| ->].
  - split; [discriminate | intros [H|H]; discriminate H].
  - tauto.
Qed.

Lemma validate_each_iff (fs : list Feature) :
  FileParser.validate_each show fs = JS.Return tt
  <-> Forall (fun f => Spec.has_coordinates f = false \/ valid_feature f = true) fs.
Proof.
  induction fs as [|f fs IH]; cbn [FileParser.validate_each].
  - split; [constructor | reflexivity].
  - rewrite Forall_cons, <- IH, <- validate_feature_iff.
    destruct (result_unit (FileParser.validate_feature show f)) as [[e ->]| ->].
    + split; [discriminate | intros [H _]; discriminate H].
    + tauto.
Qed.

Lemma valid_feature_has_coordinates (f : Feature) :
  valid_feature f = true -> Spec.has_coordinates f = true.
Proof.
  unfold valid_feature, Spec.has_coordinates.
  destruct (geometry_coordinates (geometry f)); [reflexivity | discriminate].
Qed.

End Validation.

(** X28. The upload check accepts a collection exactly when each of its
    features either has no coordinates or passes the coordinate test of
    [cleanGeoJSON]: the two recursive checks agree. *)
Theorem validateCoordinates_iff (show : JS.num -> string) (fs : list Feature)
    (c : string) :
  FileParser.validateCoordinates show {| features := Some fs; crs := c |}
  = JS.Return tt
  <-> Forall (fun f => Spec.has_coordinates f = false
                       \/ GeometryProcessor.valid_feature f = true) fs.
Proof. apply validate_each_iff. Qed.

(** X29. A cleaned collection keeps, in order, the features with valid
    coordinates; it passes the upload check, and cleaning it again
    changes nothing. *)
Theorem cleanGeoJSON_passes_validation (show : JS.num -> string)
    (geojson : FeatureCollection) :
  let cleaned := GeometryProcessor.cleanGeoJSON geojson in
  (exists kept, features cleaned = Some kept
                /\ kept `sublist_of` default [] (features geojson)
                /\ Forall (fun f => GeometryProcessor.valid_feature f = true) kept)
  /\ FileParser.validateCoordinates show cleaned = JS.Return tt
  /\ GeometryProcessor.cleanGeoJSON cleaned = cleaned.
Proof.
  cbv zeta. unfold GeometryProcessor.cleanGeoJSON.
  set (kept := match features geojson with
               | Some fs => List.filter GeometryProcessor.valid_feature fs
               | None => []
               end).
  assert (Hvalid : Forall (fun f => GeometryProcessor.valid_feature f = true) kept).
  { subst kept. destruct (features geojson) as [fs|]; [|constructor].
    apply Forall_forall. intros f Hf.
    apply list_elem_of_In, filter_In in Hf. apply Hf. }
  split; [|split].
  - exists kept. split; [reflexivity|]. split; [|exact Hvalid].
    subst kept. destruct (features geojson) as [fs|]; cbn [default].
    + apply filter_sublist.
    + constructor.
  - apply validate_each_iff. eapply Forall_impl; [exact Hvalid|]. auto.
  - cbn [features crs]. rewrite filter_all by exact Hvalid. reflexivity.
Qed.

(** X30. The coordinate test reads a position as [lng, lat]: a Point is
    valid exactly when [isValidCoordinate(lat, lon)] holds, and a
    LineString exactly when it is not empty and every one of its
    positions is valid. *)
Theorem valid_feature_point_and_line (props : Tags) :
  (forall lon lat,
      GeometryProcessor.valid_feature
        {| geometry := Point (lon, lat); properties := props |}
      = Utils.isValidCoordinate lat lon)
  /\ (forall cs,
        GeometryProcessor.valid_feature
          {| geometry := LineString cs; properties := props |} = true
        <-> cs <> []
            /\ Forall (fun c => Utils.isValidCoordinate (snd c) (fst c) = true) cs).
Proof.
  split; [reflexivity|]. intros cs.
  unfold GeometryProcessor.valid_feature.
  cbn [geometry GeometryProcessor.geometry_coordinates
       GeometryProcessor.line_coords].
  destruct cs as [|c cs].
  - cbn. split; [discriminate | intros [H _]; contradiction].
  - change (GeometryProcessor.hasValidCoordinates
              (GeometryProcessor.line_coords (c :: cs)))
      with (forallb GeometryProcessor.hasValidCoordinates
              (map GeometryProcessor.position (c :: cs))).
    rewrite forallb_forall. split.
    + intros H. split; [discriminate|]. apply Forall_forall. intros x Hx.
      apply (H (GeometryProcessor.position x)), in_map.
      apply list_elem_of_In, Hx.
    + intros [_ H] x Hx. apply in_map_iff in Hx. destruct Hx as (y & <- & Hy).
      rewrite Forall_forall in H. apply (H y), list_elem_of_In, Hy.
Qed.
